(** * AlphaTrade: advanced order strategies (OCO, grid, TWAP)

    A shallow embedding of [src/orders/advanced/oco.py], [grid.py],
    [twap.py] and of the request models of [src/client/validator.py].

    Conventions of the embedding.
    - Python [float] values are exact rationals ([Q]); equalities between
      computed quantities are stated with [==].  Concrete inputs used in
      evaluations are dyadic, or small integers, so that binary floating
      point computes the same values.
    - The methods of [BinanceFuturesClient], [click.confirm], [time.time]
      and [time.sleep] are interactions with an environment.  The
      environment is a script of responses consumed one per interaction;
      every interaction is recorded in a log.
    - Python objects that are shared between the caller, the registry of a
      manager and its background thread live in a store indexed by
      addresses; the registry maps ids to addresses.
    - A loop that may run forever takes fuel and answers [Running] when
      the fuel is spent.

    Left out, because they compute nothing that the managers read back:
    the console output, the timestamps taken with [datetime.now()] and the
    listing methods.  Of the grid manager the start and the handling of a
    fill are modelled; its polling loop and its stop method only walk the
    two dicts of orders. *)

From Stdlib Require Import QArith Qround Lqa ZArith Lia Ascii String.
From stdpp Require Import gmap strings list pretty.

Local Open Scope Q_scope.

(** ** Python numerics *)

Module Py.

(** [round(x)] on a float: nearest integer, ties to the even one. *)
Definition round (x : Q) : Z :=
  let f := Qfloor x in
  let d := x - inject_Z f in
  match Qcompare d (1 # 2) with
  | Lt => f
  | Gt => (f + 1)%Z
  | Eq => if Z.even f then f else (f + 1)%Z
  end.

(** [round(x, 1)]: nearest multiple of one tenth, ties to even. *)
Definition round1 (x : Q) : Q := inject_Z (round (x * 10)) / 10.

(** [round(x, n)] for a non-negative number of decimals. *)
Definition round_n (x : Q) (n : nat) : Q :=
  inject_Z (round (x * inject_Z (10 ^ Z.of_nat n))) / inject_Z (10 ^ Z.of_nat n).

(** [min(a, b)]: the first argument unless the second is smaller. *)
Definition min (a b : Q) : Q := if Qlt_le_dec b a then b else a.

Definition ltb (a b : Q) : bool := if Qlt_le_dec a b then true else false.
Definition leb (a b : Q) : bool := if Qlt_le_dec b a then false else true.
Definition eqb (a b : Q) : bool := Qeq_bool a b.

(** [int(x)] truncates toward zero. *)
Definition int (x : Q) : Z := Z.quot (Qnum x) (Zpos (Qden x)).

(** Truthiness of an optional float ([if price_limit:]). *)
Definition truthy (o : option Q) : bool :=
  match o with
  | Some q => negb (eqb q 0)
  | None => false
  end.

End Py.

(** ** The environment: exchange gateway, user, clock and other threads *)

Module Gateway.

(** A value stored under a key of a dict returned by the exchange. *)
Inductive field :=
| Absent
| Malformed
| Num (q : Q).

(** [float(d.get(k, 0))]: a missing key reads as zero, [None] means that
    [float] raises. *)
Definition float_get (f : field) : option Q :=
  match f with
  | Absent => Some 0
  | Malformed => None
  | Num q => Some q
  end.

(** [float(d[k])]: a missing key raises as well. *)
Definition float_item (f : field) : option Q :=
  match f with
  | Num q => Some q
  | _ => None
  end.

(** The dict of an order as the exchange returns it.  [status] is mutable:
    the grid monitor overwrites it on its own copy. *)
Record order := {
  orderId : option Z;
  status : option string;
  avgPrice : field;
  executedQty : field
}.

Definition set_status (st : string) (o : order) : order :=
  {| orderId := orderId o; status := Some st;
     avgPrice := avgPrice o; executedQty := executedQty o |}.

Record filter_info := {
  filterType : option string;
  tickSize : field
}.

Record symbol_info := {
  filters : option (list filter_info)
}.

(** The interactions of the three managers with their environment. *)
Inductive call :=
| get_symbol_info (symbol : string)
| get_current_price (symbol : string)
| place_market_order (symbol side : string) (quantity : Q)
| place_limit_order (symbol side : string) (quantity price : Q)
| place_stop_limit_order (symbol side : string) (quantity stop_price price : Q)
| cancel_order (symbol : string) (order_id : option Z)
| get_order_status (symbol : string) (order_id : option Z)
| click_confirm
| time_time
| time_sleep (seconds : Q)
| thread_start (target : string) (arg : nat).

(** What the environment answers.  [Woke ids] ends a sleep: [ids] are the
    strategy ids that other threads passed to the manager's cancel method
    while this thread slept. *)
Inductive response :=
| Raise
| RetNone
| RetOrder (o : order)
| RetInfo (i : symbol_info)
| RetFloat (q : Q)
| RetBool (b : bool)
| RetInt (z : Z)
| Woke (cancels : list string).

Inductive exn :=
| APIError (c : call)
| ValidationError (fields : list string)
| ZeroDivisionError
| AttributeError
| KeyError (key : string)
| ValueError.

(** The outcome of a computation: a value, a raised exception, or a loop
    that is still running when the fuel is spent. *)
Inductive result (A : Type) :=
| Ok (a : A)
| Exn (e : exn)
| Running.
Arguments Ok {A} a.
Arguments Exn {A} e.
Arguments Running {A}.

(** The state threaded through a manager method: the manager's own fields
    [mgr], the responses still to come and the interactions so far, in
    chronological order. *)
Record world (S : Type) := World {
  mgr : S;
  script : list response;
  log : list (call * response)
}.
Arguments World {S} mgr script log.
Arguments mgr {S} w.
Arguments script {S} w.
Arguments log {S} w.

Definition M (S A : Type) : Type := world S -> result A * world S.

Definition ret {S A} (a : A) : M S A := fun w => (Ok a, w).

Definition bind {S A B} (m : M S A) (k : A -> M S B) : M S B :=
  fun w =>
    match m w with
    | (Ok a, w') => k a w'
    | (Exn e, w') => (Exn e, w')
    | (Running, w') => (Running, w')
    end.

Definition raise {S A} (e : exn) : M S A := fun w => (Exn e, w).

Definition out_of_fuel {S A} : M S A := fun w => (Running, w).

(** [try: body except Exception as e: handler e].  What the body did to the
    state before it raised stays done. *)
Definition try_except {S A} (body : M S A) (handler : exn -> M S A) : M S A :=
  fun w =>
    match body w with
    | (Exn e, w') => handler e w'
    | r => r
    end.

Definition get {S} : M S S := fun w => (Ok (mgr w), w).

Definition modify {S} (f : S -> S) : M S unit :=
  fun w => (Ok tt, World (f (mgr w)) (script w) (log w)).

(** One interaction: the next response of the script answers the call, and
    an exhausted script answers [Raise]. *)
Definition interact {S} (c : call) : M S response :=
  fun w =>
    match script w with
    | [] => (Ok Raise, World (mgr w) [] (log w ++ [(c, Raise)]))
    | r :: rs => (Ok r, World (mgr w) rs (log w ++ [(c, r)]))
    end.

(** Starting a daemon thread is recorded; nothing answers it. *)
Definition emit {S} (c : call) : M S unit :=
  fun w => (Ok tt, World (mgr w) (script w) (log w ++ [(c, RetNone)])).

Module Notations.
Notation "x <- m ;; k" := (bind m (fun x => k))
  (at level 100, m at next level, right associativity).
Notation "m ;;; k" := (bind m (fun _ => k))
  (at level 100, right associativity).
End Notations.
Import Notations.

(** A client method that returns an order dict ([None] is Python's). *)
Definition call_order {S} (c : call) : M S (option order) :=
  r <- interact c ;;
  match r with
  | RetOrder o => ret (Some o)
  | RetNone => ret None
  | _ => raise (APIError c)
  end.

Definition call_float {S} (c : call) : M S Q :=
  r <- interact c ;;
  match r with
  | RetFloat q => ret q
  | _ => raise (APIError c)
  end.

Definition call_info {S} (c : call) : M S symbol_info :=
  r <- interact c ;;
  match r with
  | RetInfo i => ret i
  | _ => raise (APIError c)
  end.

Definition call_bool {S} (c : call) : M S bool :=
  r <- interact c ;;
  match r with
  | RetBool b => ret b
  | _ => raise (APIError c)
  end.

(** A client call whose result is not looked at. *)
Definition call_any {S} (c : call) : M S unit :=
  r <- interact c ;;
  match r with
  | Raise => raise (APIError c)
  | _ => ret tt
  end.

(** [time.sleep(seconds)] never raises; it reports the cancel requests of
    other threads that arrived meanwhile. *)
Definition sleep {S} (seconds : Q) : M S (list string) :=
  r <- interact (time_sleep seconds) ;;
  match r with
  | Woke ids => ret ids
  | _ => ret []
  end.

(** [d.get('orderId')] on a result that may be [None]. *)
Definition get_orderId {S} (o : option order) : M S (option Z) :=
  match o with
  | Some d => ret (orderId d)
  | None => raise AttributeError
  end.

End Gateway.

(** ** Configuration ([utils/config.py]) *)

Module Config.

Record TradingConfig := {
  min_quantity : Q;
  max_quantity : Q;
  price_precision : nat;
  quantity_precision : nat
}.

(** The defaults of the dataclass, used when [config.json] does not
    override them. *)
Definition default : TradingConfig :=
  {| min_quantity := 1 # 1000; max_quantity := 100;
     price_precision := 2; quantity_precision := 3 |}.

End Config.

(** ** Request models ([client/validator.py]) *)

Module Validator.

Definition upper_ascii (a : ascii) : ascii :=
  let n := nat_of_ascii a in
  if ((97 <=? n) && (n <=? 122))%nat then ascii_of_nat (n - 32) else a.

(** [str.upper] on ASCII text. *)
Fixpoint upper (s : string) : string :=
  match s with
  | EmptyString => EmptyString
  | String a r => String (upper_ascii a) (upper r)
  end.

(** The character class [[A-Z0-9]]. *)
Definition in_class (a : ascii) : bool :=
  let n := nat_of_ascii a in
  (((65 <=? n) && (n <=? 90)) || ((48 <=? n) && (n <=? 57)))%nat.

(** [re.match(r'^[A-Z0-9]+$', s)]: a non-empty run of the class that
    reaches the end of [s], or the newline that ends [s]. *)
Fixpoint re_match_symbol (s : string) : bool :=
  match s with
  | EmptyString => false
  | String a r =>
      in_class a &&
      match r with
      | EmptyString => true
      | String "010"%char EmptyString => true
      | _ => re_match_symbol r
      end
  end.

(** The validators return [None] where the Python raises [ValueError]. *)
Definition validate_symbol (v : string) : option string :=
  if (String.length v <? 6)%nat then None
  else if negb (re_match_symbol (upper v)) then None
  else Some (upper v).

Definition validate_side (v : string) : option string :=
  if bool_decide (upper v ∈ ["BUY"; "SELL"]) then Some (upper v) else None.

Definition validate_quantity (cfg : Config.TradingConfig) (v : Q) : option Q :=
  if Py.leb v 0 then None
  else if Py.ltb v (Config.min_quantity cfg) then None
  else if Py.ltb (Config.max_quantity cfg) v then None
  else Some (Py.round_n v (Config.quantity_precision cfg)).

(** [validate_prices]: an absent optional price stays [None]. *)
Definition validate_prices (cfg : Config.TradingConfig) (v : option Q)
  : option (option Q) :=
  match v with
  | None => Some None
  | Some p =>
      if Py.leb p 0 then None
      else Some (Some (Py.round_n p (Config.price_precision cfg)))
  end.

(** One validated field: the value, or the name of the failing field. *)
Definition checked {A} (name : string) (o : option A) : list string :=
  match o with
  | Some _ => []
  | None => [name]
  end.

Record OCOOrderRequest := {
  oco_symbol : string;
  oco_side : string;
  oco_quantity : Q;
  oco_price : Q;
  oco_stop_price : Q;
  oco_stop_limit_price : option Q
}.

(** Constructing [OCOOrderRequest] from [oco_data]: the validated model, or the fields that
    pydantic reports in its [ValidationError]. *)
Definition validate_oco (cfg : Config.TradingConfig) (r : OCOOrderRequest)
  : list string + OCOOrderRequest :=
  let sy := validate_symbol (oco_symbol r) in
  let sd := validate_side (oco_side r) in
  let qt := validate_quantity cfg (oco_quantity r) in
  let pr := validate_prices cfg (Some (oco_price r)) in
  let sp := validate_prices cfg (Some (oco_stop_price r)) in
  let sl := validate_prices cfg (oco_stop_limit_price r) in
  match sy, sd, qt, pr, sp, sl with
  | Some sy', Some sd', Some qt', Some (Some pr'), Some (Some sp'), Some sl' =>
      inr {| oco_symbol := sy'; oco_side := sd'; oco_quantity := qt';
             oco_price := pr'; oco_stop_price := sp';
             oco_stop_limit_price := sl' |}
  | _, _, _, _, _, _ =>
      inl (checked "symbol" sy ++ checked "side" sd ++ checked "quantity" qt
           ++ checked "price" pr ++ checked "stop_price" sp
           ++ checked "stop_limit_price" sl)
  end.

Record TWAPOrderRequest := {
  twap_symbol : string;
  twap_side : string;
  twap_total_quantity : Q;
  twap_duration_minutes : Z;
  twap_interval_minutes : Z
}.

Definition validate_total_quantity (cfg : Config.TradingConfig) (v : Q)
  : option Q :=
  if Py.leb v 0 then None
  else if Py.ltb (Config.max_quantity cfg * 10) v then None
  else Some v.

(** [Field(..., gt=0, le=1440)]. *)
Definition validate_duration (v : Z) : option Z :=
  if ((0 <? v) && (v <=? 1440))%Z then Some v else None.

(** [Field(default=5, gt=0)] and [validate_interval]: [values] holds
    [duration_minutes] only when that field passed its own validation. *)
Definition validate_interval (v : Z) (values_duration : option Z) : option Z :=
  if (v <=? 0)%Z then None
  else match values_duration with
       | Some d => if (v >=? d)%Z then None else Some v
       | None => Some v
       end.

Definition validate_twap (cfg : Config.TradingConfig) (r : TWAPOrderRequest)
  : list string + TWAPOrderRequest :=
  let sy := validate_symbol (twap_symbol r) in
  let sd := validate_side (twap_side r) in
  let tq := validate_total_quantity cfg (twap_total_quantity r) in
  let du := validate_duration (twap_duration_minutes r) in
  let iv := validate_interval (twap_interval_minutes r) du in
  match sy, sd, tq, du, iv with
  | Some sy', Some sd', Some tq', Some du', Some iv' =>
      inr {| twap_symbol := sy'; twap_side := sd';
             twap_total_quantity := tq'; twap_duration_minutes := du';
             twap_interval_minutes := iv' |}
  | _, _, _, _, _ =>
      inl (checked "symbol" sy ++ checked "side" sd
           ++ checked "total_quantity" tq ++ checked "duration_minutes" du
           ++ checked "interval_minutes" iv)
  end.

Record GridOrderRequest := {
  grid_symbol : string;
  grid_quantity_per_grid : Q;
  grid_grid_count : Z;
  grid_lower_price : Q;
  grid_upper_price : Q
}.

Definition validate_positive (v : Q) : option Q :=
  if Py.leb v 0 then None else Some v.

(** [Field(..., gt=1, le=50)]. *)
Definition validate_grid_count (v : Z) : option Z :=
  if ((1 <? v) && (v <=? 50))%Z then Some v else None.

Definition validate_lower_price (cfg : Config.TradingConfig) (v : Q)
  : option Q :=
  if Py.leb v 0 then None
  else Some (Py.round_n v (Config.price_precision cfg)).

(** [validate_price_range] compares the raw upper price with the lower
    price as already validated, that is rounded. *)
Definition validate_price_range (cfg : Config.TradingConfig) (v : Q)
    (values_lower : option Q) : option Q :=
  if Py.leb v 0 then None
  else match values_lower with
       | Some lo =>
           if Py.leb v lo then None
           else Some (Py.round_n v (Config.price_precision cfg))
       | None => Some (Py.round_n v (Config.price_precision cfg))
       end.

Definition validate_grid (cfg : Config.TradingConfig) (r : GridOrderRequest)
  : list string + GridOrderRequest :=
  let sy := validate_symbol (grid_symbol r) in
  let qp := validate_positive (grid_quantity_per_grid r) in
  let gc := validate_grid_count (grid_grid_count r) in
  let lo := validate_lower_price cfg (grid_lower_price r) in
  let up := validate_price_range cfg (grid_upper_price r) lo in
  match sy, qp, gc, lo, up with
  | Some sy', Some qp', Some gc', Some lo', Some up' =>
      inr {| grid_symbol := sy'; grid_quantity_per_grid := qp';
             grid_grid_count := gc'; grid_lower_price := lo';
             grid_upper_price := up' |}
  | _, _, _, _, _ =>
      inl (checked "symbol" sy ++ checked "quantity_per_grid" qp
           ++ checked "grid_count" gc ++ checked "lower_price" lo
           ++ checked "upper_price" up)
  end.

(** Lift a validation into the gateway monad. *)
Definition construct {S A} (v : list string + A) : Gateway.M S A :=
  match v with
  | inr a => Gateway.ret a
  | inl fields => Gateway.raise (Gateway.ValidationError fields)
  end.

End Validator.

(** ** OCO orders ([orders/advanced/oco.py]) *)

Module OCO.
Import Gateway Gateway.Notations Validator.

(** The tracking dict of one OCO pair. *)
Record oco_result := {
  oco_id : string;
  symbol : string;
  side : string;
  quantity : Q;
  limit_order : order;
  stop_order : order;
  status : string;
  created_time : Q
}.

Definition with_status (st : string) (o : oco_result) : oco_result :=
  {| oco_id := oco_id o; symbol := symbol o; side := side o;
     quantity := quantity o; limit_order := limit_order o;
     stop_order := stop_order o; status := st;
     created_time := created_time o |}.

(** [OCOOrderManager].  [objects] is the store of tracking dicts: the
    registry, the monitoring thread and the caller all hold the address of
    the same dict.  [no_confirm] records that [_confirm_oco_order] was
    replaced by [lambda *args: True]. *)
Record OCOOrderManager := {
  objects : list oco_result;
  monitoring_orders : gmap string nat;
  stop_monitoring : bool;
  no_confirm : bool
}.

Definition init (no_confirm : bool) : OCOOrderManager :=
  {| objects := []; monitoring_orders := ∅; stop_monitoring := false;
     no_confirm := no_confirm |}.

Definition alloc (o : oco_result) (m : OCOOrderManager) : OCOOrderManager :=
  {| objects := objects m ++ [o]; monitoring_orders := monitoring_orders m;
     stop_monitoring := stop_monitoring m; no_confirm := no_confirm m |}.

Definition set_object_status (addr : nat) (st : string) (m : OCOOrderManager)
  : OCOOrderManager :=
  {| objects := alter (with_status st) addr (objects m);
     monitoring_orders := monitoring_orders m;
     stop_monitoring := stop_monitoring m; no_confirm := no_confirm m |}.

Definition set_monitoring (f : gmap string nat -> gmap string nat)
    (m : OCOOrderManager) : OCOOrderManager :=
  {| objects := objects m; monitoring_orders := f (monitoring_orders m);
     stop_monitoring := stop_monitoring m; no_confirm := no_confirm m |}.

(** What [execute_oco_order] returns: the dict
    [{"status": "CANCELLED", "reason": "User cancelled"}] or the tracking
    dict, by address. *)
Inductive started :=
| UserCancelled
| Started (addr : nat).

Section WithConfig.
Variable cfg : Config.TradingConfig.

(** Of [_display_oco_details] only the divisions can fail. *)
Definition _display_oco_details (oco_order : OCOOrderRequest)
    (current_price : Q) : M OCOOrderManager unit :=
  if String.eqb (oco_side oco_order) "SELL" then
    if Py.eqb current_price 0 then raise ZeroDivisionError else ret tt
  else
    if Py.eqb (oco_price oco_order) 0 || Py.eqb (oco_stop_price oco_order) 0
    then raise ZeroDivisionError else ret tt.

Definition _confirm_oco_order : M OCOOrderManager bool :=
  m <- get ;;
  if no_confirm m then ret true else call_bool click_confirm.

Definition _place_stop_market_order (symbol side : string)
    (quantity stop_price : Q) : M OCOOrderManager (option order) :=
  call_order (place_stop_limit_order symbol side quantity stop_price stop_price).

(** [if d and d.get('orderId')]: the id to cancel, if there is one. *)
Definition cancellable (o : option order) : option Z :=
  match o with
  | Some d =>
      match orderId d with
      | Some z => if (z =? 0)%Z then None else Some z
      | None => None
      end
  | None => None
  end.

Definition cleanup_leg (leg : option order) (symbol : string)
  : M OCOOrderManager unit :=
  match cancellable leg with
  | Some z =>
      try_except (call_any (cancel_order symbol (Some z))) (fun _ => ret tt)
  | None => ret tt
  end.

Definition _cleanup_failed_oco (limit_order stop_order : option order)
    (symbol : string) : M OCOOrderManager unit :=
  cleanup_leg limit_order symbol ;;;
  cleanup_leg stop_order symbol.

Definition _start_oco_monitoring (o : oco_result)
  : M OCOOrderManager nat :=
  m <- get ;;
  let addr := length (objects m) in
  modify (alloc o) ;;;
  modify (set_monitoring (insert (oco_id o) addr)) ;;;
  emit (thread_start "_monitor_oco_order" addr) ;;;
  ret addr.

(** The inner [try] of [execute_oco_order], cut at the two assignments so
    that the handler sees [limit_order_result] and [stop_order_result] as
    they are when the exception is raised. *)
Definition place_oco_orders (symbol side : string)
    (quantity price stop_price : Q) (stop_limit_price : option Q)
  : M OCOOrderManager started :=
  limit_order_result <-
    try_except (call_order (place_limit_order symbol side quantity price))
      (fun e => _cleanup_failed_oco None None symbol ;;; raise e) ;;
  stop_order_result <-
    try_except
      (get_orderId limit_order_result ;;;
       match stop_limit_price with
       | Some slp =>
           if Py.truthy stop_limit_price then
             call_order (place_stop_limit_order symbol side quantity
                           stop_price slp)
           else _place_stop_market_order symbol side quantity stop_price
       | None => _place_stop_market_order symbol side quantity stop_price
       end)
      (fun e => _cleanup_failed_oco limit_order_result None symbol ;;; raise e) ;;
  try_except
    (get_orderId stop_order_result ;;;
     now <- call_float time_time ;;
     created <- call_float time_time ;;
     match limit_order_result, stop_order_result with
     | Some lo, Some so =>
         addr <- _start_oco_monitoring
                   {| oco_id := "OCO_" +:+ pretty (Py.int now);
                      symbol := symbol; side := side; quantity := quantity;
                      limit_order := lo; stop_order := so;
                      status := "ACTIVE"; created_time := created |} ;;
         ret (Started addr)
     | _, _ => raise AttributeError
     end)
    (fun e =>
       _cleanup_failed_oco limit_order_result stop_order_result symbol ;;;
       raise e).

Definition execute_oco_order (symbol side : string)
    (quantity price stop_price : Q) (stop_limit_price : option Q)
  : M OCOOrderManager started :=
  try_except
    (validated_oco <-
       construct (validate_oco cfg
         {| oco_symbol := symbol; oco_side := side; oco_quantity := quantity;
            oco_price := price; oco_stop_price := stop_price;
            oco_stop_limit_price := stop_limit_price |}) ;;
     current_price <- call_float (get_current_price symbol) ;;
     _display_oco_details validated_oco current_price ;;;
     ok <- _confirm_oco_order ;;
     if negb ok then ret UserCancelled
     else place_oco_orders symbol side quantity price stop_price
            stop_limit_price)
    (fun e => raise e).

End WithConfig.

Definition _cancel_remaining_order (symbol : string) (order_id : option Z)
  : M OCOOrderManager unit :=
  try_except (call_any (cancel_order symbol order_id)) (fun _ => ret tt).

(** [d.get('status')] on a polled order that may be [None]. *)
Definition get_status (o : option order) : M OCOOrderManager (option string) :=
  match o with
  | Some d => ret (Gateway.status d)
  | None => raise AttributeError
  end.

Definition is_status (st : string) (o : option string) : bool :=
  bool_decide (o = Some st).

(** One round of the [while] of [_monitor_oco_order]; the result says
    whether the round ended in [break]. *)
Definition monitor_round (addr : nat) (symbol : string)
    (limit_order_id stop_order_id : option Z) : M OCOOrderManager bool :=
  try_except
    (limit_status <- call_order (get_order_status symbol limit_order_id) ;;
     stop_status <- call_order (get_order_status symbol stop_order_id) ;;
     ls <- get_status limit_status ;;
     if is_status "FILLED" ls then
       _cancel_remaining_order symbol stop_order_id ;;;
       modify (set_object_status addr "LIMIT_FILLED") ;;;
       ret true
     else
       ss <- get_status stop_status ;;
       if is_status "FILLED" ss then
         _cancel_remaining_order symbol limit_order_id ;;;
         modify (set_object_status addr "STOP_FILLED") ;;;
         ret true
       else if is_status "CANCELED" ls && is_status "CANCELED" ss then
         modify (set_object_status addr "CANCELLED") ;;;
         ret true
       else
         sleep 5 ;;; ret false)
    (fun _ => sleep 10 ;;; ret false).

Fixpoint monitor_loop (fuel : nat) (addr : nat) (symbol : string)
    (limit_order_id stop_order_id : option Z) : M OCOOrderManager unit :=
  match fuel with
  | O => out_of_fuel
  | S fuel' =>
      m <- get ;;
      if stop_monitoring m then ret tt
      else
        stop <- monitor_round addr symbol limit_order_id stop_order_id ;;
        if stop then ret tt
        else monitor_loop fuel' addr symbol limit_order_id stop_order_id
  end.

(** [_monitor_oco_order], the body of the monitoring thread. *)
Definition _monitor_oco_order (fuel : nat) (addr : nat)
  : M OCOOrderManager unit :=
  m <- get ;;
  match objects m !! addr with
  | None => raise (KeyError "oco_result")
  | Some oco_result =>
      monitor_loop fuel addr (symbol oco_result)
        (orderId (limit_order oco_result))
        (orderId (stop_order oco_result)) ;;;
      modify (set_monitoring (delete (oco_id oco_result)))
  end.

(** [cancel_oco_order]: both legs are indexed with [['orderId']], which
    raises when the key is missing. *)
Definition cancel_oco_order (oco_id : string) : M OCOOrderManager bool :=
  m <- get ;;
  match monitoring_orders m !! oco_id with
  | None => ret false
  | Some addr =>
      match objects m !! addr with
      | None => ret false
      | Some oco_data =>
          try_except
            (match orderId (limit_order oco_data),
                   orderId (stop_order oco_data) with
             | Some l, Some s =>
                 call_any (cancel_order (symbol oco_data) (Some l)) ;;;
                 call_any (cancel_order (symbol oco_data) (Some s)) ;;;
                 modify (set_object_status addr "CANCELLED") ;;;
                 ret true
             | Some l, None =>
                 call_any (cancel_order (symbol oco_data) (Some l)) ;;;
                 raise (KeyError "orderId")
             | None, _ => raise (KeyError "orderId")
             end)
            (fun _ => ret false)
      end
  end.

End OCO.

(** ** Grid trading ([orders/advanced/grid.py]) *)

Module Grid.
Import Gateway Gateway.Notations Validator.

(** One entry of [grid_levels]. *)
Record grid_level := {
  level : Z;
  price : Q;
  order_type : string;
  side_color : string;
  level_status : string;
  level_order_id : option Z
}.

(** One entry of [executed_trades]. *)
Record trade_record := {
  trade_level : Z;
  trade_side : string;
  trade_quantity : Q;
  trade_price : Q;
  trade_order_id : option Z
}.

Record grid_strategy := {
  grid_id : string;
  symbol : string;
  quantity_per_grid : Q;
  grid_count : Z;
  lower_price : Q;
  upper_price : Q;
  base_side : string;
  current_price : Q;
  grid_levels : list grid_level;
  buy_orders : gmap Z order;
  sell_orders : gmap Z order;
  executed_trades : list trade_record;
  total_profit : Q;
  status : string;
  placed_orders_count : option Z
}.

Record GridTradingManager := {
  objects : list grid_strategy;
  active_grids : gmap string nat;
  stop_monitoring : bool;
  no_confirm : bool
}.

Definition init (no_confirm : bool) : GridTradingManager :=
  {| objects := []; active_grids := ∅; stop_monitoring := false;
     no_confirm := no_confirm |}.

(** *** The ladder *)

(** The loop over [symbol_info['filters']]: the tick size of the first
    price filter, one tenth when there is none, [None] when indexing a
    filter or [float] raises. *)
Fixpoint scan_filters (fs : list filter_info) : option Q :=
  match fs with
  | [] => Some (1 # 10)
  | filter_info :: rest =>
      match filterType filter_info with
      | None => None
      | Some t =>
          if String.eqb t "PRICE_FILTER" then float_item (tickSize filter_info)
          else scan_filters rest
      end
  end.

(** The [try] block that determines the tick size. *)
Definition lookup_tick_size {S} : M S Q :=
  try_except
    (symbol_info <- call_info (get_symbol_info "BTCUSDT") ;;
     match scan_filters (default [] (filters symbol_info)) with
     | Some tick_size => ret tick_size
     | None => raise (KeyError "filterType")
     end)
    (fun _ => ret (1 # 10)).

(** The price of the level with zero-based index [i]. *)
Definition level_price (lower_price grid_gap tick_size : Q) (i : Z) : Q :=
  let raw_price := lower_price + inject_Z i * grid_gap in
  let price := inject_Z (Py.round (raw_price / tick_size)) * tick_size in
  Py.round1 price.

Definition make_level (lower_price grid_gap tick_size current_price : Q)
    (i : Z) : grid_level :=
  let price := level_price lower_price grid_gap tick_size i in
  if Py.ltb price current_price then
    {| level := i + 1; price := price; order_type := "BUY";
       side_color := "green"; level_status := "PENDING";
       level_order_id := None |}
  else if Py.ltb current_price price then
    {| level := i + 1; price := price; order_type := "SELL";
       side_color := "red"; level_status := "PENDING";
       level_order_id := None |}
  else
    {| level := i + 1; price := price; order_type := "MARKET";
       side_color := "yellow"; level_status := "PENDING";
       level_order_id := None |}.

(** [_calculate_grid_levels].  The two divisions raise on a zero divisor:
    [grid_count - 1] before the tick size is looked up, the tick size in
    the first round of the loop. *)
Definition _calculate_grid_levels {S} (lower_price upper_price : Q)
    (grid_count : Z) (current_price : Q) : M S (list grid_level) :=
  let price_range := upper_price - lower_price in
  if (grid_count - 1 =? 0)%Z then raise ZeroDivisionError
  else
    let grid_gap := price_range / inject_Z (grid_count - 1) in
    tick_size <- lookup_tick_size ;;
    if (0 <? grid_count)%Z && Py.eqb tick_size 0 then raise ZeroDivisionError
    else
      ret (map (make_level lower_price grid_gap tick_size current_price)
             (seqZ 0 grid_count)).

(** *** Counter orders and profit *)

Definition set_sell_orders (f : gmap Z order -> gmap Z order)
    (g : grid_strategy) : grid_strategy :=
  {| grid_id := grid_id g; symbol := symbol g;
     quantity_per_grid := quantity_per_grid g; grid_count := grid_count g;
     lower_price := lower_price g; upper_price := upper_price g;
     base_side := base_side g; current_price := current_price g;
     grid_levels := grid_levels g; buy_orders := buy_orders g;
     sell_orders := f (sell_orders g);
     executed_trades := executed_trades g; total_profit := total_profit g;
     status := status g; placed_orders_count := placed_orders_count g |}.

Definition set_buy_orders (f : gmap Z order -> gmap Z order)
    (g : grid_strategy) : grid_strategy :=
  {| grid_id := grid_id g; symbol := symbol g;
     quantity_per_grid := quantity_per_grid g; grid_count := grid_count g;
     lower_price := lower_price g; upper_price := upper_price g;
     base_side := base_side g; current_price := current_price g;
     grid_levels := grid_levels g; buy_orders := f (buy_orders g);
     sell_orders := sell_orders g;
     executed_trades := executed_trades g; total_profit := total_profit g;
     status := status g; placed_orders_count := placed_orders_count g |}.

Definition set_levels (f : list grid_level -> list grid_level)
    (g : grid_strategy) : grid_strategy :=
  {| grid_id := grid_id g; symbol := symbol g;
     quantity_per_grid := quantity_per_grid g; grid_count := grid_count g;
     lower_price := lower_price g; upper_price := upper_price g;
     base_side := base_side g; current_price := current_price g;
     grid_levels := f (grid_levels g); buy_orders := buy_orders g;
     sell_orders := sell_orders g;
     executed_trades := executed_trades g; total_profit := total_profit g;
     status := status g; placed_orders_count := placed_orders_count g |}.

Definition set_trades_profit (trades : list trade_record) (profit : Q)
    (g : grid_strategy) : grid_strategy :=
  {| grid_id := grid_id g; symbol := symbol g;
     quantity_per_grid := quantity_per_grid g; grid_count := grid_count g;
     lower_price := lower_price g; upper_price := upper_price g;
     base_side := base_side g; current_price := current_price g;
     grid_levels := grid_levels g; buy_orders := buy_orders g;
     sell_orders := sell_orders g;
     executed_trades := trades; total_profit := profit;
     status := status g; placed_orders_count := placed_orders_count g |}.

Definition set_status_count (st : string) (n : option Z)
    (g : grid_strategy) : grid_strategy :=
  {| grid_id := grid_id g; symbol := symbol g;
     quantity_per_grid := quantity_per_grid g; grid_count := grid_count g;
     lower_price := lower_price g; upper_price := upper_price g;
     base_side := base_side g; current_price := current_price g;
     grid_levels := grid_levels g; buy_orders := buy_orders g;
     sell_orders := sell_orders g;
     executed_trades := executed_trades g; total_profit := total_profit g;
     status := st; placed_orders_count := n |}.

Definition set_objects (f : list grid_strategy -> list grid_strategy)
    (m : GridTradingManager) : GridTradingManager :=
  {| objects := f (objects m); active_grids := active_grids m;
     stop_monitoring := stop_monitoring m; no_confirm := no_confirm m |}.

Definition set_active (f : gmap string nat -> gmap string nat)
    (m : GridTradingManager) : GridTradingManager :=
  {| objects := objects m; active_grids := f (active_grids m);
     stop_monitoring := stop_monitoring m; no_confirm := no_confirm m |}.

(** Reading and mutating the strategy dict at an address. *)
Definition read (addr : nat) : M GridTradingManager grid_strategy :=
  m <- get ;;
  match objects m !! addr with
  | Some g => ret g
  | None => raise (KeyError "grid_strategy")
  end.

Definition mutate (addr : nat) (f : grid_strategy -> grid_strategy)
  : M GridTradingManager unit :=
  modify (set_objects (alter f addr)).

(** [l[i]] with Python's negative indices; [None] is [IndexError]. *)
Definition py_index {A} (l : list A) (i : Z) : option A :=
  let n := Z.of_nat (length l) in
  if (0 <=? i)%Z then l !! Z.to_nat i
  else if (- n <=? i)%Z then l !! Z.to_nat (n + i)
  else None.

(** The part of [_place_counter_order] shared by its two branches: the
    limit order at the target level's price, recorded under the target
    level when the result is truthy. *)
Definition place_at (addr : nat) (side : string) (target_level : Z)
  : M GridTradingManager unit :=
  g <- read addr ;;
  match py_index (grid_levels g) (target_level - 1) with
  | None => raise (KeyError "IndexError")
  | Some lv =>
      order_result <-
        call_order (place_limit_order (symbol g) side (quantity_per_grid g)
                      (price lv)) ;;
      match order_result with
      | Some o =>
          if String.eqb side "SELL"
          then mutate addr (set_sell_orders (insert target_level o))
          else mutate addr (set_buy_orders (insert target_level o))
      | None => ret tt
      end
  end.

Definition _place_counter_order (addr : nat) (filled_level : Z)
    (side : string) : M GridTradingManager unit :=
  try_except
    (g <- read addr ;;
     let n := Z.of_nat (length (grid_levels g)) in
     if String.eqb side "SELL" && (filled_level <? n)%Z then
       let target_level := (filled_level + 1)%Z in
       if (target_level <=? n)%Z then place_at addr "SELL" target_level
       else ret tt
     else if String.eqb side "BUY" && (1 <? filled_level)%Z then
       let target_level := (filled_level - 1)%Z in
       if (1 <=? target_level)%Z then place_at addr "BUY" target_level
       else ret tt
     else ret tt)
    (fun _ => ret tt).

(** [l[-10:]]. *)
Definition last10 {A} (l : list A) : list A := drop (length l - 10) l.

Definition is_match (buy_trade sell_trade : trade_record) : bool :=
  String.eqb (trade_side sell_trade) "SELL"
  && Py.ltb (trade_price buy_trade) (trade_price sell_trade)
  && (trade_level buy_trade <? trade_level sell_trade)%Z.

Definition pair_profit (buy_trade sell_trade : trade_record) : Q :=
  (trade_price sell_trade - trade_price buy_trade)
  * Py.min (trade_quantity buy_trade) (trade_quantity sell_trade).

(** The pairs that one run of the two nested loops credits, in order: for
    each BUY of the window the first matching SELL (the [break]). *)
Fixpoint credited_pairs (buys recent : list trade_record)
  : list (trade_record * trade_record) :=
  match buys with
  | [] => []
  | buy_trade :: rest =>
      if String.eqb (trade_side buy_trade) "BUY" then
        match List.find (is_match buy_trade) recent with
        | Some sell_trade =>
            (buy_trade, sell_trade) :: credited_pairs rest recent
        | None => credited_pairs rest recent
        end
      else credited_pairs rest recent
  end.

Definition credit (total : Q) (p : trade_record * trade_record) : Q :=
  total + pair_profit (fst p) (snd p).

(** [_calculate_grid_profit] on the strategy dict. *)
Definition calculate_grid_profit (g : grid_strategy) : grid_strategy :=
  if (2 <=? length (executed_trades g))%nat then
    let recent_trades := last10 (executed_trades g) in
    set_trades_profit (executed_trades g)
      (fold_left credit (credited_pairs recent_trades recent_trades)
         (total_profit g)) g
  else g.

Definition _calculate_grid_profit (addr : nat) : M GridTradingManager unit :=
  mutate addr calculate_grid_profit.

Definition append_trade (t : trade_record) (g : grid_strategy)
  : grid_strategy :=
  set_trades_profit (executed_trades g ++ [t]) (total_profit g) g.

(** [grid_strategy['buy_orders'][level]['status'] = 'FILLED']; a missing
    level is a [KeyError]. *)
Definition mark_filled (addr : nat) (side : string) (lv : Z)
  : M GridTradingManager unit :=
  g <- read addr ;;
  if String.eqb side "BUY" then
    match buy_orders g !! lv with
    | Some _ => mutate addr (set_buy_orders (alter (set_status "FILLED") lv))
    | None => raise (KeyError "level")
    end
  else
    match sell_orders g !! lv with
    | Some _ => mutate addr (set_sell_orders (alter (set_status "FILLED") lv))
    | None => raise (KeyError "level")
    end.

Definition _handle_grid_order_fill (addr : nat) (lv : Z) (side : string)
    (order_status : order) : M GridTradingManager unit :=
  match float_get (avgPrice order_status),
        float_get (executedQty order_status) with
  | Some fill_price, Some fill_qty =>
      mutate addr (append_trade
        {| trade_level := lv; trade_side := side; trade_quantity := fill_qty;
           trade_price := fill_price;
           trade_order_id := orderId order_status |}) ;;;
      mark_filled addr side lv ;;;
      (if String.eqb side "BUY" then _place_counter_order addr lv "SELL"
       else _place_counter_order addr lv "BUY") ;;;
      _calculate_grid_profit addr
  | _, _ => raise ValueError
  end.

(** *** Starting a strategy *)

Definition set_level_placed (order_result : order) (lv : grid_level)
  : grid_level :=
  {| level := level lv; price := price lv; order_type := order_type lv;
     side_color := side_color lv; level_status := "PLACED";
     level_order_id := orderId order_result |}.

Definition set_level_failed (lv : grid_level) : grid_level :=
  {| level := level lv; price := price lv; order_type := order_type lv;
     side_color := side_color lv; level_status := "FAILED";
     level_order_id := level_order_id lv |}.

(** One round of the loop of [_place_initial_grid_orders] for the level at
    position [i]; the result is the updated [placed_orders]. *)
Definition place_initial_level (addr : nat) (i : nat) (placed_orders : Z)
  : M GridTradingManager Z :=
  try_except
    (g <- read addr ;;
     match grid_levels g !! i with
     | None => ret placed_orders
     | Some lv =>
         placed <-
           (if String.eqb (order_type lv) "BUY"
               && Py.ltb (price lv) (current_price g) then
              order_result <-
                call_order (place_limit_order (symbol g) "BUY"
                              (quantity_per_grid g) (price lv)) ;;
              match order_result with
              | Some o =>
                  mutate addr (set_buy_orders (insert (level lv) o)) ;;;
                  mutate addr (set_levels (alter (set_level_placed o) i)) ;;;
                  ret (placed_orders + 1)%Z
              | None => ret placed_orders
              end
            else if String.eqb (order_type lv) "SELL"
                    && Py.ltb (current_price g) (price lv) then
              order_result <-
                call_order (place_limit_order (symbol g) "SELL"
                              (quantity_per_grid g) (price lv)) ;;
              match order_result with
              | Some o =>
                  mutate addr (set_sell_orders (insert (level lv) o)) ;;;
                  mutate addr (set_levels (alter (set_level_placed o) i)) ;;;
                  ret (placed_orders + 1)%Z
              | None => ret placed_orders
              end
            else ret placed_orders) ;;
         sleep (1 # 10) ;;;
         ret placed
     end)
    (fun _ =>
       mutate addr (set_levels (alter set_level_failed i)) ;;;
       ret placed_orders).

Fixpoint place_initial_levels (addr : nat) (positions : list nat)
    (placed_orders : Z) : M GridTradingManager Z :=
  match positions with
  | [] => ret placed_orders
  | i :: rest =>
      placed <- place_initial_level addr i placed_orders ;;
      place_initial_levels addr rest placed
  end.

Definition _place_initial_grid_orders (addr : nat)
  : M GridTradingManager unit :=
  g <- read addr ;;
  placed_orders <-
    place_initial_levels addr (seq 0 (length (grid_levels g))) 0%Z ;;
  g' <- read addr ;;
  mutate addr (set_status_count (status g') (Some placed_orders)).

Definition _start_grid_monitoring (addr : nat) : M GridTradingManager unit :=
  g <- read addr ;;
  modify (set_active (insert (grid_id g) addr)) ;;;
  emit (thread_start "_monitor_grid_strategy" addr).

(** Of [_display_grid_details] only the divisions can fail: by the current
    price, once per level, and by [grid_count - 1]. *)
Definition _display_grid_details (grid_order : GridOrderRequest)
    (current_price : Q) (levels : list grid_level)
  : M GridTradingManager unit :=
  if negb (bool_decide (levels = [])) && Py.eqb current_price 0
  then raise ZeroDivisionError
  else if (grid_grid_count grid_order - 1 =? 0)%Z then raise ZeroDivisionError
  else ret tt.

Definition _confirm_grid_strategy : M GridTradingManager bool :=
  m <- get ;;
  if no_confirm m then ret true else call_bool click_confirm.

Inductive started :=
| UserCancelled
| Started (addr : nat).

Section WithConfig.
Variable cfg : Config.TradingConfig.

Definition execute_grid_strategy (symbol : string) (quantity_per_grid : Q)
    (grid_count : Z) (lower_price upper_price : Q) (base_side : string)
  : M GridTradingManager started :=
  try_except
    (validated_grid <-
       construct (validate_grid cfg
         {| grid_symbol := symbol;
            grid_quantity_per_grid := quantity_per_grid;
            grid_grid_count := grid_count; grid_lower_price := lower_price;
            grid_upper_price := upper_price |}) ;;
     current_price <- call_float (get_current_price symbol) ;;
     grid_levels <-
       _calculate_grid_levels lower_price upper_price grid_count
         current_price ;;
     _display_grid_details validated_grid current_price grid_levels ;;;
     ok <- _confirm_grid_strategy ;;
     if negb ok then ret UserCancelled
     else
       now <- call_float time_time ;;
       m <- get ;;
       let addr := length (objects m) in
       modify (set_objects (fun l => l ++ [
         {| grid_id := "GRID_" +:+ pretty (Py.int now); symbol := symbol;
            quantity_per_grid := quantity_per_grid; grid_count := grid_count;
            lower_price := lower_price; upper_price := upper_price;
            base_side := base_side; current_price := current_price;
            grid_levels := grid_levels; buy_orders := ∅; sell_orders := ∅;
            executed_trades := []; total_profit := 0; status := "ACTIVE";
            placed_orders_count := None |} ])) ;;;
       _place_initial_grid_orders addr ;;;
       _start_grid_monitoring addr ;;;
       ret (Started addr))
    (fun e => raise e).

End WithConfig.

End Grid.

(** ** TWAP orders ([orders/advanced/twap.py]) *)

Module TWAP.
Import Gateway Gateway.Notations Validator.

(** One entry of [executions]. *)
Record execution := {
  chunk_num : Z;
  quantity : Q;
  price : Q;
  order_id : option Z
}.

Record twap_order := {
  twap_id : string;
  symbol : string;
  side : string;
  total_quantity : Q;
  remaining_quantity : Q;
  chunk_size : Q;
  duration_minutes : Z;
  interval_minutes : Z;
  price_limit : option Q;
  num_chunks : Z;
  executed_chunks : Z;
  status : string;
  executions : list execution;
  total_filled : Q;
  avg_price : Q
}.

(** [TWAPOrderManager]; [objects] is the store of the [twap_order] dicts
    that the registry, the execution thread and the caller share. *)
Record TWAPOrderManager := {
  objects : list twap_order;
  active_twap_orders : gmap string nat;
  stop_scheduler : bool;
  no_confirm : bool
}.

Definition init (no_confirm : bool) : TWAPOrderManager :=
  {| objects := []; active_twap_orders := ∅; stop_scheduler := false;
     no_confirm := no_confirm |}.

Definition set_objects (f : list twap_order -> list twap_order)
    (m : TWAPOrderManager) : TWAPOrderManager :=
  {| objects := f (objects m); active_twap_orders := active_twap_orders m;
     stop_scheduler := stop_scheduler m; no_confirm := no_confirm m |}.

Definition set_active (f : gmap string nat -> gmap string nat)
    (m : TWAPOrderManager) : TWAPOrderManager :=
  {| objects := objects m; active_twap_orders := f (active_twap_orders m);
     stop_scheduler := stop_scheduler m; no_confirm := no_confirm m |}.

Definition with_status (st : string) (t : twap_order) : twap_order :=
  {| twap_id := twap_id t; symbol := symbol t; side := side t;
     total_quantity := total_quantity t;
     remaining_quantity := remaining_quantity t; chunk_size := chunk_size t;
     duration_minutes := duration_minutes t;
     interval_minutes := interval_minutes t; price_limit := price_limit t;
     num_chunks := num_chunks t; executed_chunks := executed_chunks t;
     status := st; executions := executions t;
     total_filled := total_filled t; avg_price := avg_price t |}.

Definition with_avg_price (p : Q) (t : twap_order) : twap_order :=
  {| twap_id := twap_id t; symbol := symbol t; side := side t;
     total_quantity := total_quantity t;
     remaining_quantity := remaining_quantity t; chunk_size := chunk_size t;
     duration_minutes := duration_minutes t;
     interval_minutes := interval_minutes t; price_limit := price_limit t;
     num_chunks := num_chunks t; executed_chunks := executed_chunks t;
     status := status t; executions := executions t;
     total_filled := total_filled t; avg_price := p |}.

(** The four updates after a filled chunk: the appended execution,
    [total_filled += fill_qty], [remaining_quantity -= fill_qty] and
    [executed_chunks += 1]. *)
Definition record_fill (e : execution) (t : twap_order) : twap_order :=
  {| twap_id := twap_id t; symbol := symbol t; side := side t;
     total_quantity := total_quantity t;
     remaining_quantity := remaining_quantity t - quantity e;
     chunk_size := chunk_size t; duration_minutes := duration_minutes t;
     interval_minutes := interval_minutes t; price_limit := price_limit t;
     num_chunks := num_chunks t;
     executed_chunks := (executed_chunks t + 1)%Z;
     status := status t; executions := executions t ++ [e];
     total_filled := total_filled t + quantity e; avg_price := avg_price t |}.

Definition read (addr : nat) : M TWAPOrderManager twap_order :=
  m <- get ;;
  match objects m !! addr with
  | Some t => ret t
  | None => raise (KeyError "twap_order")
  end.

Definition mutate (addr : nat) (f : twap_order -> twap_order)
  : M TWAPOrderManager unit :=
  modify (set_objects (alter f addr)).

(** The two accumulators of [_update_average_price]. *)
Definition total_value_of (es : list execution) : Q :=
  fold_left (fun acc e => acc + quantity e * price e) es 0.

Definition total_quantity_of (es : list execution) : Q :=
  fold_left (fun acc e => acc + quantity e) es 0.

Definition update_average_price (t : twap_order) : twap_order :=
  let total_value := total_value_of (executions t) in
  let total_quantity := total_quantity_of (executions t) in
  if Py.ltb 0 total_quantity
  then with_avg_price (total_value / total_quantity) t
  else t.

Definition _update_average_price (addr : nat) : M TWAPOrderManager unit :=
  mutate addr update_average_price.

Definition _execute_chunk (symbol side : string) (quantity : Q)
    (price_limit : option Q) (chunk_num : Z)
  : M TWAPOrderManager (option order) :=
  try_except
    (match price_limit with
     | Some p =>
         if Py.truthy price_limit
         then call_order (place_limit_order symbol side quantity p)
         else call_order (place_market_order symbol side quantity)
     | None => call_order (place_market_order symbol side quantity)
     end)
    (fun _ => ret None).

(** [cancel_twap_order]. *)
Definition cancel_twap_order (twap_id : string) : M TWAPOrderManager bool :=
  m <- get ;;
  match active_twap_orders m !! twap_id with
  | None => ret false
  | Some addr => mutate addr (with_status "CANCELLED") ;;; ret true
  end.

(** The cancel requests of other threads that arrive during a sleep. *)
Fixpoint serve_cancels (ids : list string) : M TWAPOrderManager unit :=
  match ids with
  | [] => ret tt
  | id :: rest => cancel_twap_order id ;;; serve_cancels rest
  end.

(** The size a chunk asks for. *)
Definition actual_chunk_size (t : twap_order) (chunk_size : Q) (chunk_num : Z)
  : Q :=
  if (chunk_num =? num_chunks t - 1)%Z then remaining_quantity t
  else Py.min chunk_size (remaining_quantity t).

(** The block [# Update TWAP order] of the loop: a FILLED result is
    recorded, anything else is left alone; [float] may raise. *)
Definition update_twap_order (addr : nat) (chunk_num : Z)
    (chunk_result : option order) : M TWAPOrderManager unit :=
  match chunk_result with
  | Some r =>
      if bool_decide (Gateway.status r = Some "FILLED") then
        match float_get (avgPrice r), float_get (executedQty r) with
        | Some fill_price, Some fill_qty =>
            mutate addr (record_fill
              {| chunk_num := chunk_num + 1; quantity := fill_qty;
                 price := fill_price; order_id := orderId r |}) ;;;
            _update_average_price addr
        | _, _ => raise ValueError
        end
      else ret tt
  | None => ret tt
  end.

(** The block [# Wait for next interval]: no sleep after the last chunk. *)
Definition wait_for_next_interval (t : twap_order) (chunk_num : Z)
  : M TWAPOrderManager unit :=
  if (chunk_num <? num_chunks t - 1)%Z then
    ids <- sleep (inject_Z (interval_minutes t * 60)) ;;
    serve_cancels ids
  else ret tt.

(** The body of the [try] of one round of the loop of
    [_execute_twap_chunks]; the result says whether the round ended in
    [break]. *)
Definition chunk_body (addr : nat) (chunk_size : Q) (chunk_num : Z)
  : M TWAPOrderManager bool :=
  t <- read addr ;;
  let actual := actual_chunk_size t chunk_size chunk_num in
  if Py.leb actual 0 then ret true
  else
    chunk_result <-
      _execute_chunk (symbol t) (side t) actual (price_limit t)
        (chunk_num + 1) ;;
    update_twap_order addr chunk_num chunk_result ;;;
    wait_for_next_interval t chunk_num ;;;
    ret false.

Fixpoint chunk_loop (addr : nat) (chunk_size : Q) (chunks : list Z)
  : M TWAPOrderManager unit :=
  match chunks with
  | [] => ret tt
  | chunk_num :: rest =>
      m <- get ;;
      if stop_scheduler m then ret tt
      else
        stop <- try_except (chunk_body addr chunk_size chunk_num)
                  (fun _ => ret false) ;;
        if stop then ret tt else chunk_loop addr chunk_size rest
  end.

(** [_execute_twap_chunks], the body of the execution thread. *)
Definition _execute_twap_chunks (addr : nat) : M TWAPOrderManager unit :=
  t <- read addr ;;
  chunk_loop addr (chunk_size t) (seqZ 0 (num_chunks t)) ;;;
  mutate addr (with_status "COMPLETED") ;;;
  modify (set_active (delete (twap_id t))).

Definition _confirm_twap_order (symbol : string) : M TWAPOrderManager bool :=
  m <- get ;;
  if no_confirm m then ret true
  else call_float (get_current_price symbol) ;;; call_bool click_confirm.

Definition _start_twap_execution (t : twap_order) : M TWAPOrderManager nat :=
  m <- get ;;
  let addr := length (objects m) in
  modify (set_objects (fun l => l ++ [t])) ;;;
  modify (set_active (insert (twap_id t) addr)) ;;;
  emit (thread_start "_execute_twap_chunks" addr) ;;;
  ret addr.

Inductive started :=
| UserCancelled
| Started (addr : nat).

Section WithConfig.
Variable cfg : Config.TradingConfig.

Definition execute_twap_order (symbol side : string) (total_quantity : Q)
    (duration_minutes interval_minutes : Z) (price_limit : option Q)
  : M TWAPOrderManager started :=
  try_except
    (validated_twap <-
       construct (validate_twap cfg
         {| twap_symbol := symbol; twap_side := side;
            twap_total_quantity := total_quantity;
            twap_duration_minutes := duration_minutes;
            twap_interval_minutes := interval_minutes |}) ;;
     if (interval_minutes =? 0)%Z then raise ZeroDivisionError
     else
       let num_chunks := (duration_minutes / interval_minutes)%Z in
       if (num_chunks =? 0)%Z then raise ZeroDivisionError
       else
         let chunk_size := total_quantity / inject_Z num_chunks in
         ok <- _confirm_twap_order (twap_symbol validated_twap) ;;
         if negb ok then ret UserCancelled
         else
           now <- call_float time_time ;;
           addr <- _start_twap_execution
             {| twap_id := "TWAP_" +:+ pretty (Py.int now);
                symbol := symbol; side := side;
                total_quantity := total_quantity;
                remaining_quantity := total_quantity;
                chunk_size := chunk_size;
                duration_minutes := duration_minutes;
                interval_minutes := interval_minutes;
                price_limit := price_limit; num_chunks := num_chunks;
                executed_chunks := 0; status := "ACTIVE"; executions := [];
                total_filled := 0; avg_price := 0 |} ;;
           ret (Started addr))
    (fun e => raise e).

End WithConfig.

End TWAP.

(** ** Observations on logs, and the inputs of the worked examples *)

Module Obs.
Import Gateway.

(** The sizes asked of the exchange by the chunk orders of a log. *)
Definition requested_of (e : call * response) : list Q :=
  match fst e with
  | place_market_order _ _ q => [q]
  | place_limit_order _ _ q _ => [q]
  | _ => []
  end.

Definition requested (l : list (call * response)) : list Q :=
  concat (map requested_of l).

Definition Qsum (l : list Q) : Q := fold_right Qplus 0 l.

(** The limit orders of one side in a log: reduced price and the order id
    that the exchange gave. *)
Definition limit_of (side : string) (e : call * response)
  : list (Q * option Z) :=
  match e with
  | (place_limit_order _ s _ p, RetOrder o) =>
      if String.eqb s side then [(Qred p, orderId o)] else []
  | _ => []
  end.

Definition limits (side : string) (l : list (call * response))
  : list (Q * option Z) :=
  concat (map (limit_of side) l).

(** The order ids for which a cancel was requested. *)
Definition cancel_of (e : call * response) : list (option Z) :=
  match fst e with
  | cancel_order _ id => [id]
  | _ => []
  end.

Definition cancels (l : list (call * response)) : list (option Z) :=
  concat (map cancel_of l).


(** The symbols whose filters a log asks for. *)
Definition info_of (e : call * response) : list string :=
  match fst e with
  | get_symbol_info s => [s]
  | _ => []
  end.

Definition info_lookups (l : list (call * response)) : list string :=
  concat (map info_of l).

(** The tick size that the ladder uses when [r] answers the symbol
    lookup: the one of the first price filter, one tenth otherwise. *)
Definition tick_size_from (r : response) : Q :=
  match r with
  | RetInfo i =>
      match Grid.scan_filters (default [] (filters i)) with
      | Some tick_size => tick_size
      | None => 1 # 10
      end
  | _ => 1 # 10
  end.





(** The user's part of a script and of a log when a start asks for
    confirmation: nothing when the prompt was switched off. *)
Definition confirm_script (no_confirm : bool) : list response :=
  if no_confirm then [] else [RetBool true].

Definition confirm_log (no_confirm : bool) : list (call * response) :=
  if no_confirm then [] else [(click_confirm, RetBool true)].

(** The limit price of the stop leg of an OCO pair. *)
Definition stop_limit_of (stop_price : Q) (stop_limit_price : option Q) : Q :=
  match stop_limit_price with
  | Some slp => if Py.truthy stop_limit_price then slp else stop_price
  | None => stop_price
  end.

(** [k] rounds of the OCO monitor that all end without [break]: a failed
    poll, or a poll that reports no leg FILLED and not both CANCELED. *)
Inductive quiet_rounds (addr : nat) (symbol : string)
    (limit_order_id stop_order_id : option Z)
  : nat -> world OCO.OCOOrderManager -> world OCO.OCOOrderManager -> Prop :=
| quiet_done w : quiet_rounds addr symbol limit_order_id stop_order_id 0 w w
| quiet_next k w w1 w2 :
    OCO.monitor_round addr symbol limit_order_id stop_order_id w
    = (Ok false, w1) ->
    quiet_rounds addr symbol limit_order_id stop_order_id k w1 w2 ->
    quiet_rounds addr symbol limit_order_id stop_order_id (S k) w w2.

(** The status that the monitor gives when a poll reports a fill, and the
    leg it asks to cancel. *)
Definition filled_status (limit_status : order) : string :=
  if bool_decide (Gateway.status limit_status = Some "FILLED")
  then "LIMIT_FILLED" else "STOP_FILLED".

Definition other_leg (limit_status : order)
    (limit_order_id stop_order_id : option Z) : option Z :=
  if bool_decide (Gateway.status limit_status = Some "FILLED")
  then stop_order_id else limit_order_id.

(** The order that [_execute_chunk] sends for a chunk of size [q]. *)
Definition chunk_call (symbol side : string) (q : Q) (price_limit : option Q)
  : call :=
  match price_limit with
  | Some p =>
      if Py.truthy price_limit then place_limit_order symbol side q p
      else place_market_order symbol side q
  | None => place_market_order symbol side q
  end.

(** A chunk order that the exchange reports FILLED for exactly the size
    asked, with a readable average price. *)
Definition fully_filled (e : call * response) : Prop :=
  forall q, requested_of e = [q] ->
    exists o p q',
      snd e = RetOrder o
      /\ Gateway.status o = Some "FILLED"
      /\ float_get (avgPrice o) = Some p
      /\ float_get (executedQty o) = Some q'
      /\ q' == q.

(** The bookkeeping of a TWAP order agrees with its executions: the
    quantities add up to [total_filled], and [avg_price] is the mean of the
    prices weighted by quantity whenever that mean is defined. *)
Definition consistent (t : TWAP.twap_order) : Prop :=
  TWAP.total_quantity_of (TWAP.executions t) == TWAP.total_filled t
  /\ (0 < TWAP.total_quantity_of (TWAP.executions t) ->
      TWAP.avg_price t
      == TWAP.total_value_of (TWAP.executions t)
         / TWAP.total_quantity_of (TWAP.executions t)).

End Obs.

Module Examples.
Import Gateway.

Definition new_order (id : Z) : order :=
  {| orderId := Some id; Gateway.status := Some "NEW";
     avgPrice := Absent; executedQty := Absent |}.

Definition filled_order (id : Z) (qty price : Q) : order :=
  {| orderId := Some id; Gateway.status := Some "FILLED";
     avgPrice := Num price; executedQty := Num qty |}.

(** A TWAP of 3 units in three chunks of 20 minutes; every chunk fills,
    and another thread cancels the order during the first sleep. *)
Definition twap_cancelled_script : list response :=
  [RetFloat 1000;
   RetOrder (filled_order 1 1 100); Woke ["TWAP_1000"];
   RetOrder (filled_order 2 1 102); Woke [];
   RetOrder (filled_order 3 1 104)].

Definition twap_started (sc : list response) : world TWAP.TWAPOrderManager :=
  snd (TWAP.execute_twap_order Config.default "BTCUSDT" "BUY" 3 60 20 None
         (World (TWAP.init true) sc [])).

(** The same TWAP left alone: every chunk fills in full. *)
Definition twap_all_filled_script : list response :=
  [RetFloat 1000;
   RetOrder (filled_order 1 1 100); Woke [];
   RetOrder (filled_order 2 1 102); Woke [];
   RetOrder (filled_order 3 1 104)].

(** The same TWAP when the first chunk is rejected by the exchange. *)
Definition twap_first_chunk_fails_script : list response :=
  [RetFloat 1000;
   Raise; Woke [];
   RetOrder (filled_order 2 1 102); Woke [];
   RetOrder (filled_order 3 2 104)].

(** A grid of three levels 100, 105, 110 on ETHUSDT with the market at
    102: one BUY below, two SELLs above.  The symbol lookup fails, so the
    tick size is the fallback. *)
Definition grid_started (sc : list response) : world Grid.GridTradingManager :=
  snd (Grid.execute_grid_strategy Config.default "ETHUSDT" 1 3 100 110 "BOTH"
         (World (Grid.init true)
            ([RetFloat 102; Raise; RetFloat 1000;
              RetOrder (new_order 1); Woke [];
              RetOrder (new_order 2); Woke [];
              RetOrder (new_order 3); Woke []] ++ sc) [])).

(** After the start: the BUY at level 1 fills. *)
Definition grid_after_buy_fill (sc : list response)
  : world Grid.GridTradingManager :=
  snd (Grid._handle_grid_order_fill 0 1 "BUY" (filled_order 1 1 100)
         (grid_started (RetOrder (new_order 4) :: sc))).

(** Then the SELL at level 2 fills, which completes a cycle. *)
Definition grid_after_cycle (sc : list response)
  : world Grid.GridTradingManager :=
  snd (Grid._handle_grid_order_fill 0 2 "SELL" (filled_order 4 1 105)
         (grid_after_buy_fill (RetOrder (new_order 5) :: sc))).

(** Then the SELL at level 3 fills. *)
Definition grid_after_third_fill : world Grid.GridTradingManager :=
  snd (Grid._handle_grid_order_fill 0 3 "SELL" (filled_order 3 1 110)
         (grid_after_cycle [RetOrder (new_order 6)])).

(** An OCO pair on BTCUSDT: limit leg 7 at 46000, stop leg 8 at 44000. *)
Definition oco_started (sc : list response) : world OCO.OCOOrderManager :=
  snd (OCO.execute_oco_order Config.default "BTCUSDT" "SELL" 1 46000 44000
         None
         (World (OCO.init true)
            ([RetFloat 45000; RetOrder (new_order 7); RetOrder (new_order 8);
              RetFloat 1000; RetFloat 1000] ++ sc) [])).

(** One poll finds both legs open; in the next both are FILLED, and the
    exchange refuses to cancel the stop leg. *)
Definition oco_both_filled_script : list response :=
  [RetOrder (new_order 7); RetOrder (new_order 8); Woke [];
   RetOrder (filled_order 7 1 46000); RetOrder (filled_order 8 1 44000);
   Raise].


End Examples.

(** ** Further observations *)

Module Views.
Import Gateway.

(** A computation that did not end in an exception. *)
Definition not_raised {A} (r : result A) : Prop :=
  match r with
  | Exn _ => False
  | _ => True
  end.

(** An answer of the exchange that a client method turns into an
    exception. *)
Definition failure (r : response) : Prop :=
  match r with
  | RetOrder _ | RetNone => False
  | _ => True
  end.

End Views.

(** ** What validation leaves of a request *)

Module Formats.

(** The line feed that [$] lets a symbol end with. *)
Definition newline : string := String "010"%char EmptyString.

(** A string of ASCII characters: every byte is below 128, so that it
    stands for a Python string of as many characters. *)
Fixpoint ascii_only (s : string) : bool :=
  match s with
  | EmptyString => true
  | String a r => (nat_of_ascii a <? 128)%nat && ascii_only r
  end.

(** Every character is an upper-case letter or a digit. *)
Fixpoint alnum (s : string) : bool :=
  match s with
  | EmptyString => true
  | String a r => Validator.in_class a && alnum r
  end.

(** [q] is a number of [n] decimals, and the nearest such number to [x] or
    one of the two nearest. *)
Definition rounded_to (n : nat) (x q : Q) : Prop :=
  (exists k, q == inject_Z k / inject_Z (10 ^ Z.of_nat n))
  /\ x - (1 # 2) / inject_Z (10 ^ Z.of_nat n) <= q
  /\ q <= x + (1 # 2) / inject_Z (10 ^ Z.of_nat n).

End Formats.

(** ** Views of a grid strategy *)

Module GridViews.
Import Gateway.

(** What identifies a level of the ladder; its status and order id change
    while orders are placed. *)
Definition rung (lv : Grid.grid_level) : Z * Q * string :=
  (Grid.level lv, Grid.price lv, Grid.order_type lv).

(** The same strategy as far as placing orders goes. *)
Definition same_ladder (g g' : Grid.grid_strategy) : Prop :=
  Grid.grid_id g' = Grid.grid_id g
  /\ Grid.symbol g' = Grid.symbol g
  /\ Grid.quantity_per_grid g' = Grid.quantity_per_grid g
  /\ Grid.current_price g' = Grid.current_price g
  /\ map rung (Grid.grid_levels g') = map rung (Grid.grid_levels g).

(** What the initial placement may ask: a pause, or a limit order for the
    strategy's symbol and quantity at the price of a level of the ladder,
    on the side that the level was given, a BUY strictly below the market
    price or a SELL strictly above it. *)
Definition initial_order (g : Grid.grid_strategy) (e : call * response)
  : Prop :=
  match fst e with
  | time_sleep _ => True
  | place_limit_order s sd q p =>
      s = Grid.symbol g /\ q = Grid.quantity_per_grid g
      /\ exists lv,
           lv ∈ Grid.grid_levels g /\ p = Grid.price lv
           /\ sd = Grid.order_type lv
           /\ ((sd = "BUY"%string /\ p < Grid.current_price g)
               \/ (sd = "SELL"%string /\ Grid.current_price g < p))
  | _ => False
  end.

(** The number of limit orders of a log that the exchange accepted. *)
Definition accepted_of (e : call * response) : Z :=
  match e with
  | (place_limit_order _ _ _ _, RetOrder _) => 1
  | _ => 0
  end.

Definition accepted (l : list (call * response)) : Z :=
  fold_right (fun e n => accepted_of e + n)%Z 0%Z l.

End GridViews.

(** * Properties *)

(** ** The gateway monad *)

Module GatewayFacts.
Import Gateway.

Lemma interact_run {S} (c : call) (w : world S) :
  interact c w
  = (Ok (hd Raise (script w)),
     World (mgr w) (tl (script w)) (log w ++ [(c, hd Raise (script w))])).
Proof. unfold interact. destruct (script w); reflexivity. Qed.

End GatewayFacts.

(** ** Python rounding *)

Module PyFacts.

Lemma round_comp x y : x == y -> Py.round x = Py.round y.
Proof.
  intros H. unfold Py.round.
  assert (Hf : Qfloor x = Qfloor y) by (apply Qfloor_comp; exact H).
  assert (Hc : Qcompare (x - inject_Z (Qfloor x)) (1 # 2)
               = Qcompare (y - inject_Z (Qfloor y)) (1 # 2)).
  { apply Qcompare_comp; [|reflexivity]. rewrite Hf, H. reflexivity. }
  rewrite Hc, Hf. reflexivity.
Qed.

Lemma round_floor_or_next x :
  Py.round x = Qfloor x \/ Py.round x = (Qfloor x + 1)%Z.
Proof.
  unfold Py.round.
  destruct (Qcompare _ _); [destruct (Z.even _)|..]; auto.
Qed.

Lemma round_mono x y : x <= y -> (Py.round x <= Py.round y)%Z.
Proof.
  intros Hxy.
  assert (Hf := Qfloor_resp_le x y Hxy).
  destruct (Z.eq_dec (Qfloor x) (Qfloor y)) as [Heq|Hne].
  - unfold Py.round. rewrite <- Heq.
    destruct (Qcompare_spec (x - inject_Z (Qfloor x)) (1 # 2)) as [Hx|Hx|Hx];
      destruct (Qcompare_spec (y - inject_Z (Qfloor x)) (1 # 2)) as [Hy|Hy|Hy];
      try destruct (Z.even (Qfloor x)); try lia; exfalso; lra.
  - destruct (round_floor_or_next x) as [-> | ->];
      destruct (round_floor_or_next y) as [-> | ->]; lia.
Qed.

Lemma round1_comp x y : x == y -> Py.round1 x == Py.round1 y.
Proof.
  intros H. unfold Py.round1.
  rewrite (round_comp (x * 10) (y * 10)); [reflexivity|].
  rewrite H. reflexivity.
Qed.



Lemma ltb_spec a b : reflect (a < b) (Py.ltb a b).
Proof.
  unfold Py.ltb. destruct (Qlt_le_dec a b); constructor; [done|].
  by apply Qle_not_lt.
Qed.

End PyFacts.

(** ** TWAP schedule validation *)

Module TWAPScheduleFacts.
Import Gateway Validator TWAP.

Lemma validate_duration_in_range d :
  (0 < d <= 1440)%Z -> validate_duration d = Some d.
Proof.
  intros [H1 H2]. unfold validate_duration.
  apply Z.ltb_lt in H1. apply Z.leb_le in H2. by rewrite H1, H2.
Qed.

Lemma validate_interval_below d i :
  (0 < i)%Z -> (i < d)%Z -> validate_interval i (Some d) = Some i.
Proof.
  intros Hi Hd. unfold validate_interval.
  destruct (Z.leb_spec i 0); [lia|].
  destruct (Z.geb_spec i d); [lia|done].
Qed.

Lemma validate_interval_not_below d i :
  (d <= i)%Z -> validate_interval i (Some d) = None.
Proof.
  intros Hd. unfold validate_interval.
  destruct (Z.leb_spec i 0); [done|].
  destruct (Z.geb_spec i d); [done|lia].
Qed.

(** C9, counterexample: with the interval equal to the duration the floor
    gives one chunk, and the request is rejected by the validator before
    anything is asked of the exchange. *)
Lemma twap_equal_interval_rejected :
  (60 / 60 = 1)%Z /\
  execute_twap_order Config.default "BTCUSDT" "BUY" 1 60 60 None
    (World (TWAP.init true) [RetFloat 1000] [])
  = (Exn (ValidationError ["interval_minutes"]),
     World (TWAP.init true) [RetFloat 1000] []).
Proof. split; reflexivity. Qed.

(** C9, amended: a request whose other fields are valid is rejected with
    the validation error on [interval_minutes], before any interaction, if
    and only if the interval is not below the duration; an accepted request
    is registered with [num_chunks = duration // interval], at least one. *)
Theorem twap_rejected_iff_interval_not_below_duration
    cfg symbol side tq d i pl (w : world TWAPOrderManager) :
  is_Some (validate_symbol symbol) ->
  is_Some (validate_side side) ->
  is_Some (validate_total_quantity cfg tq) ->
  (0 < d <= 1440)%Z -> (0 < i)%Z ->
  ((d <= i)%Z ->
     execute_twap_order cfg symbol side tq d i pl w
     = (Exn (ValidationError ["interval_minutes"]), w))
  /\ ((i < d)%Z ->
      (1 <= d / i)%Z /\
      forall now rest,
        no_confirm (mgr w) = true -> script w = RetFloat now :: rest ->
        exists t w',
          execute_twap_order cfg symbol side tq d i pl w
          = (Ok (Started (length (objects (mgr w)))), w')
          /\ objects (mgr w') = objects (mgr w) ++ [t]
          /\ num_chunks t = (d / i)%Z
          /\ status t = "ACTIVE").
Proof.
  intros [sy Hsy] [sd Hsd] [q Hq] Hd Hi. split.
  - intros Hle. unfold execute_twap_order, validate_twap, try_except, bind.
    cbn [twap_symbol twap_side twap_total_quantity twap_duration_minutes
         twap_interval_minutes].
    rewrite Hsy, Hsd, Hq, (validate_duration_in_range d Hd),
      (validate_interval_not_below d i Hle).
    reflexivity.
  - intros Hlt.
    assert (Hchunks : (1 <= d / i)%Z).
    { apply Z.div_le_lower_bound; lia. }
    split; [exact Hchunks|].
    intros now rest Hconf Hscript.
    unfold execute_twap_order, validate_twap, try_except, bind.
    cbn [twap_symbol twap_side twap_total_quantity twap_duration_minutes
         twap_interval_minutes].
    rewrite Hsy, Hsd, Hq, (validate_duration_in_range d Hd),
      (validate_interval_below d i Hi Hlt).
    cbn [construct ret].
    destruct (Z.eqb_spec i 0); [lia|].
    destruct (Z.eqb_spec (d / i) 0); [lia|].
    unfold _confirm_twap_order, _start_twap_execution, call_float, bind, get,
      interact, modify, emit, ret.
    rewrite Hconf. cbn. rewrite Hscript. cbn.
    eexists _, _. split; [reflexivity|]. cbn. done.
Qed.

(** The schedule of the command line example [60 --interval 10]. *)
Lemma twap_rejected_iff_interval_not_below_duration_witness :
  (60 / 10 = 6)%Z /\
  exists t w',
    execute_twap_order Config.default "BTCUSDT" "BUY" 1 60 10 None
      (World (TWAP.init true) [RetFloat 1000] [])
    = (Ok (Started 0), w')
    /\ objects (mgr w') = [t] /\ num_chunks t = 6%Z /\ status t = "ACTIVE".
Proof.
  split; [reflexivity|].
  destruct (twap_rejected_iff_interval_not_below_duration Config.default
              "BTCUSDT" "BUY" 1 60 10 None
              (World (TWAP.init true) [RetFloat 1000] [])) as [_ H];
    try (by eexists); try lia.
  destruct H as [_ H]; [lia|].
  destruct (H 1000 [] eq_refl eq_refl) as (t & w' & H1 & H2 & H3 & H4).
  exists t, w'. repeat split; assumption.
Defined.

End TWAPScheduleFacts.

(** ** TWAP cancellation *)

Module TWAPCancelFacts.
Import Gateway TWAP Examples Obs.

(** C2, at the failing input: the cancel request that arrives during the
    first sleep marks the dict CANCELLED, yet the loop never reads that
    mark: chunks two and three are still sent, and the final assignment
    overwrites the status with COMPLETED. *)
Lemma twap_cancel_does_not_stop_schedule :
  let w := twap_started twap_cancelled_script in
  let wf := snd (_execute_twap_chunks 0 w) in
  status <$> objects (mgr (snd (chunk_loop 0 1 [0%Z] w))) !! 0%nat
    = Some "CANCELLED"
  /\ fst (_execute_twap_chunks 0 w) = Ok tt
  /\ map Qred (requested (log wf)) = [1; 1; 1]
  /\ status <$> objects (mgr wf) !! 0%nat = Some "COMPLETED".
Proof. vm_compute. repeat split; reflexivity. Qed.

End TWAPCancelFacts.

(** ** Grid counter orders and profit *)

Module GridFillFacts.
Import Gateway GatewayFacts Grid Examples Obs.

(** C3, counterexample: the SELL with id 2 rests at level 2 when the BUY at
    level 1 fills; the counter SELL is placed at the same price all the
    same, and takes the place of order 2 in [sell_orders]. *)
Lemma grid_counter_order_duplicated :
  let w0 := grid_started [RetOrder (new_order 4)] in
  let w := grid_after_buy_fill [] in
  (orderId <$> (objects (mgr w0) !! 0%nat ≫= fun g => sell_orders g !! 2%Z))
    = Some (Some 2%Z)
  /\ limits "SELL" (log w0) = [(105, Some 2%Z); (110, Some 3%Z)]
  /\ limits "SELL" (log w)
     = [(105, Some 2%Z); (110, Some 3%Z); (105, Some 4%Z)]
  /\ cancels (log w) = []
  /\ (orderId <$> (objects (mgr w) !! 0%nat ≫= fun g => sell_orders g !! 2%Z))
     = Some (Some 4%Z).
Proof. vm_compute. repeat split; reflexivity. Qed.

(** C4, at the failing input: the cycle BUY at 100, SELL at 105 is credited
    with 5 when the SELL fills, and the same pair is credited again when
    the SELL at level 3 fills; the total is 10 with a single BUY traded. *)
Lemma grid_profit_pair_credited_twice :
  let profit (w : world GridTradingManager) :=
    Qred <$> (total_profit <$> objects (mgr w) !! 0%nat) in
  let pairs (w : world GridTradingManager) :=
    (fun g => map (fun p => (trade_order_id (fst p), trade_order_id (snd p)))
                (credited_pairs (last10 (executed_trades g))
                   (last10 (executed_trades g))))
    <$> objects (mgr w) !! 0%nat in
  profit (grid_after_cycle []) = Some 5
  /\ pairs (grid_after_cycle []) = Some [(Some 1%Z, Some 4%Z)]
  /\ profit grid_after_third_fill = Some 10
  /\ pairs grid_after_third_fill = Some [(Some 1%Z, Some 4%Z)].
Proof. vm_compute. repeat split; reflexivity. Qed.

Lemma fold_credit_shift pairs x :
  fold_left credit pairs x == x + fold_left credit pairs 0.
Proof.
  revert x. induction pairs as [|p pairs IH]; intros x; cbn [fold_left].
  - ring.
  - rewrite (IH (credit x p)), (IH (credit 0 p)). unfold credit. ring.
Qed.

(** Nothing is remembered between two runs of the profit calculation: a
    second run on the same trades credits what the first one credited. *)
Lemma profit_credited_again_by_next_run g :
  total_profit (calculate_grid_profit (calculate_grid_profit g))
  - total_profit (calculate_grid_profit g)
  == total_profit (calculate_grid_profit g) - total_profit g.
Proof.
  unfold calculate_grid_profit.
  destruct (2 <=? length (executed_trades g))%nat eqn:Hlen;
    cbn [set_trades_profit executed_trades total_profit];
    rewrite ?Hlen; cbn [set_trades_profit executed_trades total_profit];
    [|ring].
  set (pairs := credited_pairs _ _).
  rewrite (fold_credit_shift pairs (fold_left credit pairs (total_profit g))),
    (fold_credit_shift pairs (total_profit g)).
  ring.
Qed.

Lemma py_index_nonneg {A} (l : list A) (i : Z) :
  (0 <= i)%Z -> py_index l i = l !! Z.to_nat i.
Proof. intros H. unfold py_index. destruct (Z.leb_spec 0 i); [done|lia]. Qed.

Lemma place_at_run addr side target g lv (w : world GridTradingManager) :
  objects (mgr w) !! addr = Some g ->
  (1 <= target)%Z ->
  grid_levels g !! Z.to_nat (target - 1) = Some lv ->
  let r := hd Raise (script w) in
  let c := place_limit_order (symbol g) side (quantity_per_grid g) (price lv) in
  let w1 := World (mgr w) (tl (script w)) (log w ++ [(c, r)]) in
  place_at addr side target w
  = match r with
    | RetOrder o =>
        (Ok tt,
         World (set_objects
                  (alter (if String.eqb side "SELL"
                          then set_sell_orders (insert target o)
                          else set_buy_orders (insert target o)) addr) (mgr w))
           (tl (script w)) (log w ++ [(c, r)]))
    | RetNone => (Ok tt, w1)
    | _ => (Exn (APIError c), w1)
    end.
Proof.
  intros Hg Ht Hlv r c w1.
  unfold place_at, read, bind, get. cbn. rewrite Hg. cbn.
  rewrite py_index_nonneg by lia. rewrite Hlv.
  unfold call_order, bind. rewrite interact_run. fold r c.
  destruct r; cbn; try reflexivity.
  destruct (String.eqb side "SELL"); reflexivity.
Qed.

(** C3, amended: after a BUY fill at level [L] with [1 <= L < gridCount] the
    counter SELL is asked of the exchange at the price of level [L + 1]
    whether or not an order rests there, and the order that comes back
    replaces the entry of level [L + 1]; symmetrically a SELL fill at level
    [L] with [1 < L <= gridCount] places a BUY at level [L - 1]. *)
Theorem counter_order_placed_whether_or_not_one_rests
    addr g L (w : world GridTradingManager) :
  objects (mgr w) !! addr = Some g ->
  let n := Z.of_nat (length (grid_levels g)) in
  let r := hd Raise (script w) in
  ((1 <= L < n)%Z ->
   exists lv,
     grid_levels g !! Z.to_nat L = Some lv /\
     fst (_place_counter_order addr L "SELL" w) = Ok tt /\
     log (snd (_place_counter_order addr L "SELL" w))
     = log w ++ [(place_limit_order (symbol g) "SELL" (quantity_per_grid g)
                    (price lv), r)] /\
     forall o, r = RetOrder o ->
       exists g',
         objects (mgr (snd (_place_counter_order addr L "SELL" w))) !! addr
         = Some g'
         /\ sell_orders g' = <[(L + 1)%Z := o]> (sell_orders g)
         /\ buy_orders g' = buy_orders g)
  /\
  ((1 < L <= n)%Z ->
   exists lv,
     grid_levels g !! Z.to_nat (L - 2) = Some lv /\
     fst (_place_counter_order addr L "BUY" w) = Ok tt /\
     log (snd (_place_counter_order addr L "BUY" w))
     = log w ++ [(place_limit_order (symbol g) "BUY" (quantity_per_grid g)
                    (price lv), r)] /\
     forall o, r = RetOrder o ->
       exists g',
         objects (mgr (snd (_place_counter_order addr L "BUY" w))) !! addr
         = Some g'
         /\ buy_orders g' = <[(L - 1)%Z := o]> (buy_orders g)
         /\ sell_orders g' = sell_orders g).
Proof.
  intros Hg n r. split; intros HL.
  - destruct (lookup_lt_is_Some_2 (grid_levels g) (Z.to_nat L)) as [lv Hlv];
      [lia|].
    exists lv. split; [exact Hlv|].
    assert (Hrun := place_at_run addr "SELL" (L + 1) g lv w Hg ltac:(lia)).
    replace (L + 1 - 1)%Z with L in Hrun by lia. specialize (Hrun Hlv).
    cbv zeta in Hrun.
    unfold _place_counter_order, try_except, bind, read, get. cbn.
    rewrite Hg. cbn. fold n.
    destruct (Z.ltb_spec L n); [|lia].
    destruct (Z.leb_spec (L + 1) n); [|lia].
    rewrite Hrun. fold r.
    destruct r; cbn; repeat split; try discriminate.
    intros o' [= <-]. eexists. split.
    + rewrite list_lookup_alter, Hg. case_decide; [reflexivity|done].
    + split; reflexivity.
  - destruct (lookup_lt_is_Some_2 (grid_levels g) (Z.to_nat (L - 2)))
      as [lv Hlv]; [lia|].
    exists lv. split; [exact Hlv|].
    assert (Hrun := place_at_run addr "BUY" (L - 1) g lv w Hg ltac:(lia)).
    replace (L - 1 - 1)%Z with (L - 2)%Z in Hrun by lia.
    specialize (Hrun Hlv). cbv zeta in Hrun.
    unfold _place_counter_order, try_except, bind, read, get. cbn.
    rewrite Hg. cbn. fold n.
    destruct (Z.ltb_spec 1 L); [|lia].
    destruct (Z.leb_spec 1 (L - 1)); [|lia].
    rewrite Hrun. fold r.
    destruct r; cbn; repeat split; try discriminate.
    intros o' [= <-]. eexists. split.
    + rewrite list_lookup_alter, Hg. case_decide; [reflexivity|done].
    + split; reflexivity.
Qed.

Lemma counter_order_placed_whether_or_not_one_rests_witness :
  exists g lv,
    objects (mgr (grid_started [RetOrder (new_order 4)])) !! 0%nat = Some g
    /\ is_Some (sell_orders g !! 2%Z)
    /\ grid_levels g !! 1%nat = Some lv
    /\ log (snd (_place_counter_order 0 1 "SELL"
                   (grid_started [RetOrder (new_order 4)])))
       = log (grid_started [RetOrder (new_order 4)])
         ++ [(place_limit_order (symbol g) "SELL" (quantity_per_grid g)
                (price lv), RetOrder (new_order 4))].
Proof.
  eexists.
  destruct (counter_order_placed_whether_or_not_one_rests 0 _ 1
              (grid_started [RetOrder (new_order 4)]) eq_refl) as [H _].
  destruct H as (lv & Hlv & _ & Hlog & _); [vm_compute; split; [discriminate|reflexivity]|].
  exists lv. split; [reflexivity|]. split; [by eexists|].
  split; [exact Hlv|exact Hlog].
Defined.

End GridFillFacts.

(** ** The grid ladder *)

Module GridLadderFacts.
Import Gateway GatewayFacts PyFacts Grid Examples Obs.

Lemma lookup_tick_size_run {S} (w : world S) :
  lookup_tick_size w
  = (Ok (tick_size_from (hd Raise (script w))),
     World (mgr w) (tl (script w))
       (log w ++ [(get_symbol_info "BTCUSDT", hd Raise (script w))])).
Proof.
  unfold lookup_tick_size, try_except, call_info, bind.
  rewrite interact_run.
  destruct (hd Raise (script w)) as [| |o|i|q|b|z|ids]; cbn; try reflexivity.
  destruct (scan_filters (default [] (filters i))); reflexivity.
Qed.

Lemma calculate_grid_levels_run {S} lower upper n cur (w : world S) :
  n <> 1%Z ->
  let tick := tick_size_from (hd Raise (script w)) in
  _calculate_grid_levels lower upper n cur w
  = (if (0 <? n)%Z && Py.eqb tick 0 then Exn ZeroDivisionError
     else Ok (map (make_level lower ((upper - lower) / inject_Z (n - 1))
                     tick cur) (seqZ 0 n)),
     World (mgr w) (tl (script w))
       (log w ++ [(get_symbol_info "BTCUSDT", hd Raise (script w))])).
Proof.
  intros Hn tick. unfold _calculate_grid_levels.
  destruct (Z.eqb_spec (n - 1) 0); [lia|].
  unfold bind. rewrite lookup_tick_size_run. fold tick.
  destruct ((0 <? n)%Z && Py.eqb tick 0); reflexivity.
Qed.















(** The strategy of the examples trades ETHUSDT; its start asks for the
    filters of BTCUSDT only. *)
Lemma grid_on_ethusdt_looks_up_btcusdt :
  info_lookups (log (grid_started [])) = ["BTCUSDT"].
Proof. vm_compute. reflexivity. Qed.

End GridLadderFacts.

(** ** Starting an OCO pair *)

Module OCOStartFacts.
Import Gateway GatewayFacts Validator OCO Examples Obs.

Lemma eqb_false_of_nonzero q : ~ q == 0 -> Py.eqb q 0 = false.
Proof.
  intros H. unfold Py.eqb. destruct (Qeq_bool q 0) eqn:E; [|reflexivity].
  apply Qeq_bool_iff in E. contradiction.
Qed.

(** C7, counterexample: the limit leg is placed under id 7, the stop leg
    is refused, and the request to cancel the limit leg fails as well.  The
    failure of the cancel request is swallowed and the error of the stop
    placement reaches the caller: order 7 has not been cancelled. *)
Lemma oco_failed_start_leaves_first_leg :
  execute_oco_order Config.default "BTCUSDT" "SELL" 1 46000 44000 None
    (World (OCO.init true)
       [RetFloat 45000; RetOrder (new_order 7); Raise; Raise] [])
  = (Exn (APIError (place_stop_limit_order "BTCUSDT" "SELL" 1 44000 44000)),
     World (OCO.init true) []
       [(get_current_price "BTCUSDT", RetFloat 45000);
        (place_limit_order "BTCUSDT" "SELL" 1 46000, RetOrder (new_order 7));
        (place_stop_limit_order "BTCUSDT" "SELL" 1 44000 44000, Raise);
        (cancel_order "BTCUSDT" (Some 7%Z), Raise)]).
Proof. vm_compute. reflexivity. Qed.

(** C7, amended: when the limit leg is placed and the stop leg is not, the
    error of the stop placement reaches the caller, the manager, and with
    it the registry, is as it was before the start, and no monitoring
    thread was started.  Before that, when the limit leg came back with an
    order id that is not zero, one request to cancel it is sent, as the
    last interaction, and whatever answers it, an error included, is
    ignored; when the limit leg came back without an order id, or with the
    id zero, no cancel is requested at all. *)
Theorem failed_oco_start_requests_cancel_of_first_leg
    cfg symbol side quantity price stop_price stop_limit_price
    (w : world OCOOrderManager) v cur lo r2 rest :
  validate_oco cfg
    {| oco_symbol := symbol; oco_side := side; oco_quantity := quantity;
       oco_price := price; oco_stop_price := stop_price;
       oco_stop_limit_price := stop_limit_price |} = inr v ->
  ~ cur == 0 -> ~ oco_price v == 0 -> ~ oco_stop_price v == 0 ->
  script w
  = RetFloat cur :: confirm_script (no_confirm (mgr w))
    ++ RetOrder lo :: r2 :: rest ->
  (forall o, r2 <> RetOrder o) ->
  let stop_call :=
    place_stop_limit_order symbol side quantity stop_price
      (stop_limit_of stop_price stop_limit_price) in
  execute_oco_order cfg symbol side quantity price stop_price
    stop_limit_price w
  = (Exn (match r2 with
          | RetNone => AttributeError
          | _ => APIError stop_call
          end),
     World (mgr w)
       (match cancellable (Some lo) with
        | Some _ => tl rest
        | None => rest
        end)
       (log w ++ (get_current_price symbol, RetFloat cur)
          :: confirm_log (no_confirm (mgr w))
          ++ [(place_limit_order symbol side quantity price, RetOrder lo);
              (stop_call, r2)]
          ++ match cancellable (Some lo) with
             | Some z => [(cancel_order symbol (Some z), hd Raise rest)]
             | None => []
             end)).
Proof.
  intros Hv Hcur Hp Hsp Hscript Hr2 stop_call.
  destruct w as [m sc lg]. cbn [script mgr log] in *. subst sc.
  unfold execute_oco_order. rewrite Hv.
  unfold try_except at 1. unfold bind at 1. cbn [construct ret].
  unfold bind at 1. unfold call_float, bind at 1. rewrite interact_run.
  cbn [script hd tl mgr log].
  unfold bind at 1.
  assert (Hdisp : forall w', _display_oco_details v cur w' = (Ok tt, w')).
  { intros w'. unfold _display_oco_details.
    rewrite (eqb_false_of_nonzero _ Hcur), (eqb_false_of_nonzero _ Hp),
      (eqb_false_of_nonzero _ Hsp).
    destruct (String.eqb _ _); reflexivity. }
  cbn [ret]. rewrite Hdisp.
  unfold bind at 1. unfold _confirm_oco_order, bind at 1, get. cbn [mgr].
  set (sl := stop_limit_of stop_price stop_limit_price) in *.
  assert (Hplace : forall lg',
    place_oco_orders symbol side quantity price stop_price stop_limit_price
      (World m (RetOrder lo :: r2 :: rest) lg')
    = (Exn (match r2 with
            | RetNone => AttributeError
            | _ => APIError stop_call
            end),
       World m
         (match cancellable (Some lo) with
          | Some _ => tl rest
          | None => rest
          end)
         (lg' ++ [(place_limit_order symbol side quantity price, RetOrder lo);
                  (stop_call, r2)]
          ++ match cancellable (Some lo) with
             | Some z => [(cancel_order symbol (Some z), hd Raise rest)]
             | None => []
             end))).
  { intros lg'. unfold place_oco_orders.
    unfold bind at 1. unfold try_except at 1, call_order at 1, bind at 1.
    rewrite interact_run. cbn [script hd tl mgr log ret].
    unfold bind at 1. unfold try_except at 1.
    unfold bind at 1. cbn [get_orderId ret].
    assert (Hstop :
      (match stop_limit_price with
       | Some slp =>
           if Py.truthy stop_limit_price
           then call_order (place_stop_limit_order symbol side quantity
                              stop_price slp)
           else _place_stop_market_order symbol side quantity stop_price
       | None => _place_stop_market_order symbol side quantity stop_price
       end : M OCOOrderManager (option order))
      = call_order stop_call).
    { unfold stop_call, sl, stop_limit_of, _place_stop_market_order.
      destruct stop_limit_price; [destruct (Py.truthy _)|]; reflexivity. }
    rewrite Hstop. unfold call_order at 1, bind at 1. rewrite interact_run.
    cbn [script hd tl mgr log].
    unfold _cleanup_failed_oco, cleanup_leg.
    destruct (cancellable (Some lo)) as [z|] eqn:Hz; cbn [cancellable].
    - unfold call_any.
      destruct r2 as [| |o|i|q|b|zz|ids]; try (by destruct (Hr2 o));
        cbn [ret raise bind try_except get_orderId];
        unfold bind, try_except; rewrite interact_run;
        cbn [script hd tl mgr log]; rewrite <- !app_assoc; cbn [app];
        destruct (hd Raise rest); reflexivity.
    - destruct r2 as [| |o|i|q|b|zz|ids]; try (by destruct (Hr2 o));
        cbn [ret raise bind try_except get_orderId];
        unfold bind, try_except, ret, raise;
        cbn [script hd tl mgr log]; rewrite <- ?app_assoc; cbn [app];
        rewrite ?app_nil_r; reflexivity. }
  destruct (no_confirm m) eqn:Hc; cbn [confirm_script confirm_log app].
  - cbn [ret negb]. rewrite Hplace. rewrite <- !app_assoc. reflexivity.
  - unfold call_bool, bind at 1. rewrite interact_run.
    cbn [script hd tl mgr log ret negb]. rewrite Hplace.
    rewrite <- !app_assoc. reflexivity.
Qed.

(** The command line example [BTCUSDT SELL 0.01 46000 44000], with one
    unit, when the exchange rejects the stop order. *)
Lemma failed_oco_start_requests_cancel_of_first_leg_witness :
  execute_oco_order Config.default "BTCUSDT" "SELL" 1 46000 44000 None
    (World (OCO.init true)
       [RetFloat 45000; RetOrder (new_order 7); Raise; RetNone] [])
  = (Exn (APIError (place_stop_limit_order "BTCUSDT" "SELL" 1 44000 44000)),
     World (OCO.init true) []
       [(get_current_price "BTCUSDT", RetFloat 45000);
        (place_limit_order "BTCUSDT" "SELL" 1 46000,
         RetOrder (new_order 7));
        (place_stop_limit_order "BTCUSDT" "SELL" 1 44000 44000, Raise);
        (cancel_order "BTCUSDT" (Some 7%Z), RetNone)]).
Proof.
  eapply (failed_oco_start_requests_cancel_of_first_leg Config.default
            "BTCUSDT" "SELL" 1 46000 44000 None
            (World (OCO.init true)
               [RetFloat 45000; RetOrder (new_order 7); Raise; RetNone] [])
            _ 45000 (new_order 7) Raise [RetNone]).
  - vm_compute. reflexivity.
  - vm_compute. discriminate.
  - vm_compute. discriminate.
  - vm_compute. discriminate.
  - reflexivity.
  - discriminate.
Defined.

End OCOStartFacts.

(** ** Monitoring an OCO pair *)

Module OCOMonitorFacts.
Import Gateway GatewayFacts OCO Examples Obs.

(** C1, counterexample: both legs are reported FILLED by the same poll.
    The monitor then asks to cancel the stop leg, which the exchange
    refuses, and sets the status LIMIT_FILLED. *)
Lemma oco_both_legs_filled :
  let run := _monitor_oco_order 2 0 (oco_started oco_both_filled_script) in
  fst run = Ok tt
  /\ status <$> objects (mgr (snd run)) !! 0%nat = Some "LIMIT_FILLED"
  /\ "LIMIT_FILLED" <> "TAKE_PROFIT_FILLED"
  /\ drop 9 (log (snd run))
     = [(get_order_status "BTCUSDT" (Some 7%Z),
         RetOrder (filled_order 7 1 46000));
        (get_order_status "BTCUSDT" (Some 8%Z),
         RetOrder (filled_order 8 1 44000));
        (cancel_order "BTCUSDT" (Some 8%Z), Raise)].
Proof. vm_compute. repeat split; try reflexivity. discriminate. Qed.

Lemma sleep_run {St} secs (w : world St) :
  exists ids,
    sleep secs w
    = (Ok ids,
       World (mgr w) (tl (script w))
         (log w ++ [(time_sleep secs, hd Raise (script w))])).
Proof.
  unfold sleep, bind. rewrite interact_run.
  destruct (hd Raise (script w)); eexists; reflexivity.
Qed.

Lemma cancel_remaining_run symbol id (w : world OCOOrderManager) :
  _cancel_remaining_order symbol id w
  = (Ok tt,
     World (mgr w) (tl (script w))
       (log w ++ [(cancel_order symbol id, hd Raise (script w))])).
Proof.
  unfold _cancel_remaining_order, try_except, call_any, bind.
  rewrite interact_run. destruct (hd Raise (script w)); reflexivity.
Qed.

(** Symbolic execution of a round: answer the next interaction, reduce,
    and split on the shape of an answer or on a test. *)
Ltac run_step :=
  first
    [ rewrite interact_run
    | progress cbn -[interact]
    | match goal with
      | |- context [match hd Raise ?s with _ => _ end] =>
          destruct (hd Raise s)
      | |- context [if ?b then _ else _] => destruct b eqn:?
      end ].

Ltac run_round :=
  unfold monitor_round, try_except, call_order, get_status, sleep, bind,
    _cancel_remaining_order, call_any, try_except, bind, modify, ret, raise;
  repeat run_step.

(** A round that does not break leaves the manager as it was. *)
Lemma quiet_round_mgr addr symbol lid sid (w w1 : world OCOOrderManager) :
  monitor_round addr symbol lid sid w = (Ok false, w1) -> mgr w1 = mgr w.
Proof.
  run_round; intros [= <-]; reflexivity.
Qed.

Lemma quiet_rounds_mgr addr symbol lid sid k (w wk : world OCOOrderManager) :
  quiet_rounds addr symbol lid sid k w wk -> mgr wk = mgr w.
Proof.
  induction 1 as [w|k w w1 w2 Hround _ IH]; [reflexivity|].
  rewrite IH. exact (quiet_round_mgr _ _ _ _ _ _ Hround).
Qed.

(** The round in which a fill is reported. *)
Lemma fill_round addr symbol lid sid (w : world OCOOrderManager) l s c rest :
  script w = RetOrder l :: RetOrder s :: c :: rest ->
  Gateway.status l = Some "FILLED" \/ Gateway.status s = Some "FILLED" ->
  monitor_round addr symbol lid sid w
  = (Ok true,
     World (set_object_status addr (filled_status l) (mgr w)) rest
       (log w ++ [(get_order_status symbol lid, RetOrder l);
                  (get_order_status symbol sid, RetOrder s);
                  (cancel_order symbol (other_leg l lid sid), c)])).
Proof.
  intros Hscript Hfill. destruct w as [m sc lg]. cbn in Hscript. subst sc.
  unfold filled_status, other_leg.
  unfold monitor_round, try_except, call_order, get_status, bind,
    _cancel_remaining_order, call_any, try_except, bind, modify, ret, raise,
    is_status.
  cbn.
  case_bool_decide as Hl.
  - destruct c; cbn; rewrite <- !app_assoc; reflexivity.
  - destruct Hfill as [Hf|Hf]; [contradiction|].
    rewrite (bool_decide_eq_true_2 _ Hf).
    destruct c; cbn; rewrite <- !app_assoc; reflexivity.
Qed.

Lemma monitor_loop_breaks addr symbol lid sid k fuel
    (w wk wf : world OCOOrderManager) :
  quiet_rounds addr symbol lid sid k w wk ->
  stop_monitoring (mgr w) = false ->
  monitor_round addr symbol lid sid wk = (Ok true, wf) ->
  (k < fuel)%nat ->
  monitor_loop fuel addr symbol lid sid w = (Ok tt, wf).
Proof.
  intros Hq. revert fuel.
  induction Hq as [w|k w w1 w2 Hround Hq IH]; intros fuel Hstop Hlast Hk.
  - destruct fuel as [|fuel]; [lia|].
    cbn [monitor_loop]. unfold bind at 1, get. rewrite Hstop.
    unfold bind. rewrite Hlast. reflexivity.
  - destruct fuel as [|fuel]; [lia|].
    cbn [monitor_loop]. unfold bind at 1, get. rewrite Hstop.
    unfold bind at 1. rewrite Hround.
    apply IH; [|exact Hlast|lia].
    rewrite (quiet_round_mgr _ _ _ _ _ _ Hround). exact Hstop.
Qed.

(** C1, amended: the first poll that reports a leg FILLED ends the
    monitoring.  The status becomes LIMIT_FILLED when the limit leg is
    reported FILLED and STOP_FILLED otherwise, the cancellation of the other
    leg is requested and its outcome ignored, nothing is asked of the
    exchange after that, and the pair leaves the registry. *)
Theorem first_reported_fill_ends_monitoring
    fuel k addr o (w wk : world OCOOrderManager) l s c rest :
  objects (mgr w) !! addr = Some o ->
  stop_monitoring (mgr w) = false ->
  quiet_rounds addr (symbol o) (orderId (limit_order o))
    (orderId (stop_order o)) k w wk ->
  script wk = RetOrder l :: RetOrder s :: c :: rest ->
  Gateway.status l = Some "FILLED" \/ Gateway.status s = Some "FILLED" ->
  (k < fuel)%nat ->
  _monitor_oco_order fuel addr w
  = (Ok tt,
     World (set_monitoring (delete (oco_id o))
              (set_object_status addr (filled_status l) (mgr w)))
       rest
       (log wk ++ [(get_order_status (symbol o) (orderId (limit_order o)),
                    RetOrder l);
                   (get_order_status (symbol o) (orderId (stop_order o)),
                    RetOrder s);
                   (cancel_order (symbol o)
                      (other_leg l (orderId (limit_order o))
                         (orderId (stop_order o))), c)])).
Proof.
  intros Ho Hstop Hq Hscript Hfill Hk.
  unfold _monitor_oco_order. unfold bind at 1, get. rewrite Ho.
  unfold bind at 1.
  rewrite (monitor_loop_breaks _ _ _ _ k fuel w wk _ Hq Hstop
             (fill_round _ _ _ _ wk l s c rest Hscript Hfill) Hk).
  unfold modify. cbn [mgr script log].
  rewrite (quiet_rounds_mgr _ _ _ _ _ _ _ Hq). reflexivity.
Qed.

(** Scenario A: the take-profit leg fills after one quiet poll. *)
Lemma first_reported_fill_ends_monitoring_witness :
  exists wf,
    _monitor_oco_order 2 0
      (oco_started [RetOrder (new_order 7); RetOrder (new_order 8); Woke [];
                    RetOrder (filled_order 7 1 46000); RetOrder (new_order 8);
                    RetOrder (set_status "CANCELED" (new_order 8))])
    = (Ok tt, wf)
    /\ status <$> objects (mgr wf) !! 0%nat = Some "LIMIT_FILLED"
    /\ monitoring_orders (mgr wf) = ∅
    /\ last (log wf)
       = Some (cancel_order "BTCUSDT" (Some 8%Z),
               RetOrder (set_status "CANCELED" (new_order 8))).
Proof.
  eexists. split.
  - eapply (first_reported_fill_ends_monitoring 2 1 0 _
              (oco_started
                 [RetOrder (new_order 7); RetOrder (new_order 8); Woke [];
                  RetOrder (filled_order 7 1 46000); RetOrder (new_order 8);
                  RetOrder (set_status "CANCELED" (new_order 8))])).
    + vm_compute. reflexivity.
    + reflexivity.
    + eapply quiet_next; [vm_compute; reflexivity|apply quiet_done].
    + reflexivity.
    + left. reflexivity.
    + lia.
  - vm_compute. repeat split; reflexivity.
Defined.

End OCOMonitorFacts.

(** ** The TWAP execution loop *)

Module TWAPLoopFacts.
Import Gateway GatewayFacts Validator TWAP Examples Obs.

Lemma with_status_same t : with_status (status t) t = t.
Proof. destruct t; reflexivity. Qed.

Lemma lookup_alter_same {A} (f : A -> A) (l : list A) i x :
  l !! i = Some x -> alter f i l !! i = Some (f x).
Proof.
  intros H. rewrite list_lookup_alter, H. case_decide; [reflexivity|done].
Qed.

Lemma lookup_alter_other {A} (f : A -> A) (l : list A) i j :
  i <> j -> alter f i l !! j = l !! j.
Proof. intros H. rewrite list_lookup_alter. case_decide; [done|reflexivity]. Qed.

Lemma execute_chunk_run symbol side q pl n (w : world TWAPOrderManager) :
  _execute_chunk symbol side q pl n w
  = (Ok (match hd Raise (script w) with
         | RetOrder o => Some o
         | _ => None
         end),
     World (mgr w) (tl (script w))
       (log w ++ [(chunk_call symbol side q pl, hd Raise (script w))])).
Proof.
  unfold _execute_chunk, chunk_call, try_except.
  destruct pl as [p|]; [destruct (Py.truthy (Some p))|];
    unfold call_order, bind; rewrite interact_run;
    destruct (hd Raise (script w)); reflexivity.
Qed.

Lemma requested_chunk_call symbol side q pl r :
  requested_of (chunk_call symbol side q pl, r) = [q].
Proof.
  unfold chunk_call. destruct pl as [p|]; [destruct (Py.truthy _)|];
    reflexivity.
Qed.

Lemma cancel_twap_order_spec id (w : world TWAPOrderManager) :
  exists b m',
    cancel_twap_order id w = (Ok b, World m' (script w) (log w))
    /\ stop_scheduler m' = stop_scheduler (mgr w)
    /\ forall a t, objects (mgr w) !! a = Some t ->
         exists st, objects m' !! a = Some (with_status st t).
Proof.
  unfold cancel_twap_order, bind, get, mutate, modify. cbn.
  destruct (active_twap_orders (mgr w) !! id) as [addr|]; cbn.
  - eexists _, _. split; [reflexivity|]. split; [reflexivity|].
    intros a t Ha. cbn. destruct (decide (addr = a)) as [->|Hne].
    + exists "CANCELLED". by apply lookup_alter_same.
    + exists (status t). rewrite lookup_alter_other by done.
      by rewrite with_status_same.
  - exists false, (mgr w). destruct w; cbn. split; [reflexivity|].
    split; [reflexivity|]. intros a t Ha. exists (status t).
    by rewrite with_status_same.
Qed.

Lemma serve_cancels_spec ids (w : world TWAPOrderManager) :
  exists m',
    serve_cancels ids w = (Ok tt, World m' (script w) (log w))
    /\ stop_scheduler m' = stop_scheduler (mgr w)
    /\ forall a t, objects (mgr w) !! a = Some t ->
         exists st, objects m' !! a = Some (with_status st t).
Proof.
  revert w. induction ids as [|id ids IH]; intros w.
  - exists (mgr w). destruct w; cbn. split; [reflexivity|].
    split; [reflexivity|]. intros a t Ha. exists (status t).
    by rewrite with_status_same.
  - cbn [serve_cancels]. unfold bind.
    destruct (cancel_twap_order_spec id w) as (b & m1 & Hrun & Hstop & Hobj).
    rewrite Hrun.
    destruct (IH (World m1 (script w) (log w))) as (m2 & Hrun2 & Hstop2 & Hobj2).
    rewrite Hrun2. cbn in *. exists m2. split; [reflexivity|].
    split; [congruence|].
    intros a t Ha. destruct (Hobj a t Ha) as [st1 H1].
    destruct (Hobj2 a _ H1) as [st2 H2]. exists st2. exact H2.
Qed.

Lemma total_quantity_of_snoc es e :
  total_quantity_of (es ++ [e]) = total_quantity_of es + quantity e.
Proof. unfold total_quantity_of. rewrite fold_left_app. reflexivity. Qed.

Lemma total_value_of_snoc es e :
  total_value_of (es ++ [e]) = total_value_of es + quantity e * price e.
Proof. unfold total_value_of. rewrite fold_left_app. reflexivity. Qed.

Lemma ltb_true_iff a b : Py.ltb a b = true <-> a < b.
Proof.
  unfold Py.ltb. destruct (Qlt_le_dec a b) as [H|H]; split; try done.
  intros Hlt. exfalso. apply (Qlt_not_le _ _ Hlt H).
Qed.

Lemma consistent_with_status st t : consistent t -> consistent (with_status st t).
Proof. intros H. exact H. Qed.

(** The two updates after a filled chunk restore the agreement. *)
Lemma consistent_after_fill e t :
  total_quantity_of (executions t) == total_filled t ->
  consistent (update_average_price (record_fill e t)).
Proof.
  intros Hsum. unfold update_average_price.
  assert (Hq : total_quantity_of (executions (record_fill e t))
               = total_quantity_of (executions t) + quantity e)
    by apply total_quantity_of_snoc.
  destruct (Py.ltb 0 (total_quantity_of (executions (record_fill e t))))
    eqn:Hpos; unfold consistent;
    cbn [with_avg_price executions total_filled avg_price];
    rewrite Hq; cbn [record_fill total_filled].
  - split; [rewrite Hsum; reflexivity|]. intros _. reflexivity.
  - split; [rewrite Hsum; reflexivity|].
    intros Hlt. apply ltb_true_iff in Hlt. rewrite Hq in Hpos. congruence.
Qed.

Lemma requested_app l1 l2 : requested (l1 ++ l2) = requested l1 ++ requested l2.
Proof. unfold requested. rewrite map_app, concat_app. reflexivity. Qed.

(** The wait after a chunk: what other threads do meanwhile can only
    change the status of an order. *)
Lemma wait_spec addr chunk_num t (w : world TWAPOrderManager) t1 :
  objects (mgr w) !! addr = Some t1 ->
  exists w' st sl,
    wait_for_next_interval t chunk_num w = (Ok tt, w')
    /\ log w' = log w ++ sl
    /\ requested sl = []
    /\ stop_scheduler (mgr w') = stop_scheduler (mgr w)
    /\ objects (mgr w') !! addr = Some (with_status st t1).
Proof.
  intros Hobj. unfold wait_for_next_interval.
  destruct (chunk_num <? num_chunks t - 1)%Z.
  - unfold bind at 1, sleep, bind at 1. rewrite interact_run.
    set (w1 := World (mgr w) (tl (script w))
                 (log w ++ [(time_sleep (inject_Z (interval_minutes t * 60)),
                             hd Raise (script w))])).
    assert (Hserve : forall ids, exists w' st,
              serve_cancels ids w1 = (Ok tt, w')
              /\ log w' = log w1
              /\ stop_scheduler (mgr w') = stop_scheduler (mgr w)
              /\ objects (mgr w') !! addr = Some (with_status st t1)).
    { intros ids.
      destruct (serve_cancels_spec ids w1) as (m' & Hrun & Hstop & Hm).
      destruct (Hm addr t1 Hobj) as [st Hst].
      eexists _, st. split; [exact Hrun|]. cbn. auto. }
    destruct (hd Raise (script w)) as [| |o|i|q|b|z|ids]; cbn [ret];
      [destruct (Hserve []) as (w' & st & H1 & H2 & H3 & H4) ..
      |destruct (Hserve ids) as (w' & st & H1 & H2 & H3 & H4)];
      exists w', st; eexists; (split; [exact H1|]);
      (split; [rewrite H2; reflexivity|]); cbn; auto.
  - exists w, (status t1), []. rewrite with_status_same, app_nil_r. auto.
Qed.

(** The update after a chunk: the dict is left alone, or gets one more
    execution and a recomputed average; the latter whenever the result is
    FILLED with readable numbers. *)
Lemma update_spec addr chunk_num cr (w : world TWAPOrderManager) t :
  objects (mgr w) !! addr = Some t ->
  exists r w' t1,
    update_twap_order addr chunk_num cr w = (r, w')
    /\ (r = Ok tt \/ r = Exn ValueError)
    /\ log w' = log w /\ script w' = script w
    /\ stop_scheduler (mgr w') = stop_scheduler (mgr w)
    /\ objects (mgr w') !! addr = Some t1
    /\ (t1 = t \/ exists e, t1 = update_average_price (record_fill e t))
    /\ (forall o p q',
          cr = Some o -> Gateway.status o = Some "FILLED" ->
          float_get (avgPrice o) = Some p ->
          float_get (executedQty o) = Some q' ->
          r = Ok tt
          /\ exists e, t1 = update_average_price (record_fill e t)
                       /\ quantity e = q').
Proof.
  intros Hobj.
  assert (Hnone : forall r, r = Ok tt \/ r = Exn ValueError ->
            (forall o p q',
               cr = Some o -> Gateway.status o = Some "FILLED" ->
               float_get (avgPrice o) = Some p ->
               float_get (executedQty o) = Some q' -> False) ->
            exists r0 w' t1,
              (r, w) = (r0, w')
              /\ (r0 = Ok tt \/ r0 = Exn ValueError)
              /\ log w' = log w /\ script w' = script w
              /\ stop_scheduler (mgr w') = stop_scheduler (mgr w)
              /\ objects (mgr w') !! addr = Some t1
              /\ (t1 = t
                  \/ exists e, t1 = update_average_price (record_fill e t))
              /\ (forall o p q',
                    cr = Some o -> Gateway.status o = Some "FILLED" ->
                    float_get (avgPrice o) = Some p ->
                    float_get (executedQty o) = Some q' ->
                    r0 = Ok tt
                    /\ exists e, t1 = update_average_price (record_fill e t)
                                 /\ quantity e = q')).
  { intros r Hr Hno. exists r, w, t. repeat split; auto.
    all: exfalso; eapply Hno; eauto. }
  unfold update_twap_order.
  destruct cr as [o|]; [|apply Hnone; [by left|]; intros; discriminate].
  case_bool_decide as Hfilled;
    [|apply Hnone; [by left|]; intros o' p q' [= <-]; contradiction].
  destruct (float_get (avgPrice o)) as [fill_price|] eqn:Hp;
    [|apply Hnone; [by right|]; intros o' p q' [= <-]; congruence].
  destruct (float_get (executedQty o)) as [fill_qty|] eqn:Hq;
    [|apply Hnone; [by right|]; intros o' p q' [= <-]; congruence].
  set (e := {| chunk_num := chunk_num + 1; quantity := fill_qty;
               price := fill_price; order_id := orderId o |}).
  unfold bind, _update_average_price, mutate, modify. cbn [mgr script log].
  eexists _, _, (update_average_price (record_fill e t)).
  split; [reflexivity|]. split; [by left|]. cbn [mgr script log].
  split; [reflexivity|]. split; [reflexivity|]. split; [reflexivity|].
  split.
  { cbn. apply lookup_alter_same. apply lookup_alter_same. exact Hobj. }
  split; [right; by exists e|].
  intros o' p q' [= <-] _ Hp' Hq'. split; [reflexivity|].
  exists e. split; [reflexivity|]. cbn. congruence.
Qed.

(** One round of the loop, for an order [t] stored at [addr]: the round
    asks for [actual_chunk_size], unless that is not positive and the loop
    breaks; the dict afterwards is [t], or [t] with one more execution and
    the average recomputed, up to its status. *)
Lemma round_spec addr cs chunk_num (w : world TWAPOrderManager) t :
  objects (mgr w) !! addr = Some t ->
  let a := actual_chunk_size t cs chunk_num in
  exists w' st t1 newlog,
    try_except (chunk_body addr cs chunk_num) (fun _ => ret false) w
    = (Ok (Py.leb a 0), w')
    /\ log w' = log w ++ newlog
    /\ stop_scheduler (mgr w') = stop_scheduler (mgr w)
    /\ objects (mgr w') !! addr = Some (with_status st t1)
    /\ requested newlog = (if Py.leb a 0 then [] else [a])
    /\ (t1 = t \/ exists e, t1 = update_average_price (record_fill e t))
    /\ (Py.leb a 0 = false -> Forall fully_filled newlog ->
        exists e, t1 = update_average_price (record_fill e t)
                  /\ quantity e == a).
Proof.
  intros Hobj a.
  unfold chunk_body, try_except. unfold bind at 1. unfold read, bind at 1, get.
  rewrite Hobj. cbn [ret]. fold a.
  destruct (Py.leb a 0) eqn:Hle.
  { exists w, (status t), t, []. cbn [ret].
    rewrite with_status_same, app_nil_r. repeat split; auto. discriminate. }
  unfold bind at 1. rewrite execute_chunk_run.
  set (r1 := hd Raise (script w)).
  set (e1 := (chunk_call (symbol t) (side t) a (price_limit t), r1)).
  set (cr := match r1 with RetOrder o => Some o | _ => None end).
  set (w1 := World (mgr w) (tl (script w)) (log w ++ [e1])).
  assert (Hreq1 : requested [e1] = [a]).
  { unfold requested. cbn. unfold e1. rewrite requested_chunk_call.
    reflexivity. }
  destruct (update_spec addr chunk_num cr w1 t Hobj)
    as (r & w2 & t1 & Hrun & Hr & Hlog2 & _ & Hstop2 & Hobj2 & Ht1 & Hfill).
  assert (Hfull : fully_filled e1 ->
            r = Ok tt
            /\ exists e, t1 = update_average_price (record_fill e t)
                         /\ quantity e == a).
  { intros Hf.
    destruct (Hf a (requested_chunk_call _ _ _ _ _))
      as (o & p & q' & Ho & Hst & Hp & Hq & Heq).
    cbn in Ho. destruct (Hfill o p q') as (Hok & e & He & Hqe); auto.
    { unfold cr. rewrite Ho. reflexivity. }
    split; [exact Hok|]. exists e. split; [exact He|]. by rewrite Hqe. }
  unfold bind at 1. rewrite Hrun.
  destruct Hr as [-> | ->].
  - destruct (wait_spec addr chunk_num t w2 t1 Hobj2)
      as (w' & st & sl & Hwait & Hlog & Hreq & Hstop & Ho).
    unfold bind. rewrite Hwait. cbn [ret].
    exists w', st, t1, (e1 :: sl). split; [reflexivity|].
    split; [rewrite Hlog, Hlog2; cbn; by rewrite <- app_assoc|].
    split; [rewrite Hstop, Hstop2; reflexivity|]. split; [exact Ho|].
    split.
    { change (e1 :: sl) with ([e1] ++ sl).
      by rewrite requested_app, Hreq, Hreq1. }
    split; [exact Ht1|].
    intros _ Hall. apply Forall_cons in Hall as [Hf _].
    apply Hfull, Hf.
  - cbn [ret]. exists w2, (status t1), t1, [e1]. rewrite with_status_same.
    split; [reflexivity|]. split; [by rewrite Hlog2|].
    split; [exact Hstop2|]. split; [exact Hobj2|]. split; [exact Hreq1|].
    split; [exact Ht1|].
    intros _ Hall. apply Forall_cons in Hall as [Hf _].
    destruct (Hfull Hf) as [Hok _]. discriminate.
Qed.

Lemma fresh_order_consistent t :
  executions t = [] -> total_filled t == 0 -> consistent t.
Proof.
  intros He Hf. unfold consistent. rewrite He. unfold total_quantity_of. cbn.
  split; [symmetry; exact Hf|]. intros H. lra.
Qed.

Lemma chunk_loop_consistent addr cs chunks :
  forall (w : world TWAPOrderManager) t,
    objects (mgr w) !! addr = Some t -> consistent t ->
    exists w' t',
      chunk_loop addr cs chunks w = (Ok tt, w')
      /\ objects (mgr w') !! addr = Some t'
      /\ consistent t'.
Proof.
  induction chunks as [|c chunks IH]; intros w t Hobj Hcons.
  - exists w, t. auto.
  - cbn [chunk_loop]. unfold bind at 1, get.
    destruct (stop_scheduler (mgr w)); [exists w, t; auto|].
    destruct (round_spec addr cs c w t Hobj)
      as (w1 & st & t1 & l & Hrun & _ & _ & Hobj1 & _ & Ht1 & _).
    unfold bind. rewrite Hrun.
    assert (Hcons1 : consistent (with_status st t1)).
    { apply consistent_with_status.
      destruct Ht1 as [->|[e ->]]; [exact Hcons|].
      apply consistent_after_fill, Hcons. }
    destruct (Py.leb _ 0); [exists w1; eauto|].
    exact (IH w1 _ Hobj1 Hcons1).
Qed.

(** C8, counterexample: the first chunk is reported FILLED by an answer
    that has an average price and no executed quantity.  The execution is
    recorded with quantity 0, so that one execution is recorded, the
    quantities add up to 0, the weighted mean is not defined, and
    [avg_price] is left at 0 although the execution has price 100. *)
Lemma twap_execution_without_quantity :
  let answer :=
    {| orderId := Some 1%Z; Gateway.status := Some "FILLED"%string;
       avgPrice := Num 100; executedQty := Absent |} in
  let t' :=
    objects (mgr (snd (chunk_loop 0 1 [0%Z]
                         (twap_started [RetFloat 1000; RetOrder answer;
                                        Woke []]))))
    !! 0%nat in
  executions <$> t'
  = Some [{| chunk_num := 1; quantity := 0; price := 100;
             order_id := Some 1%Z |}]
  /\ total_filled <$> t' = Some 0
  /\ avg_price <$> t' = Some 0.
Proof. vm_compute. repeat split; reflexivity. Qed.

(** C8, amended: whatever part of the schedule has run and whatever the
    exchange and other threads did, the quantities of the executions add
    up to [total_filled], and [avg_price] is their quantity-weighted mean
    price whenever the quantities add up to more than zero. *)
Theorem twap_bookkeeping_consistent
    addr cs chunks (w : world TWAPOrderManager) t :
  objects (mgr w) !! addr = Some t -> consistent t ->
  exists w' t',
    chunk_loop addr cs chunks w = (Ok tt, w')
    /\ objects (mgr w') !! addr = Some t'
    /\ total_quantity_of (executions t') == total_filled t'
    /\ (0 < total_quantity_of (executions t') ->
        avg_price t'
        == total_value_of (executions t') / total_quantity_of (executions t')).
Proof.
  intros Hobj Hcons.
  destruct (chunk_loop_consistent addr cs chunks w t Hobj Hcons)
    as (w' & t' & Hrun & Hobj' & Hsum & Havg).
  exists w', t'. split; [exact Hrun|]. split; [exact Hobj'|].
  split; [exact Hsum|exact Havg].
Qed.

(** The three chunks of the example, one of them cancelled from outside. *)
Lemma twap_bookkeeping_consistent_witness :
  exists w' t',
    chunk_loop 0 1 [0; 1; 2]%Z (twap_started twap_cancelled_script)
    = (Ok tt, w')
    /\ objects (mgr w') !! 0%nat = Some t'
    /\ total_quantity_of (executions t') == total_filled t'
    /\ (0 < total_quantity_of (executions t') ->
        avg_price t'
        == total_value_of (executions t') / total_quantity_of (executions t')).
Proof.
  eapply (twap_bookkeeping_consistent 0 1 [0; 1; 2]%Z
            (twap_started twap_cancelled_script)).
  - vm_compute. reflexivity.
  - split; [reflexivity|]. intros H. vm_compute in H. discriminate H.
Defined.

Lemma remaining_after_fill st e t :
  remaining_quantity (with_status st (update_average_price (record_fill e t)))
  = remaining_quantity t - quantity e.
Proof. unfold update_average_price. destruct (Py.ltb _ _); reflexivity. Qed.

Lemma num_chunks_after_fill st e t :
  num_chunks (with_status st (update_average_price (record_fill e t)))
  = num_chunks t.
Proof. unfold update_average_price. destruct (Py.ltb _ _); reflexivity. Qed.

Lemma chunk_loop_total addr cs chunks :
  forall (w : world TWAPOrderManager) t,
    objects (mgr w) !! addr = Some t ->
    exists w' l t',
      chunk_loop addr cs chunks w = (Ok tt, w')
      /\ log w' = log w ++ l
      /\ objects (mgr w') !! addr = Some t'.
Proof.
  induction chunks as [|c chunks IH]; intros w t Hobj.
  - exists w, [], t. by rewrite app_nil_r.
  - cbn [chunk_loop]. unfold bind at 1, get.
    destruct (stop_scheduler (mgr w));
      [exists w, [], t; by rewrite app_nil_r|].
    destruct (round_spec addr cs c w t Hobj)
      as (w1 & st & t1 & l1 & Hrun & Hlog1 & _ & Hobj1 & _).
    unfold bind. rewrite Hrun.
    destruct (Py.leb _ 0); [exists w1, l1; eauto|].
    destruct (IH w1 _ Hobj1) as (w' & l2 & t' & Hrest & Hlog2 & Hobj').
    exists w', (l1 ++ l2), t'. split; [exact Hrest|].
    split; [|exact Hobj']. by rewrite Hlog2, Hlog1, <- app_assoc.
Qed.

(** A round whose size is not positive ends the loop and changes
    nothing. *)
Lemma round_break addr cs chunk_num (w : world TWAPOrderManager) t :
  objects (mgr w) !! addr = Some t ->
  Py.leb (actual_chunk_size t cs chunk_num) 0 = true ->
  try_except (chunk_body addr cs chunk_num) (fun _ => ret false) w
  = (Ok true, w).
Proof.
  intros Hobj Hle.
  unfold chunk_body, try_except. unfold bind at 1. unfold read, bind at 1, get.
  rewrite Hobj. cbn [ret]. rewrite Hle. reflexivity.
Qed.

Lemma leb_true_le a b : Py.leb a b = true -> a <= b.
Proof.
  unfold Py.leb. destruct (Qlt_le_dec b a); [discriminate|done].
Qed.

Lemma min_le_r a b : Py.min a b <= b.
Proof.
  unfold Py.min. destruct (Qlt_le_dec b a); [apply Qle_refl|done].
Qed.

(** The last [k + 1] chunks of a schedule: if the exchange fills each
    order in full, nothing remains afterwards, whether the loop ran to its
    last chunk, which asks for all that remains, or ended before it for
    want of a positive size. *)
Lemma chunk_loop_exhausts addr cs k :
  forall i (w : world TWAPOrderManager) t w' l,
    objects (mgr w) !! addr = Some t ->
    stop_scheduler (mgr w) = false ->
    num_chunks t = (i + Z.of_nat (Datatypes.S k))%Z ->
    0 < cs ->
    0 <= remaining_quantity t ->
    chunk_loop addr cs (seqZ i (Z.of_nat (Datatypes.S k))) w = (Ok tt, w') ->
    log w' = log w ++ l ->
    Forall fully_filled l ->
    exists t',
      objects (mgr w') !! addr = Some t' /\ remaining_quantity t' == 0.
Proof.
  induction k as [|k IH]; intros i w t w' l Hobj Hstop Hn Hcs Hrem Hrun Hlog
    Hall.
  all: rewrite seqZ_cons in Hrun by lia;
    cbn [chunk_loop] in Hrun; unfold bind at 1, get in Hrun;
    rewrite Hstop in Hrun;
    set (a := actual_chunk_size t cs i) in *;
    destruct (Py.leb a 0) eqn:Hle.
  - (* the last chunk has nothing to ask for *)
    unfold bind in Hrun. rewrite (round_break _ _ _ _ _ Hobj Hle) in Hrun.
    injection Hrun as <-. exists t. split; [exact Hobj|].
    apply leb_true_le in Hle. unfold a, actual_chunk_size in Hle.
    destruct (Z.eqb_spec i (num_chunks t - 1)); [|lia].
    by apply Qle_antisym.
  - (* the last chunk asks for what remains *)
    destruct (round_spec addr cs i w t Hobj)
      as (w1 & st & t1 & l1 & Hround & Hlog1 & _ & Hobj1 & _ & _ & Hfull).
    fold a in Hround, Hfull. rewrite Hle in Hround.
    unfold bind in Hrun. rewrite Hround in Hrun.
    replace (Z.pred (Z.of_nat 1)) with 0%Z in Hrun by lia.
    cbn in Hrun. injection Hrun as <-.
    assert (l = l1) as ->.
    { apply (app_inv_head (log w)). by rewrite <- Hlog, Hlog1. }
    destruct (Hfull Hle Hall) as (e & -> & Hqe).
    eexists. split; [exact Hobj1|].
    rewrite remaining_after_fill, Hqe. unfold a, actual_chunk_size.
    destruct (Z.eqb_spec i (num_chunks t - 1)); [ring|lia].
  - (* an earlier chunk has nothing to ask for *)
    unfold bind in Hrun. rewrite (round_break _ _ _ _ _ Hobj Hle) in Hrun.
    injection Hrun as <-. exists t. split; [exact Hobj|].
    apply leb_true_le in Hle. unfold a, actual_chunk_size in Hle.
    destruct (Z.eqb_spec i (num_chunks t - 1)); [lia|].
    apply Qle_antisym; [|exact Hrem].
    unfold Py.min in Hle.
    destruct (Qlt_le_dec (remaining_quantity t) cs); [exact Hle|lra].
  - (* an earlier chunk is filled; the rest follows *)
    destruct (round_spec addr cs i w t Hobj)
      as (w1 & st & t1 & l1 & Hround & Hlog1 & Hstop1 & Hobj1 & _ & _
          & Hfull).
    fold a in Hround, Hfull. rewrite Hle in Hround.
    unfold bind in Hrun. rewrite Hround in Hrun.
    replace (Z.pred (Z.of_nat (Datatypes.S (Datatypes.S k))))
      with (Z.of_nat (Datatypes.S k)) in Hrun by lia.
    destruct (chunk_loop_total addr cs
                (seqZ (Z.succ i) (Z.of_nat (Datatypes.S k))) w1 _ Hobj1)
      as (w'' & l2 & t2 & Hrest & Hlog2 & _).
    assert (w'' = w') as -> by congruence.
    assert (l = l1 ++ l2) as ->.
    { apply (app_inv_head (log w)).
      by rewrite <- Hlog, Hlog2, Hlog1, <- app_assoc. }
    apply Forall_app in Hall as [Hall1 Hall2].
    destruct (Hfull Hle Hall1) as (e & -> & Hqe).
    apply (IH (Z.succ i) w1 _ w' l2 Hobj1); auto.
    + by rewrite Hstop1.
    + rewrite num_chunks_after_fill. lia.
    + rewrite remaining_after_fill, Hqe. unfold a, actual_chunk_size.
      destruct (Z.eqb_spec i (num_chunks t - 1)); [lra|].
      assert (H := min_le_r cs (remaining_quantity t)). lra.
Qed.

(** C5, counterexample: the exchange rejects the first of three chunks of
    a TWAP of 3 units.  The second chunk asks for 1 again and the last one
    for all that remains, 2: the sizes asked for add up to 4. *)
Lemma twap_requested_exceeds_total :
  let wf :=
    snd (_execute_twap_chunks 0 (twap_started twap_first_chunk_fails_script)) in
  total_quantity <$> objects (mgr wf) !! 0%nat = Some 3
  /\ map Qred (requested (log wf)) = [1; 1; 2]
  /\ Qred (Qsum (requested (log wf))) = 4.
Proof. vm_compute. repeat split; reflexivity. Qed.

(** C5, amended: a round asks for what remains when it is the last of the
    schedule and for [min chunk_size remaining] otherwise, and for nothing
    when that size is not positive, which ends the loop.  When every
    order is filled in full, nothing remains at the end: the last chunk
    takes whatever the earlier ones left. *)
Theorem final_chunk_absorbs_remainder addr (w : world TWAPOrderManager) t :
  objects (mgr w) !! addr = Some t ->
  stop_scheduler (mgr w) = false ->
  (1 <= num_chunks t)%Z ->
  0 < chunk_size t ->
  0 <= remaining_quantity t ->
  (forall c (w1 : world TWAPOrderManager) t1,
     objects (mgr w1) !! addr = Some t1 ->
     exists l1,
       log (snd (try_except (chunk_body addr (chunk_size t) c)
                   (fun _ => ret false) w1)) = log w1 ++ l1
       /\ requested l1
          = if Py.leb (if (c =? num_chunks t1 - 1)%Z
                       then remaining_quantity t1
                       else Py.min (chunk_size t) (remaining_quantity t1)) 0
            then []
            else [if (c =? num_chunks t1 - 1)%Z then remaining_quantity t1
                  else Py.min (chunk_size t) (remaining_quantity t1)])
  /\ exists w' l t',
       _execute_twap_chunks addr w = (Ok tt, w')
       /\ log w' = log w ++ l
       /\ objects (mgr w') !! addr = Some t'
       /\ (Forall fully_filled l -> remaining_quantity t' == 0).
Proof.
  intros Hobj Hstop Hn Hpos Hrem. split.
  - intros c w1 t1 Hobj1.
    destruct (round_spec addr (chunk_size t) c w1 t1 Hobj1)
      as (w2 & st & t2 & l1 & Hround & Hlog1 & _ & _ & Hreq1 & _).
    exists l1. rewrite Hround. split; [exact Hlog1|exact Hreq1].
  - unfold _execute_twap_chunks. unfold bind at 1, read, bind at 1, get.
    rewrite Hobj. cbn [ret].
    destruct (chunk_loop_total addr (chunk_size t) (seqZ 0 (num_chunks t)) w t
                Hobj) as (w1 & l & t' & Hloop & Hlog & Hobj').
    unfold bind, mutate, modify. rewrite Hloop. cbn [mgr script log].
    eexists _, l, (with_status "COMPLETED" t').
    split; [reflexivity|]. split; [exact Hlog|].
    cbn [mgr set_active set_objects objects].
    split; [by apply lookup_alter_same|].
    intros Hall.
    replace (num_chunks t)
      with (Z.of_nat (Datatypes.S (Z.to_nat (num_chunks t - 1)))) in Hloop
      by lia.
    destruct (chunk_loop_exhausts addr (chunk_size t)
                (Z.to_nat (num_chunks t - 1)) 0%Z w t w1 l)
      as (t'' & Hobj'' & Hzero); auto; [lia|].
    assert (t'' = t') as -> by congruence. exact Hzero.
Qed.

(** A TWAP of 3 units in three chunks, each filled in full. *)
Lemma final_chunk_absorbs_remainder_witness :
  exists w' l t',
    _execute_twap_chunks 0 (twap_started twap_all_filled_script) = (Ok tt, w')
    /\ log w' = log (twap_started twap_all_filled_script) ++ l
    /\ objects (mgr w') !! 0%nat = Some t'
    /\ (Forall fully_filled l -> remaining_quantity t' == 0).
Proof.
  epose proof (final_chunk_absorbs_remainder 0
                 (twap_started twap_all_filled_script) _) as H0.
  edestruct H0 as [_ H].
  - vm_compute. reflexivity.
  - reflexivity.
  - vm_compute. discriminate.
  - vm_compute. reflexivity.
  - vm_compute. discriminate.
  - exact H.
Defined.

(** The run of that example asks for 1, 1 and 1. *)
Lemma twap_all_filled_requests :
  map Qred
    (requested
       (log (snd (_execute_twap_chunks 0
                    (twap_started twap_all_filled_script)))))
  = [1; 1; 1].
Proof. vm_compute. reflexivity. Qed.

(** The thread always ends by writing COMPLETED, whatever was written into
    the status while it ran. *)
Lemma twap_thread_ends_completed addr (w : world TWAPOrderManager) t :
  objects (mgr w) !! addr = Some t ->
  exists w',
    _execute_twap_chunks addr w = (Ok tt, w')
    /\ status <$> objects (mgr w') !! addr = Some "COMPLETED".
Proof.
  intros Hobj.
  unfold _execute_twap_chunks. unfold bind at 1, read, bind at 1, get.
  rewrite Hobj. cbn [ret].
  destruct (chunk_loop_total addr (chunk_size t) (seqZ 0 (num_chunks t)) w t
              Hobj) as (w1 & l & t' & Hloop & _ & Hobj').
  unfold bind, mutate, modify. rewrite Hloop. cbn [mgr script log].
  eexists. split; [reflexivity|]. cbn.
  rewrite (lookup_alter_same _ _ _ _ Hobj'). reflexivity.
Qed.

End TWAPLoopFacts.


(** ** More on monitoring an OCO pair *)

Module OCOMonitorMoreFacts.
Import Gateway GatewayFacts OCO Examples Obs Views OCOMonitorFacts.

(** Whatever the exchange answers, a round ends normally: the handler of
    the round swallows every exception. *)
Lemma monitor_round_returns addr symbol lid sid (w : world OCOOrderManager) :
  exists b w', monitor_round addr symbol lid sid w = (Ok b, w').
Proof. run_round; eexists _, _; reflexivity. Qed.

Lemma monitor_loop_never_raises fuel addr symbol lid sid :
  forall w : world OCOOrderManager,
    not_raised (fst (monitor_loop fuel addr symbol lid sid w)).
Proof.
  induction fuel as [|fuel IH]; intros w; [exact I|].
  cbn [monitor_loop]. unfold bind at 1, get.
  destruct (stop_monitoring (mgr w)); [exact I|].
  destruct (monitor_round_returns addr symbol lid sid w) as (b & w' & Hr).
  unfold bind. rewrite Hr. destruct b; [exact I|apply IH].
Qed.

(** X1: no answer of the exchange makes the monitoring thread of a
    registered pair die with an exception: it ends normally or is still
    polling. *)
Theorem oco_monitor_never_raises fuel addr o (w : world OCOOrderManager) :
  objects (mgr w) !! addr = Some o ->
  not_raised (fst (_monitor_oco_order fuel addr w)).
Proof.
  intros Ho. unfold _monitor_oco_order. unfold bind at 1, get. rewrite Ho.
  unfold bind.
  assert (H := monitor_loop_never_raises fuel addr (symbol o)
                 (orderId (limit_order o)) (orderId (stop_order o)) w).
  destruct (monitor_loop _ _ _ _ _ w) as [[[]| |] w']; cbn in *; auto.
Qed.

Lemma oco_monitor_never_raises_witness :
  not_raised (fst (_monitor_oco_order 3 0 (oco_started [Raise; RetNone]))).
Proof.
  eapply (oco_monitor_never_raises 3 0 _ (oco_started [Raise; RetNone])).
  vm_compute. reflexivity.
Defined.

(** The round in which both legs are reported CANCELED. *)
Lemma cancelled_round addr symbol lid sid (w : world OCOOrderManager) l s rest :
  script w = RetOrder l :: RetOrder s :: rest ->
  Gateway.status l = Some "CANCELED" ->
  Gateway.status s = Some "CANCELED" ->
  monitor_round addr symbol lid sid w
  = (Ok true,
     World (set_object_status addr "CANCELLED" (mgr w)) rest
       (log w ++ [(get_order_status symbol lid, RetOrder l);
                  (get_order_status symbol sid, RetOrder s)])).
Proof.
  intros Hscript Hl Hs. destruct w as [m sc lg]. cbn in Hscript. subst sc.
  unfold monitor_round, try_except, call_order, get_status, bind, modify, ret,
    is_status.
  cbn. rewrite Hl, Hs. cbn. rewrite <- !app_assoc. reflexivity.
Qed.

(** X2: when a poll reports both legs CANCELED, after any number of polls
    that reported nothing final, the monitoring ends with status CANCELLED
    and the pair leaves the registry; nothing is asked of the exchange
    beyond the two status queries of that poll. *)
Theorem external_cancel_ends_monitoring
    fuel k addr o (w wk : world OCOOrderManager) l s rest :
  objects (mgr w) !! addr = Some o ->
  stop_monitoring (mgr w) = false ->
  quiet_rounds addr (symbol o) (orderId (limit_order o))
    (orderId (stop_order o)) k w wk ->
  script wk = RetOrder l :: RetOrder s :: rest ->
  Gateway.status l = Some "CANCELED" ->
  Gateway.status s = Some "CANCELED" ->
  (k < fuel)%nat ->
  _monitor_oco_order fuel addr w
  = (Ok tt,
     World (set_monitoring (delete (oco_id o))
              (set_object_status addr "CANCELLED" (mgr w)))
       rest
       (log wk ++ [(get_order_status (symbol o) (orderId (limit_order o)),
                    RetOrder l);
                   (get_order_status (symbol o) (orderId (stop_order o)),
                    RetOrder s)])).
Proof.
  intros Ho Hstop Hq Hscript Hl Hs Hk.
  unfold _monitor_oco_order. unfold bind at 1, get. rewrite Ho.
  unfold bind at 1.
  rewrite (monitor_loop_breaks _ _ _ _ k fuel w wk _ Hq Hstop
             (cancelled_round _ _ _ _ wk l s rest Hscript Hl Hs) Hk).
  unfold modify. cbn [mgr script log].
  rewrite (quiet_rounds_mgr _ _ _ _ _ _ _ Hq). reflexivity.
Qed.

Lemma external_cancel_ends_monitoring_witness :
  exists wf,
    _monitor_oco_order 1 0
      (oco_started [RetOrder (set_status "CANCELED" (new_order 7));
                    RetOrder (set_status "CANCELED" (new_order 8))])
    = (Ok tt, wf)
    /\ status <$> objects (mgr wf) !! 0%nat = Some "CANCELLED"
    /\ cancels (log wf) = [].
Proof.
  eexists. split.
  - eapply (external_cancel_ends_monitoring 1 0 0 _
              (oco_started [RetOrder (set_status "CANCELED" (new_order 7));
                            RetOrder (set_status "CANCELED" (new_order 8))])).
    + vm_compute. reflexivity.
    + reflexivity.
    + apply quiet_done.
    + reflexivity.
    + reflexivity.
    + reflexivity.
    + lia.
  - vm_compute. split; reflexivity.
Defined.

(** A round during an outage: the first query raises and the handler
    sleeps. *)
Lemma outage_round addr symbol lid sid (w : world OCOOrderManager) :
  Forall (eq Raise) (script w) ->
  monitor_round addr symbol lid sid w
  = (Ok false,
     World (mgr w) (tl (tl (script w)))
       (log w ++ [(get_order_status symbol lid, Raise);
                  (time_sleep 10, Raise)])).
Proof.
  intros Hall. destruct w as [m sc lg]. cbn in *.
  destruct sc as [|r1 sc]; [cbn; rewrite <- app_assoc; reflexivity|].
  apply Forall_cons in Hall as [<- Hall].
  destruct sc as [|r2 sc]; [cbn; rewrite <- app_assoc; reflexivity|].
  apply Forall_cons in Hall as [<- Hall].
  cbn. rewrite <- app_assoc. reflexivity.
Qed.

Lemma cancels_app l1 l2 : cancels (l1 ++ l2) = cancels l1 ++ cancels l2.
Proof. unfold cancels. rewrite map_app, concat_app. reflexivity. Qed.

Lemma outage_loop fuel addr symbol lid sid :
  forall w : world OCOOrderManager,
    stop_monitoring (mgr w) = false ->
    Forall (eq Raise) (script w) ->
    exists w' l,
      monitor_loop fuel addr symbol lid sid w = (Running, w')
      /\ mgr w' = mgr w
      /\ log w' = log w ++ l
      /\ length l = (2 * fuel)%nat
      /\ cancels l = [].
Proof.
  induction fuel as [|fuel IH]; intros w Hstop Hall.
  - exists w, []. cbn. rewrite app_nil_r. auto.
  - cbn [monitor_loop]. unfold bind at 1, get. rewrite Hstop.
    unfold bind. rewrite (outage_round _ _ _ _ w Hall).
    destruct (IH (World (mgr w) (tl (tl (script w)))
                    (log w ++ [(get_order_status symbol lid, Raise);
                               (time_sleep 10, Raise)])))
      as (w' & l & Hrun & Hmgr & Hlog & Hlen & Hc).
    + exact Hstop.
    + cbn. destruct (script w) as [|r1 [|r2 sc]]; cbn; try constructor.
      apply Forall_cons in Hall as [_ Hall].
      apply Forall_cons in Hall as [_ Hall]. exact Hall.
    + exists w', ([(get_order_status symbol lid, Raise);
                   (time_sleep 10, Raise)] ++ l).
      split; [exact Hrun|]. split; [exact Hmgr|].
      split; [rewrite Hlog; cbn; by rewrite <- app_assoc|].
      split; [rewrite length_app, Hlen; cbn; lia|].
      rewrite cancels_app, Hc. reflexivity.
Qed.

(** X3: while every request to the exchange fails, the monitor keeps
    polling: however long it runs it is still running, each round has made
    one query and slept, no cancel was requested, and the status of the
    pair and the registry are as they were; it never gives up and never
    marks the pair as failed. *)
Theorem oco_monitor_polls_through_outage
    fuel addr o (w : world OCOOrderManager) :
  objects (mgr w) !! addr = Some o ->
  stop_monitoring (mgr w) = false ->
  Forall (eq Raise) (script w) ->
  exists w' l,
    _monitor_oco_order fuel addr w = (Running, w')
    /\ mgr w' = mgr w
    /\ log w' = log w ++ l
    /\ length l = (2 * fuel)%nat
    /\ cancels l = [].
Proof.
  intros Ho Hstop Hall.
  unfold _monitor_oco_order. unfold bind at 1, get. rewrite Ho.
  destruct (outage_loop fuel addr (symbol o) (orderId (limit_order o))
              (orderId (stop_order o)) w Hstop Hall)
    as (w' & l & Hrun & Hrest).
  unfold bind. rewrite Hrun. exists w', l. split; [reflexivity|exact Hrest].
Qed.

Lemma oco_monitor_polls_through_outage_witness :
  exists w' l,
    _monitor_oco_order 5 0 (oco_started [Raise; Raise; Raise]) = (Running, w')
    /\ mgr w' = mgr (oco_started [Raise; Raise; Raise])
    /\ log w' = log (oco_started [Raise; Raise; Raise]) ++ l
    /\ length l = 10%nat
    /\ cancels l = [].
Proof.
  eapply (oco_monitor_polls_through_outage 5 0 _
            (oco_started [Raise; Raise; Raise])).
  - vm_compute. reflexivity.
  - reflexivity.
  - vm_compute. repeat constructor.
Defined.

End OCOMonitorMoreFacts.


(** ** More on starting and cancelling an OCO pair *)

Module OCOStartMoreFacts.
Import Gateway GatewayFacts Validator OCO Examples Obs Views OCOStartFacts.

Lemma try_reraise {St A} (m : M St A) (w : world St) :
  try_except m (fun e => raise e) w = m w.
Proof. unfold try_except, raise. destruct (m w) as [[a|e|] w']; reflexivity. Qed.

(** A start whose request is valid and confirmed gets as far as placing
    the orders. *)
Lemma execute_oco_reaches_placement
    cfg symbol side quantity price stop_price stop_limit_price
    (w : world OCOOrderManager) v cur rest :
  validate_oco cfg
    {| oco_symbol := symbol; oco_side := side; oco_quantity := quantity;
       oco_price := price; oco_stop_price := stop_price;
       oco_stop_limit_price := stop_limit_price |} = inr v ->
  ~ cur == 0 -> ~ oco_price v == 0 -> ~ oco_stop_price v == 0 ->
  script w = RetFloat cur :: confirm_script (no_confirm (mgr w)) ++ rest ->
  execute_oco_order cfg symbol side quantity price stop_price
    stop_limit_price w
  = place_oco_orders symbol side quantity price stop_price stop_limit_price
      (World (mgr w) rest
         (log w ++ (get_current_price symbol, RetFloat cur)
            :: confirm_log (no_confirm (mgr w)))).
Proof.
  intros Hv Hcur Hp Hsp Hscript.
  destruct w as [m sc lg]. cbn [script mgr log] in *. subst sc.
  unfold execute_oco_order. rewrite try_reraise, Hv.
  unfold bind at 1. cbn [construct ret].
  unfold bind at 1. unfold call_float, bind at 1. rewrite interact_run.
  cbn [script hd tl mgr log ret].
  unfold bind at 1.
  assert (Hdisp : forall w', _display_oco_details v cur w' = (Ok tt, w')).
  { intros w'. unfold _display_oco_details.
    rewrite (eqb_false_of_nonzero _ Hcur), (eqb_false_of_nonzero _ Hp),
      (eqb_false_of_nonzero _ Hsp).
    destruct (String.eqb _ _); reflexivity. }
  rewrite Hdisp.
  unfold bind at 1. unfold _confirm_oco_order, bind at 1, get. cbn [mgr].
  destruct (no_confirm m) eqn:Hc; cbn [confirm_script confirm_log app].
  - cbn [ret negb]. reflexivity.
  - unfold call_bool, bind at 1. rewrite interact_run.
    cbn [script hd tl mgr log ret negb]. rewrite <- ?app_assoc. reflexivity.
Qed.

Lemma stop_order_call symbol side quantity stop_price stop_limit_price :
  (match stop_limit_price with
   | Some slp =>
       if Py.truthy stop_limit_price
       then call_order (place_stop_limit_order symbol side quantity
                          stop_price slp)
       else _place_stop_market_order symbol side quantity stop_price
   | None => _place_stop_market_order symbol side quantity stop_price
   end : M OCOOrderManager (option order))
  = call_order (place_stop_limit_order symbol side quantity stop_price
                  (stop_limit_of stop_price stop_limit_price)).
Proof.
  unfold stop_limit_of, _place_stop_market_order.
  destruct stop_limit_price; [destruct (Py.truthy _)|]; reflexivity.
Qed.

(** X4: when both legs are placed, the pair is stored with status ACTIVE
    under the id made of the clock's whole seconds, the registry maps that
    id to it, the monitoring thread is started, and no cancel is
    requested. *)
Theorem oco_start_registers_pair
    cfg symbol side quantity price stop_price stop_limit_price
    (w : world OCOOrderManager) v cur lo so now created rest :
  validate_oco cfg
    {| oco_symbol := symbol; oco_side := side; oco_quantity := quantity;
       oco_price := price; oco_stop_price := stop_price;
       oco_stop_limit_price := stop_limit_price |} = inr v ->
  ~ cur == 0 -> ~ oco_price v == 0 -> ~ oco_stop_price v == 0 ->
  script w
  = RetFloat cur :: confirm_script (no_confirm (mgr w))
    ++ RetOrder lo :: RetOrder so :: RetFloat now :: RetFloat created :: rest ->
  let addr := length (objects (mgr w)) in
  let pair :=
    {| oco_id := "OCO_" +:+ pretty (Py.int now); symbol := symbol;
       side := side; quantity := quantity; limit_order := lo;
       stop_order := so; status := "ACTIVE"; created_time := created |} in
  exists w',
    execute_oco_order cfg symbol side quantity price stop_price
      stop_limit_price w = (Ok (Started addr), w')
    /\ objects (mgr w') = objects (mgr w) ++ [pair]
    /\ monitoring_orders (mgr w')
       = <[oco_id pair := addr]> (monitoring_orders (mgr w))
    /\ script w' = rest
    /\ log w'
       = log w ++ (get_current_price symbol, RetFloat cur)
         :: confirm_log (no_confirm (mgr w))
         ++ [(place_limit_order symbol side quantity price, RetOrder lo);
             (place_stop_limit_order symbol side quantity stop_price
                (stop_limit_of stop_price stop_limit_price), RetOrder so);
             (time_time, RetFloat now); (time_time, RetFloat created);
             (thread_start "_monitor_oco_order" addr, RetNone)].
Proof.
  intros Hv Hcur Hp Hsp Hscript addr pair.
  rewrite (execute_oco_reaches_placement _ _ _ _ _ _ _ w v cur _
             Hv Hcur Hp Hsp Hscript).
  unfold place_oco_orders.
  unfold bind at 1. unfold try_except at 1, call_order at 1, bind at 1.
  rewrite interact_run. cbn [script hd tl mgr log ret].
  unfold bind at 1. unfold try_except at 1.
  unfold bind at 1. cbn [get_orderId ret].
  rewrite stop_order_call. unfold call_order at 1, bind at 1.
  rewrite interact_run. cbn [script hd tl mgr log ret].
  unfold try_except, bind at 1. cbn [get_orderId ret].
  unfold bind at 1, call_float, bind at 1. rewrite interact_run.
  cbn [script hd tl mgr log ret].
  unfold bind at 1, bind at 1. rewrite interact_run.
  cbn [script hd tl mgr log ret].
  unfold _start_oco_monitoring, bind, get, modify, emit, ret.
  cbn [script hd tl mgr log objects alloc set_monitoring monitoring_orders].
  eexists. split; [reflexivity|]. cbn [mgr script log objects
    monitoring_orders oco_id].
  repeat split. rewrite <- !app_assoc. cbn [app]. rewrite <- ?app_assoc.
  reflexivity.
Qed.

Lemma oco_start_registers_pair_witness :
  exists w',
    execute_oco_order Config.default "BTCUSDT" "SELL" 1 46000 44000 None
      (World (OCO.init false)
         [RetFloat 45000; RetBool true; RetOrder (new_order 7);
          RetOrder (new_order 8); RetFloat 1000; RetFloat 1000] [])
    = (Ok (Started 0), w')
    /\ monitoring_orders (mgr w') !! "OCO_1000" = Some 0%nat
    /\ status <$> objects (mgr w') !! 0%nat = Some "ACTIVE"
    /\ cancels (log w') = [].
Proof.
  epose proof (oco_start_registers_pair Config.default "BTCUSDT" "SELL" 1
                 46000 44000 None
                 (World (OCO.init false)
                    [RetFloat 45000; RetBool true; RetOrder (new_order 7);
                     RetOrder (new_order 8); RetFloat 1000; RetFloat 1000] [])
                 _ 45000 (new_order 7) (new_order 8) 1000 1000 []) as H.
  edestruct H as (w' & Hrun & Hobj & Hreg & _ & Hlog).
  - vm_compute. reflexivity.
  - vm_compute. discriminate.
  - vm_compute. discriminate.
  - vm_compute. discriminate.
  - reflexivity.
  - exists w'. split; [exact Hrun|]. rewrite Hobj, Hreg, Hlog.
    vm_compute. repeat split; reflexivity.
Defined.

(** X5: when the first placement fails there is nothing to clean up: the
    error reaches the caller, no cancel is requested, no second order is
    placed, and nothing is registered. *)
Theorem oco_start_first_leg_fails
    cfg symbol side quantity price stop_price stop_limit_price
    (w : world OCOOrderManager) v cur r1 rest :
  validate_oco cfg
    {| oco_symbol := symbol; oco_side := side; oco_quantity := quantity;
       oco_price := price; oco_stop_price := stop_price;
       oco_stop_limit_price := stop_limit_price |} = inr v ->
  ~ cur == 0 -> ~ oco_price v == 0 -> ~ oco_stop_price v == 0 ->
  script w
  = RetFloat cur :: confirm_script (no_confirm (mgr w)) ++ r1 :: rest ->
  failure r1 ->
  execute_oco_order cfg symbol side quantity price stop_price
    stop_limit_price w
  = (Exn (APIError (place_limit_order symbol side quantity price)),
     World (mgr w) rest
       (log w ++ (get_current_price symbol, RetFloat cur)
          :: confirm_log (no_confirm (mgr w))
          ++ [(place_limit_order symbol side quantity price, r1)])).
Proof.
  intros Hv Hcur Hp Hsp Hscript Hr1.
  rewrite (execute_oco_reaches_placement _ _ _ _ _ _ _ w v cur _
             Hv Hcur Hp Hsp Hscript).
  unfold place_oco_orders.
  unfold bind at 1. unfold try_except at 1, call_order at 1, bind at 1.
  rewrite interact_run. cbn [script hd tl mgr log ret].
  destruct r1; try contradiction; cbn; rewrite <- ?app_assoc; reflexivity.
Qed.

Lemma oco_start_first_leg_fails_witness :
  cancels
    (log (snd (execute_oco_order Config.default "BTCUSDT" "SELL" 1 46000
                 44000 None
                 (World (OCO.init true) [RetFloat 45000; Raise] []))))
  = []
  /\ exists e,
       execute_oco_order Config.default "BTCUSDT" "SELL" 1 46000 44000 None
         (World (OCO.init true) [RetFloat 45000; Raise] [])
       = (Exn e,
          World (OCO.init true) []
            [(get_current_price "BTCUSDT", RetFloat 45000);
             (place_limit_order "BTCUSDT" "SELL" 1 46000, Raise)]).
Proof.
  split; [vm_compute; reflexivity|]. eexists.
  eapply (oco_start_first_leg_fails Config.default "BTCUSDT" "SELL" 1 46000
            44000 None (World (OCO.init true) [RetFloat 45000; Raise] [])
            _ 45000 Raise []).
  - vm_compute. reflexivity.
  - vm_compute. discriminate.
  - vm_compute. discriminate.
  - vm_compute. discriminate.
  - reflexivity.
  - exact I.
Defined.

(** X6: a request that fails validation is refused before anything is
    asked of the exchange or of the user, and the manager is untouched. *)
Theorem oco_invalid_request_touches_nothing
    cfg symbol side quantity price stop_price stop_limit_price
    (w : world OCOOrderManager) fields :
  validate_oco cfg
    {| oco_symbol := symbol; oco_side := side; oco_quantity := quantity;
       oco_price := price; oco_stop_price := stop_price;
       oco_stop_limit_price := stop_limit_price |} = inl fields ->
  execute_oco_order cfg symbol side quantity price stop_price
    stop_limit_price w
  = (Exn (ValidationError fields), w).
Proof.
  intros Hv. unfold execute_oco_order. rewrite try_reraise, Hv.
  reflexivity.
Qed.

Lemma oco_invalid_request_touches_nothing_witness :
  execute_oco_order Config.default "BTC" "HOLD" 1 46000 0 None
    (World (OCO.init true) [RetFloat 45000] [])
  = (Exn (ValidationError ["symbol"; "side"; "stop_price"]),
     World (OCO.init true) [RetFloat 45000] []).
Proof.
  apply (oco_invalid_request_touches_nothing Config.default "BTC" "HOLD" 1
           46000 0 None (World (OCO.init true) [RetFloat 45000] [])).
  vm_compute. reflexivity.
Defined.

(** X7: when the user answers no to the prompt, the start returns the
    cancelled result and no order is placed: the price query and the prompt
    are the only interactions, and nothing is registered. *)
Theorem oco_declined_places_nothing
    cfg symbol side quantity price stop_price stop_limit_price
    (w : world OCOOrderManager) v cur rest :
  validate_oco cfg
    {| oco_symbol := symbol; oco_side := side; oco_quantity := quantity;
       oco_price := price; oco_stop_price := stop_price;
       oco_stop_limit_price := stop_limit_price |} = inr v ->
  ~ cur == 0 -> ~ oco_price v == 0 -> ~ oco_stop_price v == 0 ->
  no_confirm (mgr w) = false ->
  script w = RetFloat cur :: RetBool false :: rest ->
  execute_oco_order cfg symbol side quantity price stop_price
    stop_limit_price w
  = (Ok UserCancelled,
     World (mgr w) rest
       (log w ++ [(get_current_price symbol, RetFloat cur);
                  (click_confirm, RetBool false)])).
Proof.
  intros Hv Hcur Hp Hsp Hc Hscript.
  destruct w as [m sc lg]. cbn [script mgr log] in *. subst sc.
  unfold execute_oco_order. rewrite try_reraise, Hv.
  unfold bind at 1. cbn [construct ret].
  unfold bind at 1. unfold call_float, bind at 1. rewrite interact_run.
  cbn [script hd tl mgr log ret].
  unfold bind at 1.
  assert (Hdisp : forall w', _display_oco_details v cur w' = (Ok tt, w')).
  { intros w'. unfold _display_oco_details.
    rewrite (eqb_false_of_nonzero _ Hcur), (eqb_false_of_nonzero _ Hp),
      (eqb_false_of_nonzero _ Hsp).
    destruct (String.eqb _ _); reflexivity. }
  rewrite Hdisp.
  unfold bind at 1. unfold _confirm_oco_order, bind at 1, get. cbn [mgr].
  rewrite Hc. unfold call_bool, bind at 1. rewrite interact_run.
  cbn [script hd tl mgr log ret negb]. rewrite <- ?app_assoc. reflexivity.
Qed.

Lemma oco_declined_places_nothing_witness :
  execute_oco_order Config.default "BTCUSDT" "SELL" 1 46000 44000 None
    (World (OCO.init false) [RetFloat 45000; RetBool false] [])
  = (Ok UserCancelled,
     World (OCO.init false) []
       [(get_current_price "BTCUSDT", RetFloat 45000);
        (click_confirm, RetBool false)]).
Proof.
  eapply (oco_declined_places_nothing Config.default "BTCUSDT" "SELL" 1 46000
            44000 None
            (World (OCO.init false) [RetFloat 45000; RetBool false] [])
            _ 45000 []).
  - vm_compute. reflexivity.
  - vm_compute. discriminate.
  - vm_compute. discriminate.
  - vm_compute. discriminate.
  - reflexivity.
  - reflexivity.
Defined.

(** For a registered pair whose legs carry ids, [cancel_oco_order] is the
    [try] block around the two cancel requests. *)
Lemma cancel_oco_order_run oco_id addr o l s (w : world OCOOrderManager) :
  monitoring_orders (mgr w) !! oco_id = Some addr ->
  objects (mgr w) !! addr = Some o ->
  orderId (limit_order o) = Some l ->
  orderId (stop_order o) = Some s ->
  cancel_oco_order oco_id w
  = try_except
      (bind (call_any (cancel_order (symbol o) (Some l)))
         (fun _ => bind (call_any (cancel_order (symbol o) (Some s)))
            (fun _ => bind (modify (set_object_status addr "CANCELLED"))
               (fun _ => ret true))))
      (fun _ => ret false) w.
Proof.
  intros Hreg Hobj Hl Hs.
  unfold cancel_oco_order, bind at 1, get. rewrite Hreg, Hobj, Hl, Hs.
  reflexivity.
Qed.

(** X8: cancelling a registered pair asks the exchange to cancel the limit
    leg and then the stop leg; when both requests are accepted the status
    becomes CANCELLED and the result is true.  The pair stays in the
    registry: only its monitoring thread removes it. *)
Theorem cancel_oco_order_cancels_both_legs
    oco_id addr o l s r1 r2 rest (w : world OCOOrderManager) :
  monitoring_orders (mgr w) !! oco_id = Some addr ->
  objects (mgr w) !! addr = Some o ->
  orderId (limit_order o) = Some l ->
  orderId (stop_order o) = Some s ->
  script w = r1 :: r2 :: rest ->
  r1 <> Raise -> r2 <> Raise ->
  cancel_oco_order oco_id w
  = (Ok true,
     World (set_object_status addr "CANCELLED" (mgr w)) rest
       (log w ++ [(cancel_order (symbol o) (Some l), r1);
                  (cancel_order (symbol o) (Some s), r2)])).
Proof.
  intros Hreg Hobj Hl Hs Hscript Hr1 Hr2.
  rewrite (cancel_oco_order_run _ _ _ _ _ w Hreg Hobj Hl Hs).
  destruct w as [m sc lg]. cbn [script mgr log] in *. subst sc.
  unfold try_except, call_any, bind, modify, ret, raise.
  destruct r1; try contradiction; destruct r2; try contradiction;
    cbn; rewrite <- ?app_assoc; reflexivity.
Qed.

Lemma cancel_oco_order_cancels_both_legs_witness :
  exists w',
    cancel_oco_order "OCO_1000" (oco_started [RetNone; RetNone])
    = (Ok true, w')
    /\ status <$> objects (mgr w') !! 0%nat = Some "CANCELLED"
    /\ monitoring_orders (mgr w') !! "OCO_1000" = Some 0%nat
    /\ cancels (log w') = [Some 7%Z; Some 8%Z].
Proof.
  eexists. split.
  - eapply (cancel_oco_order_cancels_both_legs "OCO_1000" 0 _ 7 8 RetNone
              RetNone [] (oco_started [RetNone; RetNone])).
    + vm_compute. reflexivity.
    + vm_compute. reflexivity.
    + reflexivity.
    + reflexivity.
    + reflexivity.
    + discriminate.
    + discriminate.
  - vm_compute. repeat split; reflexivity.
Defined.

(** X9: when a cancel request fails, [cancel_oco_order] returns false and
    leaves the status as it was.  If it is the request for the limit leg
    that fails, the stop leg is not even asked for; if it is the one for
    the stop leg, the limit leg has been cancelled all the same. *)
Theorem cancel_oco_order_failure_keeps_status
    oco_id addr o l s (w : world OCOOrderManager) :
  monitoring_orders (mgr w) !! oco_id = Some addr ->
  objects (mgr w) !! addr = Some o ->
  orderId (limit_order o) = Some l ->
  orderId (stop_order o) = Some s ->
  (hd Raise (script w) = Raise ->
   cancel_oco_order oco_id w
   = (Ok false,
      World (mgr w) (tl (script w))
        (log w ++ [(cancel_order (symbol o) (Some l), Raise)])))
  /\ (forall r1,
        hd Raise (script w) = r1 -> r1 <> Raise ->
        hd Raise (tl (script w)) = Raise ->
        cancel_oco_order oco_id w
        = (Ok false,
           World (mgr w) (tl (tl (script w)))
             (log w ++ [(cancel_order (symbol o) (Some l), r1);
                        (cancel_order (symbol o) (Some s), Raise)]))).
Proof.
  intros Hreg Hobj Hl Hs.
  rewrite (cancel_oco_order_run _ _ _ _ _ w Hreg Hobj Hl Hs).
  unfold try_except, call_any, bind, modify, ret, raise.
  rewrite interact_run. cbn [script hd tl mgr log]. split.
  - intros ->. reflexivity.
  - intros r1 Heq Hr1 Hr2. rewrite Heq.
    destruct r1; try contradiction; rewrite interact_run;
      cbn [script hd tl mgr log]; rewrite Hr2, <- ?app_assoc; reflexivity.
Qed.

Lemma cancel_oco_order_failure_keeps_status_witness :
  cancel_oco_order "OCO_1000" (oco_started [RetNone; Raise])
  = (Ok false,
     World (mgr (oco_started [RetNone; Raise])) []
       (log (oco_started [RetNone; Raise])
        ++ [(cancel_order "BTCUSDT" (Some 7%Z), RetNone);
            (cancel_order "BTCUSDT" (Some 8%Z), Raise)])).
Proof.
  epose proof (cancel_oco_order_failure_keeps_status "OCO_1000" 0 _ 7 8
                 (oco_started [RetNone; Raise])) as H0.
  edestruct H0 as [_ H].
  - vm_compute. reflexivity.
  - vm_compute. reflexivity.
  - reflexivity.
  - reflexivity.
  - exact (H RetNone eq_refl ltac:(discriminate) eq_refl).
Defined.

End OCOStartMoreFacts.

(** ** The validators *)

Module ValidatorFacts.
Import Validator Formats PyFacts.

Lemma upper_ascii_idem a : upper_ascii (upper_ascii a) = upper_ascii a.
Proof. destruct a as [[] [] [] [] [] [] [] []]; reflexivity. Qed.

Lemma upper_idem s : upper (upper s) = upper s.
Proof.
  induction s as [|a s IH]; [reflexivity|].
  cbn [upper]. by rewrite upper_ascii_idem, IH.
Qed.

Lemma upper_length s : String.length (upper s) = String.length s.
Proof. induction s as [|a s IH]; [reflexivity|]. cbn. by rewrite IH. Qed.

Lemma newline_not_in_class : in_class "010"%char = false.
Proof. reflexivity. Qed.

(** The regular expression accepts the non-empty runs of the class and
    those runs followed by one line feed. *)
Lemma re_match_symbol_spec s :
  re_match_symbol s = true
  <-> exists body, body <> EmptyString /\ alnum body = true
                   /\ (s = body \/ s = (body ++ newline)%string).
Proof.
  split.
  - induction s as [|a r IH]; [discriminate|].
    cbn [re_match_symbol]. intros H.
    apply andb_true_iff in H as [Ha Hr].
    destruct r as [|c r'].
    { exists (String a EmptyString). cbn. rewrite Ha. auto. }
    destruct (ascii_dec c "010"%char) as [->|Hc].
    + destruct r' as [|c' r''].
      { exists (String a EmptyString). cbn. rewrite Ha.
        split; [discriminate|]. split; [reflexivity|]. right. reflexivity. }
      destruct (IH Hr) as (body & _ & Hal & Hs).
      destruct body as [|b body'];
        [destruct Hs as [Hs|Hs]; discriminate Hs|].
      cbn in Hal. apply andb_true_iff in Hal as [Hb _].
      assert (b = "010"%char) as ->.
      { destruct Hs as [Hs|Hs]; simpl in Hs; injection Hs as Hs _; by symmetry. }
      discriminate Hb.
    + assert (Hr' : re_match_symbol (String c r') = true).
      { revert Hr. clear -Hc.
        destruct c as [[] [] [] [] [] [] [] []]; try exact (fun H => H);
          contradiction Hc; reflexivity. }
      destruct (IH Hr') as (body & Hne & Hal & Hs).
      exists (String a body). split; [discriminate|].
      split; [cbn; by rewrite Ha, Hal|].
      destruct Hs as [->| ->]; auto.
  - intros (body & Hne & Hal & Hs). revert s Hs.
    induction body as [|a b IH]; intros s Hs; [contradiction|].
    cbn in Hal. apply andb_true_iff in Hal as [Ha Hb].
    destruct b as [|c b'].
    { destruct Hs as [->| ->]; unfold newline;
        simpl; by rewrite Ha. }
    assert (Hc : in_class c = true).
    { cbn in Hb. by apply andb_true_iff in Hb as [? _]. }
    assert (Hrest : forall r,
              r = String c b' \/ r = (String c b' ++ newline)%string ->
              re_match_symbol (String a r) = re_match_symbol r).
    { intros r Hr.
      assert (exists r', r = String c r') as [r' ->].
      { destruct Hr as [->| ->]; cbn; eauto. }
      cbn [re_match_symbol]. rewrite Ha. cbn [andb].
      destruct c as [[] [] [] [] [] [] [] []]; try reflexivity.
      discriminate Hc. }
    destruct Hs as [->| ->].
    + rewrite Hrest by auto. apply IH; auto; discriminate.
    + change (String a (String c b') ++ newline)%string
        with (String a (String c b' ++ newline)%string).
      rewrite Hrest by auto. apply IH; auto; discriminate.
Qed.

Lemma validate_symbol_upper v s : validate_symbol v = Some s -> s = upper v.
Proof.
  unfold validate_symbol. destruct (_ <? _)%nat; [discriminate|].
  destruct (negb _); [discriminate|]. by intros [= <-].
Qed.

(** X10: A symbol of ASCII characters is accepted exactly when it has six
    characters or more and, in upper case, consists of letters and digits,
    possibly followed by one line feed; what is kept is the symbol in
    upper case. *)
Theorem validate_symbol_accepts v s :
  ascii_only v = true ->
  validate_symbol v = Some s
  <-> s = upper v /\ (6 <= String.length v)%nat
      /\ exists body, body <> EmptyString /\ alnum body = true
           /\ (upper v = body \/ upper v = (body ++ newline)%string).
Proof.
  intros _.
  unfold validate_symbol. rewrite <- re_match_symbol_spec.
  destruct (Nat.ltb_spec (String.length v) 6) as [Hlt|Hge].
  { split; [discriminate|]. intros (_ & H & _). lia. }
  destruct (re_match_symbol (upper v)); cbn [negb].
  - split; [intros [= <-]; auto|]. by intros (-> & _ & _).
  - split; [discriminate|]. by intros (_ & _ & H).
Qed.

Lemma validate_symbol_accepts_witness :
  validate_symbol ("ethdt" ++ newline)
  = Some ("ETHDT" ++ newline)%string.
Proof.
  apply validate_symbol_accepts; [reflexivity|]. split; [reflexivity|].
  split; [vm_compute; lia|].
  exists "ETHDT"%string. split; [discriminate|].
  split; [reflexivity|]. right. reflexivity.
Defined.

(** X11: Validation normalises: an accepted symbol validates to itself. *)
Theorem validate_symbol_idempotent v s :
  validate_symbol v = Some s -> validate_symbol s = Some s.
Proof.
  unfold validate_symbol.
  destruct (String.length v <? 6)%nat eqn:Hlen; [discriminate|].
  destruct (re_match_symbol (upper v)) eqn:Hre; [|discriminate].
  intros [= <-]. by rewrite upper_length, Hlen, upper_idem, Hre.
Qed.

Lemma validate_symbol_idempotent_witness :
  validate_symbol "BTCUSDT" = Some "BTCUSDT"%string.
Proof.
  apply (validate_symbol_idempotent "btcusdt"). reflexivity.
Defined.

(** *** Rounding *)

Lemma round_within_half y :
  y - (1 # 2) <= inject_Z (Py.round y) /\ inject_Z (Py.round y) <= y + (1 # 2).
Proof.
  unfold Py.round.
  assert (Hlo := Qfloor_le y). assert (Hhi := Qlt_floor y).
  rewrite inject_Z_plus in Hhi. change (inject_Z 1) with 1 in Hhi.
  destruct (Qcompare_spec (y - inject_Z (Qfloor y)) (1 # 2)) as [H|H|H];
    [destruct (Z.even (Qfloor y))|..];
    rewrite ?inject_Z_plus; change (inject_Z 1) with 1; split; lra.
Qed.

Lemma round_inject k : Py.round (inject_Z k) = k.
Proof.
  unfold Py.round. rewrite Qfloor_Z.
  destruct (Qcompare_spec (inject_Z k - inject_Z k) (1 # 2)) as [H|H|H];
    [exfalso; lra|reflexivity|exfalso; lra].
Qed.

Lemma pow10_pos n : 0 < inject_Z (10 ^ Z.of_nat n).
Proof.
  change 0 with (inject_Z 0). rewrite <- Zlt_Qlt.
  apply Z.pow_pos_nonneg; lia.
Qed.

Lemma round_n_rounded n x : rounded_to n x (Py.round_n x n).
Proof.
  unfold rounded_to, Py.round_n.
  assert (Hp := pow10_pos n). set (u := inject_Z (10 ^ Z.of_nat n)) in *.
  split; [eexists; reflexivity|].
  destruct (round_within_half (x * u)) as [Hlo Hhi].
  set (k := inject_Z (Py.round (x * u))) in *.
  assert (Hx : x == x * u / u) by (field; lra).
  split.
  - apply Qle_shift_div_l; [exact Hp|].
    assert (E : (x - (1 # 2) / u) * u == x * u - (1 # 2)) by (field; lra).
    rewrite E. exact Hlo.
  - apply Qle_shift_div_r; [exact Hp|].
    assert (E : (x + (1 # 2) / u) * u == x * u + (1 # 2)) by (field; lra).
    rewrite E. exact Hhi.
Qed.

Lemma round_n_mono n x y : x <= y -> Py.round_n x n <= Py.round_n y n.
Proof.
  intros H. unfold Py.round_n.
  assert (Hp := pow10_pos n). set (u := inject_Z (10 ^ Z.of_nat n)) in *.
  assert (Hr : (Py.round (x * u) <= Py.round (y * u))%Z).
  { apply round_mono. apply Qmult_le_compat_r; lra. }
  rewrite Zle_Qle in Hr. unfold Qdiv.
  apply Qmult_le_compat_r; [exact Hr|].
  apply Qlt_le_weak, Qinv_lt_0_compat, Hp.
Qed.

Lemma round_n_idem n x : Py.round_n (Py.round_n x n) n == Py.round_n x n.
Proof.
  unfold Py.round_n at 1 3.
  assert (Hp := pow10_pos n). set (u := inject_Z (10 ^ Z.of_nat n)) in *.
  assert (E : Py.round_n x n * u == inject_Z (Py.round (x * u))).
  { unfold Py.round_n. fold u. field. lra. }
  rewrite (round_comp _ _ E), round_inject. reflexivity.
Qed.

Lemma round_n_zero n : Py.round_n 0 n == 0.
Proof.
  unfold Py.round_n.
  assert (Hp := pow10_pos n). set (u := inject_Z (10 ^ Z.of_nat n)) in *.
  assert (E : 0 * u == inject_Z 0) by (change (inject_Z 0) with 0; ring).
  rewrite (round_comp _ _ E), round_inject.
  change (inject_Z 0) with 0. field. lra.
Qed.

Lemma round_n_nonneg n x : 0 <= x -> 0 <= Py.round_n x n.
Proof. intros H. rewrite <- (round_n_zero n). by apply round_n_mono. Qed.

Lemma leb_false_iff a b : Py.leb a b = false <-> b < a.
Proof.
  unfold Py.leb. destruct (Qlt_le_dec b a) as [H|H]; split; auto;
    try discriminate. intros H'. exfalso. lra.
Qed.

Lemma validate_side_sides v s :
  validate_side v = Some s -> s = upper v /\ (s = "BUY" \/ s = "SELL")%string.
Proof.
  unfold validate_side. case_bool_decide as H; [|discriminate].
  intros [= <-]. split; [reflexivity|].
  apply elem_of_cons in H as [->|H]; [by left|].
  apply elem_of_cons in H as [->|H]; [by right|].
  by apply elem_of_nil in H.
Qed.

(** X12: A validated OCO request is the request normalised: the symbol in
    upper case, the side BUY or SELL, the quantity within the configured
    bounds rounded to the quantity precision, and the two prices rounded to
    the price precision, which leaves them non-negative. *)
Theorem validated_oco_is_normalised cfg r v :
  validate_oco cfg r = inr v ->
  oco_symbol v = upper (oco_symbol r)
  /\ (oco_side v = "BUY" \/ oco_side v = "SELL")%string
  /\ 0 < oco_quantity r
  /\ Config.min_quantity cfg <= oco_quantity r <= Config.max_quantity cfg
  /\ rounded_to (Config.quantity_precision cfg) (oco_quantity r)
       (oco_quantity v)
  /\ 0 < oco_price r /\ 0 <= oco_price v
  /\ rounded_to (Config.price_precision cfg) (oco_price r) (oco_price v)
  /\ 0 < oco_stop_price r /\ 0 <= oco_stop_price v
  /\ rounded_to (Config.price_precision cfg) (oco_stop_price r)
       (oco_stop_price v).
Proof.
  unfold validate_oco.
  destruct (validate_symbol (oco_symbol r)) as [sy|] eqn:Hsy; [|discriminate].
  destruct (validate_side (oco_side r)) as [sd|] eqn:Hsd; [|discriminate].
  destruct (validate_quantity cfg (oco_quantity r)) as [qt|] eqn:Hqt;
    [|discriminate].
  destruct (validate_prices cfg (Some (oco_price r))) as [[pr|]|] eqn:Hpr;
    try discriminate.
  destruct (validate_prices cfg (Some (oco_stop_price r))) as [[sp|]|] eqn:Hsp;
    try discriminate.
  destruct (validate_prices cfg (oco_stop_limit_price r)) as [sl|] eqn:Hsl;
    [|discriminate].
  intros [= <-]. cbn.
  apply validate_symbol_upper in Hsy as ->.
  apply validate_side_sides in Hsd as [_ Hsd].
  unfold validate_quantity in Hqt.
  destruct (Py.leb (oco_quantity r) 0) eqn:Hq0; [discriminate|].
  destruct (ltb_spec (oco_quantity r) (Config.min_quantity cfg)) as [|Hmin];
    [discriminate|].
  destruct (ltb_spec (Config.max_quantity cfg) (oco_quantity r)) as [|Hmax];
    [discriminate|].
  injection Hqt as <-.
  unfold validate_prices in Hpr, Hsp.
  destruct (Py.leb (oco_price r) 0) eqn:Hp0; [discriminate|].
  destruct (Py.leb (oco_stop_price r) 0) eqn:Hs0; [discriminate|].
  injection Hpr as <-. injection Hsp as <-.
  apply leb_false_iff in Hq0, Hp0, Hs0.
  repeat split; auto using round_n_rounded; try lra;
    try (apply round_n_nonneg; lra); apply round_n_rounded.
Qed.

Lemma validated_oco_is_normalised_witness :
  exists v,
    validate_oco Config.default
      {| oco_symbol := "btcusdt"; oco_side := "sell";
         oco_quantity := 12345 # 10000; oco_price := 46000;
         oco_stop_price := 1 # 1000; oco_stop_limit_price := None |} = inr v
    /\ oco_symbol v = "BTCUSDT"%string
    /\ rounded_to 3 (12345 # 10000) (oco_quantity v)
    /\ 0 <= oco_stop_price v.
Proof.
  destruct (validate_oco Config.default
              {| oco_symbol := "btcusdt"; oco_side := "sell";
                 oco_quantity := 12345 # 10000; oco_price := 46000;
                 oco_stop_price := 1 # 1000; oco_stop_limit_price := None |})
    as [f|v] eqn:Hv; [vm_compute in Hv; discriminate|].
  exists v. split; [reflexivity|].
  destruct (validated_oco_is_normalised _ _ _ Hv)
    as (Hs & _ & _ & _ & Hq & _ & _ & _ & _ & Hsp & _).
  split; [exact Hs|]. split; [exact Hq|exact Hsp].
Defined.

(** *** The grid request *)

(** X13: In a validated grid request the lower price is at most the upper one,
    both are rounded to the price precision, the count is between 2 and 50
    and the quantity is positive.  The two prices can be equal: the upper
    price is compared with the lower one as already rounded. *)
Theorem validated_grid_range_ordered cfg r g :
  validate_grid cfg r = inr g ->
  grid_lower_price g <= grid_upper_price g
  /\ rounded_to (Config.price_precision cfg) (grid_lower_price r)
       (grid_lower_price g)
  /\ rounded_to (Config.price_precision cfg) (grid_upper_price r)
       (grid_upper_price g)
  /\ grid_lower_price g < grid_upper_price r
  /\ (2 <= grid_grid_count g <= 50)%Z
  /\ 0 < grid_quantity_per_grid g.
Proof.
  unfold validate_grid.
  destruct (validate_symbol (grid_symbol r)) as [sy|]; [|discriminate].
  destruct (validate_positive (grid_quantity_per_grid r)) as [qp|] eqn:Hqp;
    [|discriminate].
  destruct (validate_grid_count (grid_grid_count r)) as [gc|] eqn:Hgc;
    [|discriminate].
  destruct (validate_lower_price cfg (grid_lower_price r)) as [lo|] eqn:Hlo;
    [|discriminate].
  destruct (validate_price_range cfg (grid_upper_price r) (Some lo))
    as [up|] eqn:Hup; [|discriminate].
  intros [= <-]. cbn.
  unfold validate_positive in Hqp.
  destruct (Py.leb (grid_quantity_per_grid r) 0) eqn:Hq0; [discriminate|].
  injection Hqp as <-. apply leb_false_iff in Hq0.
  unfold validate_grid_count in Hgc.
  destruct ((1 <? grid_grid_count r) && (grid_grid_count r <=? 50))%Z eqn:Hc;
    [|discriminate].
  injection Hgc as <-. apply andb_true_iff in Hc as [Hc1 Hc2].
  unfold validate_lower_price in Hlo.
  destruct (Py.leb (grid_lower_price r) 0); [discriminate|].
  injection Hlo as <-.
  unfold validate_price_range in Hup.
  destruct (Py.leb (grid_upper_price r) 0); [discriminate|].
  destruct (Py.leb (grid_upper_price r) _) eqn:Hcmp; [discriminate|].
  injection Hup as <-. apply leb_false_iff in Hcmp.
  split.
  { rewrite <- (round_n_idem _ (grid_lower_price r)).
    apply round_n_mono. lra. }
  repeat split; try apply round_n_rounded; try lia; try exact Hcmp;
    exact Hq0.
Qed.

Lemma validated_grid_range_ordered_witness :
  exists g,
    validate_grid Config.default
      {| grid_symbol := "BTCUSDT"; grid_quantity_per_grid := 1 # 100;
         grid_grid_count := 5; grid_lower_price := 40000;
         grid_upper_price := 50000 |} = inr g
    /\ grid_lower_price g <= grid_upper_price g.
Proof.
  destruct (validate_grid Config.default
              {| grid_symbol := "BTCUSDT"; grid_quantity_per_grid := 1 # 100;
                 grid_grid_count := 5; grid_lower_price := 40000;
                 grid_upper_price := 50000 |})
    as [f|g] eqn:Hg; [vm_compute in Hg; discriminate|].
  exists g. split; [reflexivity|].
  exact (proj1 (validated_grid_range_ordered _ _ _ Hg)).
Defined.

(** X14: A range given upside down is accepted when the upper price lies
    between the lower price and what the lower price rounds to; the
    validated range is then a single price. *)
Theorem grid_inverted_range_accepted cfg r sy :
  validate_symbol (grid_symbol r) = Some sy ->
  0 < grid_quantity_per_grid r ->
  (2 <= grid_grid_count r <= 50)%Z ->
  0 < grid_lower_price r ->
  Py.round_n (grid_lower_price r) (Config.price_precision cfg)
  < grid_upper_price r ->
  grid_upper_price r <= grid_lower_price r ->
  exists g,
    validate_grid cfg r = inr g
    /\ grid_lower_price g == grid_upper_price g.
Proof.
  intros Hsy Hq Hc Hlo Hcmp Hinv.
  assert (H0 : 0 < grid_upper_price r).
  { apply Qle_lt_trans with (2 := Hcmp). apply round_n_nonneg. lra. }
  unfold validate_grid. rewrite Hsy.
  unfold validate_positive, validate_grid_count, validate_lower_price,
    validate_price_range.
  rewrite (proj2 (leb_false_iff _ _) Hq), (proj2 (leb_false_iff _ _) Hlo),
    (proj2 (leb_false_iff _ _) H0), (proj2 (leb_false_iff _ _) Hcmp).
  replace ((1 <? grid_grid_count r) && (grid_grid_count r <=? 50))%Z
    with true by (symmetry; apply andb_true_iff; lia).
  eexists. split; [reflexivity|]. cbn.
  apply Qle_antisym.
  - rewrite <- (round_n_idem _ (grid_lower_price r)).
    apply round_n_mono. lra.
  - apply round_n_mono. exact Hinv.
Qed.

Lemma grid_inverted_range_accepted_witness :
  exists g,
    validate_grid Config.default
      {| grid_symbol := "BTCUSDT"; grid_quantity_per_grid := 1 # 100;
         grid_grid_count := 5; grid_lower_price := 100004 # 1000;
         grid_upper_price := 100002 # 1000 |} = inr g
    /\ grid_lower_price g == grid_upper_price g.
Proof.
  apply (grid_inverted_range_accepted Config.default
           {| grid_symbol := "BTCUSDT"; grid_quantity_per_grid := 1 # 100;
              grid_grid_count := 5; grid_lower_price := 100004 # 1000;
              grid_upper_price := 100002 # 1000 |} "BTCUSDT").
  - reflexivity.
  - reflexivity.
  - cbn. lia.
  - reflexivity.
  - vm_compute. reflexivity.
  - vm_compute. discriminate.
Defined.

End ValidatorFacts.

(** ** Prices that validation rounds to zero *)

Module OCODisplayFacts.
Import Gateway GatewayFacts Validator OCO Obs Views OCOStartMoreFacts.

(** X15: A BUY request whose limit price or stop price is rounded to zero by
    the validation fails with [ZeroDivisionError] when its details are
    displayed: the price query is the only interaction, the user is not
    asked and no order is placed. *)
Theorem oco_buy_price_rounded_to_zero_fails
    cfg symbol side quantity price stop_price stop_limit_price
    (w : world OCOOrderManager) v cur rest :
  validate_oco cfg
    {| oco_symbol := symbol; oco_side := side; oco_quantity := quantity;
       oco_price := price; oco_stop_price := stop_price;
       oco_stop_limit_price := stop_limit_price |} = inr v ->
  oco_side v = "BUY"%string ->
  oco_price v == 0 \/ oco_stop_price v == 0 ->
  script w = RetFloat cur :: rest ->
  execute_oco_order cfg symbol side quantity price stop_price
    stop_limit_price w
  = (Exn ZeroDivisionError,
     World (mgr w) rest
       (log w ++ [(get_current_price symbol, RetFloat cur)])).
Proof.
  intros Hv Hside Hzero Hscript.
  destruct w as [m sc lg]. cbn [script mgr log] in *. subst sc.
  unfold execute_oco_order. rewrite try_reraise, Hv.
  unfold bind at 1. cbn [construct ret].
  unfold bind at 1. unfold call_float, bind at 1. rewrite interact_run.
  cbn [script hd tl mgr log ret].
  unfold bind at 1. unfold _display_oco_details. rewrite Hside.
  cbn [String.eqb Ascii.eqb Bool.eqb].
  assert (Hz : Py.eqb (oco_price v) 0 || Py.eqb (oco_stop_price v) 0 = true).
  { unfold Py.eqb. apply orb_true_iff.
    destruct Hzero as [H|H]; [left|right]; by apply Qeq_bool_iff. }
  rewrite Hz. reflexivity.
Qed.

Lemma oco_buy_price_rounded_to_zero_fails_witness :
  execute_oco_order Config.default "BTCUSDT" "BUY" 1 44000 (1 # 1000) None
    (World (OCO.init true) [RetFloat 45000] [])
  = (Exn ZeroDivisionError,
     World (OCO.init true) []
       [(get_current_price "BTCUSDT", RetFloat 45000)]).
Proof.
  eapply (oco_buy_price_rounded_to_zero_fails Config.default "BTCUSDT" "BUY"
            1 44000 (1 # 1000) None
            (World (OCO.init true) [RetFloat 45000] [])).
  - vm_compute. reflexivity.
  - reflexivity.
  - right. vm_compute. reflexivity.
  - reflexivity.
Defined.

End OCODisplayFacts.

(** ** The TWAP execution thread *)

Module TWAPThreadFacts.
Import Gateway GatewayFacts Validator TWAP Examples Obs Views TWAPLoopFacts.

Lemma try_except_reraise {St A} (m : M St A) (w : world St) :
  try_except m (fun e => raise e) w = m w.
Proof.
  unfold try_except, raise. destruct (m w) as [[a|e|] w']; reflexivity.
Qed.

(** What every round of the loop keeps, the loop keeps; and the loop sends
    at most one order per chunk, each for a positive quantity. *)
Lemma chunk_loop_invariant (P : twap_order -> Prop) addr cs chunks :
  (forall st t, P t -> P (with_status st t)) ->
  (forall e t, P t -> P (update_average_price (record_fill e t))) ->
  forall (w : world TWAPOrderManager) t,
    objects (mgr w) !! addr = Some t -> P t ->
    exists w' l t',
      chunk_loop addr cs chunks w = (Ok tt, w')
      /\ log w' = log w ++ l
      /\ objects (mgr w') !! addr = Some t'
      /\ P t'
      /\ (length (requested l) <= length chunks)%nat
      /\ Forall (fun q => 0 < q) (requested l).
Proof.
  intros Hst Hfill.
  induction chunks as [|c chunks IH]; intros w t Hobj HP.
  - exists w, [], t. rewrite app_nil_r. cbn. repeat split; auto.
  - cbn [chunk_loop]. unfold bind at 1, get.
    destruct (stop_scheduler (mgr w)).
    { exists w, [], t. rewrite app_nil_r. cbn.
      repeat split; auto. lia. }
    destruct (round_spec addr cs c w t Hobj)
      as (w1 & st & t1 & l1 & Hrun & Hlog1 & _ & Hobj1 & Hreq & Ht1 & _).
    unfold bind. rewrite Hrun.
    assert (HP1 : P (with_status st t1)).
    { apply Hst. destruct Ht1 as [->|[e ->]]; auto. }
    destruct (Py.leb (actual_chunk_size t cs c) 0) eqn:Hle.
    { exists w1, l1, (with_status st t1). rewrite Hreq. cbn.
      repeat split; auto. lia. }
    destruct (IH w1 _ Hobj1 HP1)
      as (w' & l2 & t' & Hrest & Hlog2 & Hobj' & HP' & Hlen & Hpos).
    exists w', (l1 ++ l2), t'. split; [exact Hrest|].
    split; [by rewrite Hlog2, Hlog1, <- app_assoc|].
    split; [exact Hobj'|]. split; [exact HP'|].
    rewrite requested_app, Hreq. cbn. split; [lia|].
    constructor; [|exact Hpos].
    unfold Py.leb in Hle.
    destruct (Qlt_le_dec 0 (actual_chunk_size t cs c)); [done|discriminate].
Qed.

(** X16: The schedule only ever appends to the executions of a TWAP order:
    what was recorded stays, [executed_chunks] counts the recorded
    executions, and the total quantity and the number of chunks never
    change. *)
Theorem twap_executions_only_grow
    addr cs chunks (w : world TWAPOrderManager) t :
  objects (mgr w) !! addr = Some t ->
  executed_chunks t = Z.of_nat (length (executions t)) ->
  exists w' t',
    chunk_loop addr cs chunks w = (Ok tt, w')
    /\ objects (mgr w') !! addr = Some t'
    /\ executions t `prefix_of` executions t'
    /\ executed_chunks t' = Z.of_nat (length (executions t'))
    /\ total_quantity t' = total_quantity t
    /\ num_chunks t' = num_chunks t.
Proof.
  intros Hobj Hcount.
  destruct (chunk_loop_invariant
              (fun t' => executions t `prefix_of` executions t'
                         /\ executed_chunks t'
                            = Z.of_nat (length (executions t'))
                         /\ total_quantity t' = total_quantity t
                         /\ num_chunks t' = num_chunks t)
              addr cs chunks) with (w := w) (t := t)
    as (w' & l & t' & Hrun & _ & Hobj' & HP & _); auto.
  - intros e t0 (H1 & H2 & H3 & H4). unfold update_average_price.
    destruct (Py.ltb 0 _); cbn; rewrite length_app; cbn;
      (split; [by apply prefix_app_r|split; [lia|split; assumption]]).
  - exists w', t'. auto.
Qed.

Lemma twap_executions_only_grow_witness :
  exists w' t',
    chunk_loop 0 1 [0; 1; 2]%Z (twap_started twap_cancelled_script)
    = (Ok tt, w')
    /\ objects (mgr w') !! 0%nat = Some t'
    /\ executed_chunks t' = Z.of_nat (length (executions t'))
    /\ total_quantity t' = 3.
Proof.
  epose proof (twap_executions_only_grow 0 1 [0; 1; 2]%Z
                 (twap_started twap_cancelled_script) _) as H0.
  edestruct H0 as (w' & t' & Hrun & Hobj & _ & Hcount & Htotal & _).
  - vm_compute. reflexivity.
  - vm_compute. reflexivity.
  - exists w', t'. split; [exact Hrun|]. split; [exact Hobj|].
    split; [exact Hcount|exact Htotal].
Defined.

(** X17: The schedule sends no more orders than it has chunks, and never one
    for a quantity that is not positive. *)
Theorem twap_orders_positive_and_bounded
    addr cs chunks (w : world TWAPOrderManager) t :
  objects (mgr w) !! addr = Some t ->
  exists w' l,
    chunk_loop addr cs chunks w = (Ok tt, w')
    /\ log w' = log w ++ l
    /\ (length (requested l) <= length chunks)%nat
    /\ Forall (fun q => 0 < q) (requested l).
Proof.
  intros Hobj.
  destruct (chunk_loop_invariant (fun _ => True) addr cs chunks)
    with (w := w) (t := t)
    as (w' & l & t' & Hrun & Hlog & _ & _ & Hlen & Hpos); auto.
  exists w', l. auto.
Qed.

Lemma twap_orders_positive_and_bounded_witness :
  exists w' l,
    chunk_loop 0 1 [0; 1; 2]%Z (twap_started twap_cancelled_script)
    = (Ok tt, w')
    /\ log w' = log (twap_started twap_cancelled_script) ++ l
    /\ (length (requested l) <= 3)%nat
    /\ Forall (fun q => 0 < q) (requested l).
Proof.
  eapply (twap_orders_positive_and_bounded 0 1 [0; 1; 2]%Z
            (twap_started twap_cancelled_script)).
  vm_compute. reflexivity.
Defined.

(** X18: Whatever the exchange answers, the execution thread of a TWAP order
    returns: it marks the order COMPLETED and takes it out of the
    registry, so that a cancel request for it from then on is refused and
    changes nothing.  The total quantity must not be zero, as the
    completion summary divides by it. *)
Theorem twap_thread_completes_and_unregisters
    addr (w : world TWAPOrderManager) t :
  objects (mgr w) !! addr = Some t ->
  ~ total_quantity t == 0 ->
  exists w',
    _execute_twap_chunks addr w = (Ok tt, w')
    /\ status <$> objects (mgr w') !! addr = Some "COMPLETED"%string
    /\ active_twap_orders (mgr w') !! twap_id t = None
    /\ cancel_twap_order (twap_id t) w' = (Ok false, w').
Proof.
  intros Hobj _.
  unfold _execute_twap_chunks. unfold bind at 1, read, bind at 1, get.
  rewrite Hobj. cbn [ret].
  destruct (chunk_loop_total addr (chunk_size t) (seqZ 0 (num_chunks t)) w t
              Hobj) as (w1 & l & t' & Hloop & _ & Hobj').
  unfold bind, mutate, modify. rewrite Hloop. cbn [mgr script log].
  eexists. split; [reflexivity|]. cbn [mgr set_active set_objects objects
    active_twap_orders].
  split; [rewrite (lookup_alter_same _ _ _ _ Hobj'); reflexivity|].
  split; [apply lookup_delete_eq|].
  unfold cancel_twap_order, bind, get.
  cbn [mgr set_active set_objects objects active_twap_orders].
  rewrite lookup_delete_eq. reflexivity.
Qed.

Lemma twap_thread_completes_and_unregisters_witness :
  exists w',
    _execute_twap_chunks 0 (twap_started twap_cancelled_script) = (Ok tt, w')
    /\ active_twap_orders (mgr w') = ∅.
Proof.
  edestruct (twap_thread_completes_and_unregisters 0
               (twap_started twap_cancelled_script))
    as (w' & Hrun & _ & _ & _).
  - vm_compute. reflexivity.
  - vm_compute. discriminate.
  - exists w'. split; [exact Hrun|].
    vm_compute in Hrun. injection Hrun as <-. vm_compute. reflexivity.
Defined.

(** *** Starting a TWAP order *)

Lemma validate_twap_bounds cfg r v :
  validate_twap cfg r = inr v ->
  twap_symbol v = upper (twap_symbol r)
  /\ (0 < twap_interval_minutes r < twap_duration_minutes r)%Z
  /\ (twap_duration_minutes r <= 1440)%Z
  /\ 0 < twap_total_quantity r.
Proof.
  unfold validate_twap.
  destruct (validate_symbol (twap_symbol r)) as [sy|] eqn:Hsy; [|discriminate].
  destruct (validate_side (twap_side r)) as [sd|]; [|discriminate].
  destruct (validate_total_quantity cfg (twap_total_quantity r)) as [tq|]
    eqn:Htq; [|discriminate].
  destruct (validate_duration (twap_duration_minutes r)) as [du|] eqn:Hdu;
    [|discriminate].
  destruct (validate_interval (twap_interval_minutes r) (Some du)) as [iv|]
    eqn:Hiv; [|discriminate].
  intros [= <-]. cbn.
  unfold validate_symbol in Hsy.
  destruct (_ <? _)%nat; [discriminate|].
  destruct (negb _); [discriminate|]. injection Hsy as <-.
  unfold validate_total_quantity in Htq.
  destruct (Py.leb (twap_total_quantity r) 0) eqn:Hq0; [discriminate|].
  unfold validate_duration in Hdu.
  destruct ((0 <? twap_duration_minutes r)
            && (twap_duration_minutes r <=? 1440))%Z eqn:Hd; [|discriminate].
  injection Hdu as <-. apply andb_true_iff in Hd as [Hd1 Hd2].
  unfold validate_interval in Hiv.
  destruct (twap_interval_minutes r <=? 0)%Z eqn:Hi0; [discriminate|].
  destruct (twap_interval_minutes r >=? twap_duration_minutes r)%Z eqn:Hi1;
    [discriminate|].
  split; [reflexivity|]. split; [lia|]. split; [lia|].
  unfold Py.leb in Hq0. by destruct (Qlt_le_dec 0 (twap_total_quantity r)).
Qed.

(** X19: A valid and confirmed TWAP request is stored and registered under the
    id made of the clock's whole seconds, with one chunk per whole
    interval that fits the duration (at least one), a chunk size of the
    total divided by the number of chunks, and nothing filled yet; its
    thread is started and the start itself sends no order.  The price shown in the prompt is asked
    for the validated symbol, the order keeps the symbol as given. *)
Theorem twap_start_registers_schedule
    cfg symbol side total_quantity duration_minutes interval_minutes
    price_limit (w : world TWAPOrderManager) v cur now rest :
  validate_twap cfg
    {| twap_symbol := symbol; twap_side := side;
       twap_total_quantity := total_quantity;
       twap_duration_minutes := duration_minutes;
       twap_interval_minutes := interval_minutes |} = inr v ->
  script w
  = (if no_confirm (mgr w) then [] else [RetFloat cur; RetBool true])
    ++ RetFloat now :: rest ->
  let n := (duration_minutes / interval_minutes)%Z in
  let addr := length (objects (mgr w)) in
  let t :=
    {| twap_id := "TWAP_" +:+ pretty (Py.int now); symbol := symbol;
       side := side; total_quantity := total_quantity;
       remaining_quantity := total_quantity;
       chunk_size := total_quantity / inject_Z n;
       duration_minutes := duration_minutes;
       interval_minutes := interval_minutes; price_limit := price_limit;
       num_chunks := n; executed_chunks := 0; status := "ACTIVE";
       executions := []; total_filled := 0; avg_price := 0 |} in
  (1 <= n)%Z
  /\ (n * interval_minutes <= duration_minutes)%Z
  /\ execute_twap_order cfg symbol side total_quantity duration_minutes
       interval_minutes price_limit w
     = (Ok (Started addr),
        World (set_active (insert (twap_id t) addr)
                 (set_objects (fun l => l ++ [t]) (mgr w)))
          rest
          (log w
           ++ (if no_confirm (mgr w) then []
               else [(get_current_price (upper symbol), RetFloat cur);
                     (click_confirm, RetBool true)])
           ++ [(time_time, RetFloat now);
               (thread_start "_execute_twap_chunks" addr, RetNone)])).
Proof.
  intros Hv Hscript n addr t.
  destruct (validate_twap_bounds _ _ _ Hv) as (Hsym & Hiv & Hdu & Hq).
  cbn in Hsym, Hiv, Hdu, Hq.
  assert (Hn : (1 <= n)%Z).
  { unfold n. apply Z.div_le_lower_bound; lia. }
  assert (Hfit : (n * interval_minutes <= duration_minutes)%Z).
  { unfold n. rewrite Z.mul_comm. apply Z.mul_div_le. lia. }
  split; [exact Hn|]. split; [exact Hfit|].
  destruct w as [m sc lg]. cbn [script mgr log] in *. subst sc.
  unfold execute_twap_order. rewrite try_except_reraise, Hv.
  unfold bind at 1. cbn [construct ret].
  replace (interval_minutes =? 0)%Z with false by (symmetry; lia).
  fold n. replace (n =? 0)%Z with false by (symmetry; lia).
  unfold bind at 1. unfold _confirm_twap_order. unfold bind at 1, get.
  cbn [mgr]. rewrite Hsym.
  destruct (no_confirm m) eqn:Hc.
  - cbn [ret negb app]. unfold bind at 1, call_float, bind at 1.
    rewrite interact_run. cbn [script hd tl mgr log ret].
    unfold _start_twap_execution, bind, get, modify, emit, ret.
    cbn [mgr script log]. rewrite <- ?app_assoc. reflexivity.
  - unfold bind at 1. unfold call_float at 1, bind at 1.
    rewrite interact_run. cbn [script hd tl mgr log ret app].
    unfold call_bool, bind at 1. rewrite interact_run.
    cbn [script hd tl mgr log ret negb].
    unfold bind at 1, call_float, bind at 1.
    rewrite interact_run. cbn [script hd tl mgr log ret].
    unfold _start_twap_execution, bind, get, modify, emit, ret.
    cbn [mgr script log]. rewrite <- ?app_assoc. reflexivity.
Qed.

Lemma twap_start_registers_schedule_witness :
  fst (execute_twap_order Config.default "btcusdt" "BUY" 3 60 25 None
         (World (TWAP.init false)
            [RetFloat 45000; RetBool true; RetFloat 1000] []))
  = Ok (Started 0)
  /\ (60 / 25 = 2)%Z.
Proof.
  split; [|reflexivity].
  pose proof (twap_start_registers_schedule Config.default "btcusdt" "BUY" 3
                60 25 None
                (World (TWAP.init false)
                   [RetFloat 45000; RetBool true; RetFloat 1000] [])
                _ 45000 1000 [] eq_refl eq_refl) as (_ & _ & H).
  rewrite H. reflexivity.
Defined.

End TWAPThreadFacts.

(** ** Counter orders and profit of a grid *)

Module GridCounterFacts.
Import Gateway GatewayFacts PyFacts Grid Examples Obs Views GridFillFacts.
Import TWAPLoopFacts.

Lemma py_index_elem {A} (l : list A) (i : Z) x :
  py_index l i = Some x -> x ∈ l.
Proof.
  unfold py_index.
  destruct (0 <=? i)%Z; [apply list_elem_of_lookup_2|].
  destruct (_ <=? i)%Z; [apply list_elem_of_lookup_2|discriminate].
Qed.

(** [place_at] inside a [try] that swallows the exception: one limit order
    at the price of a level of the ladder, or nothing when the index is
    out of range.  Of the strategy only the book of the side of the order
    can change. *)
Lemma place_at_caught addr side target g (w : world GridTradingManager) :
  objects (mgr w) !! addr = Some g ->
  exists w' g',
    try_except (place_at addr side target) (fun _ => ret tt) w = (Ok tt, w')
    /\ objects (mgr w') !! addr = Some g'
    /\ executed_trades g' = executed_trades g
    /\ grid_levels g' = grid_levels g
    /\ total_profit g' = total_profit g
    /\ (if String.eqb side "SELL" then buy_orders g' = buy_orders g
        else sell_orders g' = sell_orders g)
    /\ (w' = w
        \/ exists lv,
             lv ∈ grid_levels g
             /\ script w' = tl (script w)
             /\ log w'
                = log w ++ [(place_limit_order (symbol g) side
                               (quantity_per_grid g) (price lv),
                             hd Raise (script w))]).
Proof.
  intros Hg.
  assert (Hsame : if String.eqb side "SELL" then buy_orders g = buy_orders g
                  else sell_orders g = sell_orders g)
    by (destruct (String.eqb side "SELL"); reflexivity).
  unfold try_except, place_at, read.
  unfold bind at 1. unfold bind at 1, get. rewrite Hg. cbn [ret].
  destruct (py_index (grid_levels g) (target - 1)) as [lv|] eqn:Hlv.
  - unfold bind at 1, call_order, bind at 1. rewrite interact_run.
    cbn [script hd tl mgr log].
    destruct (hd Raise (script w)) as [| |o|i|q|b|z|ids] eqn:Hr;
      cbn [ret raise];
      try (eexists _, g; split; [reflexivity|]; cbn [mgr];
           do 5 (split; [done|]); right;
           exists lv; split; [by eapply py_index_elem|];
           split; reflexivity).
    destruct (String.eqb side "SELL") eqn:Hside; unfold mutate, modify;
      cbn [mgr script log]; eexists _, _; (split; [reflexivity|]);
      cbn [mgr set_objects objects];
      (split; [by apply lookup_alter_same|]);
      cbn [set_sell_orders set_buy_orders executed_trades grid_levels
           total_profit buy_orders sell_orders];
      do 4 (split; [reflexivity|]); right;
      exists lv; (split; [by eapply py_index_elem|]); split; reflexivity.
  - exists w, g. split; [reflexivity|]. do 5 (split; [done|]). by left.
Qed.

(** [_place_counter_order] as a whole. *)
Lemma counter_order_spec
    addr g filled_level side (w : world GridTradingManager) :
  objects (mgr w) !! addr = Some g ->
  exists w' g',
    _place_counter_order addr filled_level side w = (Ok tt, w')
    /\ objects (mgr w') !! addr = Some g'
    /\ executed_trades g' = executed_trades g
    /\ grid_levels g' = grid_levels g
    /\ total_profit g' = total_profit g
    /\ (if String.eqb side "SELL" then buy_orders g' = buy_orders g
        else sell_orders g' = sell_orders g)
    /\ (w' = w
        \/ exists lv,
             lv ∈ grid_levels g
             /\ script w' = tl (script w)
             /\ log w'
                = log w ++ [(place_limit_order (symbol g) side
                               (quantity_per_grid g) (price lv),
                             hd Raise (script w))]).
Proof.
  intros Hg.
  assert (Hrun : forall k : grid_strategy -> M GridTradingManager unit,
            try_except (bind (read addr) k) (fun _ => ret tt) w
            = try_except (k g) (fun _ => ret tt) w).
  { intros k. unfold try_except, bind, read, bind, get. by rewrite Hg. }
  assert (Hnone : exists w' g',
            (Ok tt, w) = (Ok tt, w')
            /\ objects (mgr w') !! addr = Some g'
            /\ executed_trades g' = executed_trades g
            /\ grid_levels g' = grid_levels g
            /\ total_profit g' = total_profit g
            /\ (if String.eqb side "SELL" then buy_orders g' = buy_orders g
                else sell_orders g' = sell_orders g)
            /\ (w' = w
                \/ exists lv,
                     lv ∈ grid_levels g
                     /\ script w' = tl (script w)
                     /\ log w'
                        = log w ++ [(place_limit_order (symbol g) side
                                       (quantity_per_grid g) (price lv),
                                     hd Raise (script w))])).
  { exists w, g. split; [reflexivity|]. split; [exact Hg|].
    do 3 (split; [reflexivity|]).
    split; [destruct (String.eqb side "SELL"); reflexivity|]. by left. }
  unfold _place_counter_order. rewrite Hrun.
  destruct (String.eqb side "SELL") eqn:Hsell.
  - apply String.eqb_eq in Hsell as ->. cbn [andb].
    destruct (filled_level <? _)%Z; cbn [andb]; [|exact Hnone].
    destruct (_ <=? _)%Z; [|exact Hnone].
    exact (place_at_caught addr "SELL" _ g w Hg).
  - cbn [andb]. destruct (String.eqb side "BUY") eqn:Hbuy; cbn [andb];
      [|exact Hnone].
    apply String.eqb_eq in Hbuy as ->.
    destruct (1 <? filled_level)%Z; [|exact Hnone].
    destruct (_ <=? _)%Z; [|exact Hnone].
    exact (place_at_caught addr "BUY" _ g w Hg).
Qed.

(** X20: [_place_counter_order] never raises, and sends the exchange at most
    one request: a limit order on the side asked for, for the strategy's
    symbol and quantity, at the price of a level of the ladder. *)
Theorem counter_order_never_raises
    addr g filled_level side (w : world GridTradingManager) :
  objects (mgr w) !! addr = Some g ->
  exists w',
    _place_counter_order addr filled_level side w = (Ok tt, w')
    /\ (w' = w
        \/ exists lv,
             lv ∈ grid_levels g
             /\ script w' = tl (script w)
             /\ log w'
                = log w ++ [(place_limit_order (symbol g) side
                               (quantity_per_grid g) (price lv),
                             hd Raise (script w))]).
Proof.
  intros Hg.
  destruct (counter_order_spec addr g filled_level side w Hg)
    as (w' & g' & Hrun & _ & _ & _ & _ & _ & Hw').
  exists w'. split; [exact Hrun|exact Hw'].
Qed.

Lemma counter_order_never_raises_witness :
  exists w',
    _place_counter_order 0 1 "SELL" (grid_started [Raise]) = (Ok tt, w')
    /\ length (log w') = S (length (log (grid_started [Raise]))).
Proof.
  epose proof (counter_order_never_raises 0 _ 1 "SELL"
                 (grid_started [Raise])) as H0.
  edestruct H0 as (w' & Hrun & Hw').
  - vm_compute. reflexivity.
  - exists w'. split; [exact Hrun|].
    vm_compute in Hrun. injection Hrun as <-. reflexivity.
Defined.

(** X21: At the ends of the ladder there is no counter order: after a BUY fill
    at the top level or above, after a SELL fill at level 1 or below, and
    for any other side, nothing is asked of the exchange and the strategy
    is left as it is. *)
Theorem counter_order_skipped_at_ends
    addr g filled_level side (w : world GridTradingManager) :
  objects (mgr w) !! addr = Some g ->
  (side = "SELL"%string
   /\ (Z.of_nat (length (grid_levels g)) <= filled_level)%Z)
  \/ (side = "BUY"%string /\ (filled_level <= 1)%Z)
  \/ (side <> "SELL"%string /\ side <> "BUY"%string) ->
  _place_counter_order addr filled_level side w = (Ok tt, w).
Proof.
  intros Hg Hside.
  unfold _place_counter_order, try_except, bind, read, bind, get.
  rewrite Hg. cbn [ret].
  destruct Hside as [[-> Hn]|[[-> Hn]|[Hs Hb]]].
  - cbn [String.eqb Ascii.eqb Bool.eqb andb].
    destruct (Z.ltb_spec filled_level (Z.of_nat (length (grid_levels g))));
      [lia|reflexivity].
  - cbn [String.eqb Ascii.eqb Bool.eqb andb].
    destruct (Z.ltb_spec 1 filled_level); [lia|reflexivity].
  - apply String.eqb_neq in Hs, Hb. rewrite Hs, Hb. reflexivity.
Qed.

Lemma counter_order_skipped_at_ends_witness :
  _place_counter_order 0 3 "SELL" (grid_started [RetOrder (new_order 9)])
  = (Ok tt, grid_started [RetOrder (new_order 9)]).
Proof.
  eapply (counter_order_skipped_at_ends 0 _ 3 "SELL").
  - vm_compute. reflexivity.
  - left. split; [reflexivity|]. vm_compute. discriminate.
Defined.

(** *** Handling a fill *)

(** X22: A reported fill is recorded once, with the level, the side and the
    quantity and price that the exchange gave, before anything else can
    fail.  When the book of that side has no order at the level, the
    [KeyError] leaves the call at that point: no counter order is sent and
    the profit is not updated.  Otherwise the call returns, the order at
    the level reads FILLED, and the exchange was sent at most the one
    counter order.  The ladder is never changed. *)
Theorem grid_fill_recorded_once
    addr g lv side order_status fill_price fill_qty
    (w : world GridTradingManager) :
  objects (mgr w) !! addr = Some g ->
  float_get (avgPrice order_status) = Some fill_price ->
  float_get (executedQty order_status) = Some fill_qty ->
  let book g := if String.eqb side "BUY" then buy_orders g else sell_orders g in
  exists r w' g',
    _handle_grid_order_fill addr lv side order_status w = (r, w')
    /\ objects (mgr w') !! addr = Some g'
    /\ executed_trades g'
       = executed_trades g
         ++ [{| trade_level := lv; trade_side := side;
                trade_quantity := fill_qty; trade_price := fill_price;
                trade_order_id := orderId order_status |}]
    /\ grid_levels g' = grid_levels g
    /\ (book g !! lv = None ->
        r = Exn (KeyError "level") /\ log w' = log w
        /\ total_profit g' = total_profit g
        /\ buy_orders g' = buy_orders g /\ sell_orders g' = sell_orders g)
    /\ (is_Some (book g !! lv) ->
        r = Ok tt
        /\ Gateway.status <$> book g' !! lv = Some (Some "FILLED"%string)
        /\ (length (log w') <= S (length (log w)))%nat).
Proof.
  intros Hg Hp Hq book.
  set (rec := {| trade_level := lv; trade_side := side;
                 trade_quantity := fill_qty; trade_price := fill_price;
                 trade_order_id := orderId order_status |}).
  unfold _handle_grid_order_fill. rewrite Hp, Hq. fold rec.
  unfold bind at 1. unfold mutate at 1, modify at 1.
  set (w1 := World (set_objects (alter (append_trade rec) addr) (mgr w))
               (script w) (log w)).
  assert (Hg1 : objects (mgr w1) !! addr = Some (append_trade rec g))
    by (by apply lookup_alter_same).
  unfold bind at 1. unfold mark_filled. unfold bind at 1, read, bind at 1, get.
  rewrite Hg1. cbn [ret].
  assert (Hbook1 : (if String.eqb side "BUY"
                    then buy_orders (append_trade rec g)
                    else sell_orders (append_trade rec g)) = book g)
    by (unfold book; destruct (String.eqb side "BUY"); reflexivity).
  destruct (book g !! lv) as [o|] eqn:Hlv.
  - (* the order is in the book *)
    set (g2 := if String.eqb side "BUY"
               then set_buy_orders (alter (set_status "FILLED") lv)
                      (append_trade rec g)
               else set_sell_orders (alter (set_status "FILLED") lv)
                      (append_trade rec g)).
    set (w2 := World (set_objects
                        (alter (if String.eqb side "BUY"
                                then set_buy_orders
                                       (alter (set_status "FILLED") lv)
                                else set_sell_orders
                                       (alter (set_status "FILLED") lv))
                           addr) (mgr w1)) (script w) (log w)).
    assert (Hmark :
      (if String.eqb side "BUY" then
         match buy_orders (append_trade rec g) !! lv with
         | Some _ =>
             mutate addr (set_buy_orders (alter (set_status "FILLED") lv))
         | None => raise (KeyError "level")
         end
       else
         match sell_orders (append_trade rec g) !! lv with
         | Some _ =>
             mutate addr (set_sell_orders (alter (set_status "FILLED") lv))
         | None => raise (KeyError "level")
         end) w1 = (Ok tt, w2)).
    { unfold w2, book in *. destruct (String.eqb side "BUY");
        rewrite Hbook1, Hlv; reflexivity. }
    rewrite Hmark.
    assert (Hg2 : objects (mgr w2) !! addr = Some g2).
    { unfold w2, g2. cbn [mgr set_objects objects].
      destruct (String.eqb side "BUY"); by apply lookup_alter_same. }
    assert (Hbook2 : Gateway.status <$> (if String.eqb side "BUY"
                       then buy_orders g2 else sell_orders g2) !! lv
                     = Some (Some "FILLED"%string)).
    { unfold g2, book in *. destruct (String.eqb side "BUY");
        cbn [set_buy_orders set_sell_orders buy_orders sell_orders
             append_trade set_trades_profit];
        rewrite lookup_alter_eq, Hlv; reflexivity. }
    assert (Htr2 : executed_trades g2 = executed_trades g ++ [rec]
                   /\ grid_levels g2 = grid_levels g).
    { unfold g2. destruct (String.eqb side "BUY"); split; reflexivity. }
    destruct Htr2 as [Htr2 Hlev2].
    unfold bind at 1.
    set (counter := if String.eqb side "BUY" then "SELL"%string
                    else "BUY"%string).
    assert (Hcounter :
      (if String.eqb side "BUY" then _place_counter_order addr lv "SELL"
       else _place_counter_order addr lv "BUY")
      = _place_counter_order addr lv counter)
      by (unfold counter; destruct (String.eqb side "BUY"); reflexivity).
    rewrite Hcounter.
    destruct (counter_order_spec addr g2 lv counter w2 Hg2)
      as (w3 & g3 & Hrun3 & Hg3 & Htr3 & Hlev3 & _ & Hbook3 & Hlog3).
    rewrite Hrun3.
    unfold _calculate_grid_profit, mutate, modify.
    eexists _, _, (calculate_grid_profit g3).
    split; [reflexivity|]. cbn [mgr set_objects objects].
    split; [by apply lookup_alter_same|].
    assert (Hkeep : executed_trades (calculate_grid_profit g3)
                    = executed_trades g3
                    /\ grid_levels (calculate_grid_profit g3) = grid_levels g3
                    /\ buy_orders (calculate_grid_profit g3) = buy_orders g3
                    /\ sell_orders (calculate_grid_profit g3)
                       = sell_orders g3).
    { unfold calculate_grid_profit. destruct (_ <=? _)%nat; auto. }
    destruct Hkeep as (Hk1 & Hk2 & Hk3 & Hk4).
    split; [by rewrite Hk1, Htr3|]. split; [by rewrite Hk2, Hlev3|].
    split; [discriminate|]. intros _. split; [reflexivity|].
    split.
    + unfold book, counter in *. destruct (String.eqb side "BUY");
        cbn [String.eqb Ascii.eqb Bool.eqb] in Hbook3;
        rewrite ?Hk3, ?Hk4, Hbook3; exact Hbook2.
    + cbn [log]. destruct Hlog3 as [->|(l & _ & _ & ->)];
        [cbn; lia|rewrite length_app; cbn; lia].
  - (* no order at the level *)
    assert (Hmark :
      (if String.eqb side "BUY" then
         match buy_orders (append_trade rec g) !! lv with
         | Some _ =>
             mutate addr (set_buy_orders (alter (set_status "FILLED") lv))
         | None => raise (KeyError "level")
         end
       else
         match sell_orders (append_trade rec g) !! lv with
         | Some _ =>
             mutate addr (set_sell_orders (alter (set_status "FILLED") lv))
         | None => raise (KeyError "level")
         end) w1 = (Exn (KeyError "level"), w1)).
    { unfold book in *. destruct (String.eqb side "BUY");
        rewrite Hbook1, Hlv; reflexivity. }
    rewrite Hmark.
    exists (Exn (KeyError "level")), w1, (append_trade rec g).
    split; [reflexivity|]. split; [exact Hg1|].
    split; [reflexivity|]. split; [reflexivity|].
    split; [intros _; repeat split; reflexivity|].
    intros [? [=]].
Qed.

Lemma grid_fill_recorded_once_witness :
  exists r w' g',
    _handle_grid_order_fill 0 1 "BUY" (filled_order 1 1 100)
      (grid_started [RetOrder (new_order 4)]) = (r, w')
    /\ objects (mgr w') !! 0%nat = Some g'
    /\ length (executed_trades g') = 1%nat.
Proof.
  epose proof (grid_fill_recorded_once 0 _ 1 "BUY" (filled_order 1 1 100)
                 100 1 (grid_started [RetOrder (new_order 4)])) as H0.
  edestruct H0 as (r & w' & g' & Hrun & Hobj & Htr & _).
  - vm_compute. reflexivity.
  - reflexivity.
  - reflexivity.
  - exists r, w', g'. split; [exact Hrun|]. split; [exact Hobj|].
    rewrite Htr. reflexivity.
Defined.

(** *** Profit *)

Lemma credited_pairs_match buys recent p :
  p ∈ credited_pairs buys recent ->
  fst p ∈ buys /\ snd p ∈ recent /\ is_match (fst p) (snd p) = true.
Proof.
  induction buys as [|b buys IH]; cbn [credited_pairs].
  - intros H. by apply elem_of_nil in H.
  - destruct (String.eqb (trade_side b) "BUY").
    + destruct (find (is_match b) recent) as [s|] eqn:Hfind.
      * intros H. apply elem_of_cons in H as [->|H].
        -- apply find_some in Hfind as [Hin Hm]. cbn.
           split; [by left|]. split; [by apply list_elem_of_In|exact Hm].
        -- destruct (IH H) as (? & ? & ?). split; [by right|auto].
      * intros H. destruct (IH H) as (? & ? & ?). split; [by right|auto].
    + intros H. destruct (IH H) as (? & ? & ?). split; [by right|auto].
Qed.

Lemma min_nonneg a b : 0 <= a -> 0 <= b -> 0 <= Py.min a b.
Proof. intros Ha Hb. unfold Py.min. by destruct (Qlt_le_dec b a). Qed.

Lemma fold_credit_nonneg pairs x :
  Forall (fun p => 0 <= pair_profit (fst p) (snd p)) pairs ->
  x <= fold_left credit pairs x.
Proof.
  revert x. induction pairs as [|p pairs IH]; intros x Hall; cbn [fold_left].
  - lra.
  - inversion Hall as [|? ? Hp Hrest]; subst.
    apply Qle_trans with (credit x p); [unfold credit; lra|].
    by apply IH.
Qed.

(** X23: As long as the recorded quantities are not negative, the profit
    calculation never lowers the total profit: every pair it credits is a
    BUY and a SELL at a higher price.  It leaves the trades alone, and
    with fewer than two trades it does nothing. *)
Theorem grid_profit_never_decreases g :
  Forall (fun t => 0 <= trade_quantity t) (last10 (executed_trades g)) ->
  total_profit g <= total_profit (calculate_grid_profit g)
  /\ executed_trades (calculate_grid_profit g) = executed_trades g
  /\ ((length (executed_trades g) < 2)%nat -> calculate_grid_profit g = g).
Proof.
  intros Hq. unfold calculate_grid_profit.
  destruct (Nat.leb_spec 2 (length (executed_trades g))) as [Hlen|Hlen];
    cbn [set_trades_profit total_profit executed_trades].
  - split; [|split; [reflexivity|lia]].
    apply fold_credit_nonneg. apply Forall_forall. intros p Hp.
    apply credited_pairs_match in Hp as (Hb & Hs & Hm).
    unfold is_match in Hm.
    apply andb_true_iff in Hm as [Hm _]. apply andb_true_iff in Hm as [_ Hm].
    destruct (ltb_spec (trade_price (fst p)) (trade_price (snd p)))
      as [Hlt|]; [|discriminate].
    rewrite Forall_forall in Hq. unfold pair_profit.
    apply Qmult_le_0_compat; [lra|]. apply min_nonneg; by apply Hq.
  - split; [lra|]. split; reflexivity.
Qed.

Lemma grid_profit_never_decreases_witness :
  exists g,
    objects (mgr grid_after_third_fill) !! 0%nat = Some g
    /\ total_profit g <= total_profit (calculate_grid_profit g).
Proof.
  eexists. split; [vm_compute; reflexivity|].
  apply grid_profit_never_decreases.
  vm_compute. repeat constructor; discriminate.
Defined.

End GridCounterFacts.

(** ** The initial orders of a grid *)

Module GridStartFacts.
Import Gateway Gateway.Notations GatewayFacts PyFacts Grid Examples Obs Views.
Import GridViews.
Import Validator TWAPLoopFacts TWAPThreadFacts GridLadderFacts.

Lemma map_alter_same {A B} (f : A -> B) (h : A -> A) (l : list A) i :
  (forall x, f (h x) = f x) -> map f (alter h i l) = map f l.
Proof.
  intros Hf. revert i. induction l as [|x l IH]; intros [|i]; cbn;
    rewrite ?Hf, ?IH; reflexivity.
Qed.

Lemma same_ladder_refl g : same_ladder g g.
Proof. repeat split. Qed.

Lemma accepted_app l1 l2 : accepted (l1 ++ l2) = (accepted l1 + accepted l2)%Z.
Proof.
  induction l1 as [|e l1 IH]; cbn; [reflexivity|].
  fold (accepted (l1 ++ l2)) (accepted l1). rewrite IH. lia.
Qed.

(** The level of the original ladder behind a level of the current one. *)
Lemma same_ladder_lookup g0 g i lv :
  same_ladder g0 g -> grid_levels g !! i = Some lv ->
  exists lv0, lv0 ∈ grid_levels g0 /\ rung lv0 = rung lv.
Proof.
  intros (_ & _ & _ & _ & Hmap) Hlv.
  assert (H : map rung (grid_levels g) !! i = Some (rung lv))
    by (by rewrite list_lookup_fmap, Hlv).
  rewrite Hmap, list_lookup_fmap in H.
  destruct (grid_levels g0 !! i) as [lv0|] eqn:H0; [|discriminate].
  exists lv0. split; [by eapply list_elem_of_lookup_2|].
  cbn in H. congruence.
Qed.

(** A level at which nothing is placed costs a pause. *)
Lemma skip_level_run (placed : Z) (w : world GridTradingManager) :
  (placed0 <- ret placed ;; sleep (1 # 10) ;;; ret placed0) w
  = (Ok placed,
     World (mgr w) (tl (script w))
       (log w ++ [(time_sleep (1 # 10), hd Raise (script w))])).
Proof.
  unfold sleep, bind, ret. rewrite interact_run.
  destruct (hd Raise (script w)); reflexivity.
Qed.

(** One round of the loop over the levels. *)
Lemma place_initial_level_spec addr i placed g0 g
    (w : world GridTradingManager) :
  objects (mgr w) !! addr = Some g -> same_ladder g0 g ->
  exists w' g' l,
    place_initial_level addr i placed w = (Ok (placed + accepted l)%Z, w')
    /\ log w' = log w ++ l
    /\ objects (mgr w') !! addr = Some g'
    /\ same_ladder g0 g'
    /\ Forall (initial_order g0) l
    /\ (length (requested l) <= 1)%nat.
Proof.
  intros Hg Hsame.
  assert (Hs := Hsame). destruct Hs as (Hid & Hsym & Hqty & Hcur & Hmap).
  unfold place_initial_level, try_except.
  unfold bind at 1. unfold read, bind at 1, get. rewrite Hg. cbn [ret].
  destruct (grid_levels g !! i) as [lv|] eqn:Hlv.
  2:{ exists w, g, []. rewrite app_nil_r, Z.add_0_r.
      repeat split; auto. }
  destruct (same_ladder_lookup g0 g i lv Hsame Hlv) as (lv0 & Hin & Hrung).
  injection Hrung as _ Hprice Htype.
  (* what a placement on side [sd] does *)
  assert (Hplace : forall sd book,
    sd = order_type lv ->
    (sd = "BUY"%string /\ price lv < current_price g
     \/ sd = "SELL"%string /\ current_price g < price lv) ->
    (forall o g1, same_ladder g0 g1 ->
       same_ladder g0 (set_levels (alter (set_level_placed o) i)
                         (book o g1))) ->
    (forall o g1, objects (mgr w) !! addr = Some g1 ->
       exists w1,
         (mutate addr (book o) ;;;
          mutate addr (set_levels (alter (set_level_placed o) i)) ;;;
          ret (placed + 1)%Z)
           (World (mgr w) (tl (script w))
              (log w ++ [(place_limit_order (symbol g) sd
                            (quantity_per_grid g) (price lv),
                          RetOrder o)]))
         = (Ok (placed + 1)%Z, w1)
         /\ script w1 = tl (script w)
         /\ log w1 = log w ++ [(place_limit_order (symbol g) sd
                                  (quantity_per_grid g) (price lv),
                                RetOrder o)]
         /\ objects (mgr w1) !! addr
            = Some (set_levels (alter (set_level_placed o) i) (book o g1))) ->
    exists w' g' l,
      match
        (placed0 <-
           (order_result <-
              call_order (place_limit_order (symbol g) sd
                            (quantity_per_grid g) (price lv)) ;;
            match order_result with
            | Some o =>
                mutate addr (book o) ;;;
                mutate addr (set_levels (alter (set_level_placed o) i)) ;;;
                ret (placed + 1)%Z
            | None => ret placed
            end) ;;
         sleep (1 # 10) ;;; ret placed0) w
      with
      | (Exn _, w') =>
          (mutate addr (set_levels (alter set_level_failed i)) ;;;
           ret placed) w'
      | r => r
      end = (Ok (placed + accepted l)%Z, w')
      /\ log w' = log w ++ l
      /\ objects (mgr w') !! addr = Some g'
      /\ same_ladder g0 g'
      /\ Forall (initial_order g0) l
      /\ (length (requested l) <= 1)%nat).
  { intros sd book Hsd Hside Hbook Hmut.
    assert (Hinit : forall r,
              initial_order g0
                (place_limit_order (symbol g) sd (quantity_per_grid g)
                   (price lv), r)).
    { intros r. cbn. split; [done|]. split; [done|].
      exists lv0. split; [exact Hin|]. split; [done|].
      split; [congruence|]. rewrite <- Hcur. exact Hside. }
    assert (Hfail : same_ladder g0 (set_levels (alter set_level_failed i) g)).
    { destruct Hsame as (? & ? & ? & ? & Hm). repeat split; try assumption.
      cbn [set_levels grid_levels]. rewrite <- Hm.
      by apply map_alter_same. }
    unfold bind at 1. unfold bind at 1. unfold call_order at 1, bind at 1.
    rewrite interact_run. cbn [script hd tl mgr log].
    destruct (hd Raise (script w)) as [| |o|inf|q|b|z|ids] eqn:Hr;
      cbn [ret raise].
    3:{ (* accepted *)
        destruct (Hmut o g Hg) as (w1 & Hrun1 & Hsc1 & Hlog1 & Hobj1).
        rewrite Hrun1.
        unfold bind at 1, sleep, bind at 1. rewrite interact_run.
        set (r2 := hd Raise (script w1)).
        exists (World (mgr w1) (tl (script w1))
                  (log w1 ++ [(time_sleep (1 # 10), r2)])),
               (set_levels (alter (set_level_placed o) i) (book o g)),
               [(place_limit_order (symbol g) sd (quantity_per_grid g)
                   (price lv), RetOrder o);
                (time_sleep (1 # 10), r2)].
        split; [destruct r2; reflexivity|].
        cbn [log mgr]. rewrite Hlog1, <- app_assoc.
        split; [reflexivity|]. split; [exact Hobj1|].
        split; [by apply Hbook|].
        split; [constructor; [apply Hinit|constructor; [exact I|constructor]]|].
        cbn. lia. }
    2:{ (* refused without an exception *)
        unfold bind at 1, sleep, bind at 1. rewrite interact_run.
        cbn [script hd tl mgr log].
        set (r2 := hd Raise (tl (script w))).
        exists (World (mgr w) (tl (tl (script w)))
                  ((log w ++ [(place_limit_order (symbol g) sd
                                 (quantity_per_grid g) (price lv), RetNone)])
                   ++ [(time_sleep (1 # 10), r2)])),
               g,
               [(place_limit_order (symbol g) sd (quantity_per_grid g)
                   (price lv), RetNone);
                (time_sleep (1 # 10), r2)].
        split; [destruct r2; cbn; rewrite Z.add_0_r; reflexivity|].
        cbn [log mgr].
        split; [by rewrite <- app_assoc|].
        split; [exact Hg|].
        split; [exact Hsame|].
        split; [constructor; [apply Hinit|constructor; [exact I|constructor]]|].
        cbn. lia. }
    all: unfold mutate, modify, bind; cbn [mgr script log ret];
      match goal with
      | |- context [(place_limit_order ?a ?b ?c ?d, ?r)] =>
          pose (e := (place_limit_order a b c d, r));
          eexists _, (set_levels (alter set_level_failed i) g), [e]
      end;
      (split; [cbn; rewrite Z.add_0_r; reflexivity|]);
      (split; [reflexivity|]); cbn [mgr set_objects objects];
      (split; [by apply lookup_alter_same|]);
      (split; [exact Hfail|]);
      (split; [constructor; [apply Hinit|constructor]|]); cbn; lia. }
  assert (Hmutate : forall (book : order -> grid_strategy -> grid_strategy)
                      sd o g1,
    objects (mgr w) !! addr = Some g1 ->
    exists w1,
      (mutate addr (book o) ;;;
       mutate addr (set_levels (alter (set_level_placed o) i)) ;;;
       ret (placed + 1)%Z)
        (World (mgr w) (tl (script w))
           (log w ++ [(place_limit_order (symbol g) sd
                         (quantity_per_grid g) (price lv), RetOrder o)]))
      = (Ok (placed + 1)%Z, w1)
      /\ script w1 = tl (script w)
      /\ log w1 = log w ++ [(place_limit_order (symbol g) sd
                               (quantity_per_grid g) (price lv), RetOrder o)]
      /\ objects (mgr w1) !! addr
         = Some (set_levels (alter (set_level_placed o) i) (book o g1))).
  { intros book sd o g1 Hg1. unfold mutate, modify, bind, ret.
    cbn [mgr script log]. eexists. split; [reflexivity|].
    split; [reflexivity|]. split; [reflexivity|].
    cbn [mgr set_objects objects].
    by apply lookup_alter_same, lookup_alter_same. }
  assert (Hkeep : forall (f : gmap Z order -> gmap Z order) o g1,
            same_ladder g0 g1 ->
            same_ladder g0 (set_levels (alter (set_level_placed o) i)
                              (set_buy_orders f g1))
            /\ same_ladder g0 (set_levels (alter (set_level_placed o) i)
                                 (set_sell_orders f g1))).
  { intros f o g1 (? & ? & ? & ? & Hm).
    split; (repeat split; try assumption;
            cbn [set_levels set_buy_orders set_sell_orders grid_levels];
            rewrite <- Hm; by apply map_alter_same). }
  destruct (String.eqb (order_type lv) "BUY") eqn:Hbuy.
  - apply String.eqb_eq in Hbuy.
    destruct (ltb_spec (price lv) (current_price g)) as [Hlt|Hge];
      cbn [andb].
    + apply (Hplace "BUY"%string
               (fun o => set_buy_orders (insert (level lv) o)));
        [by symmetry|by left| |].
      * intros o g1 H1. by apply Hkeep.
      * intros o g1 H1.
        exact (Hmutate (fun o => set_buy_orders (insert (level lv) o))
                 "BUY"%string o g1 H1).
    + rewrite Hbuy. cbn [String.eqb Ascii.eqb Bool.eqb andb].
      rewrite skip_level_run.
      exists (World (mgr w) (tl (script w))
                (log w ++ [(time_sleep (1 # 10), hd Raise (script w))])),
             g, [(time_sleep (1 # 10), hd Raise (script w))].
      split; [cbn; rewrite Z.add_0_r; reflexivity|].
      repeat split; auto. constructor; [exact I|constructor].
  - cbn [andb].
    destruct (String.eqb (order_type lv) "SELL") eqn:Hsell.
    + apply String.eqb_eq in Hsell.
      destruct (ltb_spec (current_price g) (price lv)) as [Hlt|Hge];
        cbn [andb].
      * apply (Hplace "SELL"%string
                 (fun o => set_sell_orders (insert (level lv) o)));
          [by symmetry|by right| |].
        -- intros o g1 H1. by apply Hkeep.
        -- intros o g1 H1.
           exact (Hmutate (fun o => set_sell_orders (insert (level lv) o))
                    "SELL"%string o g1 H1).
      * rewrite skip_level_run.
        exists (World (mgr w) (tl (script w))
                  (log w ++ [(time_sleep (1 # 10), hd Raise (script w))])),
               g, [(time_sleep (1 # 10), hd Raise (script w))].
        split; [cbn; rewrite Z.add_0_r; reflexivity|].
        repeat split; auto. constructor; [exact I|constructor].
    + cbn [andb].
      rewrite skip_level_run.
      exists (World (mgr w) (tl (script w))
                (log w ++ [(time_sleep (1 # 10), hd Raise (script w))])),
             g, [(time_sleep (1 # 10), hd Raise (script w))].
      split; [cbn; rewrite Z.add_0_r; reflexivity|].
      repeat split; auto. constructor; [exact I|constructor].
Qed.

Lemma place_initial_levels_spec addr positions :
  forall placed g0 g (w : world GridTradingManager),
    objects (mgr w) !! addr = Some g -> same_ladder g0 g ->
    exists w' g' l,
      place_initial_levels addr positions placed w
      = (Ok (placed + accepted l)%Z, w')
      /\ log w' = log w ++ l
      /\ objects (mgr w') !! addr = Some g'
      /\ same_ladder g0 g'
      /\ Forall (initial_order g0) l
      /\ (length (requested l) <= length positions)%nat.
Proof.
  induction positions as [|i rest IH]; intros placed g0 g w Hg Hsame.
  - exists w, g, []. cbn. rewrite app_nil_r, Z.add_0_r.
    split; [reflexivity|]. split; [reflexivity|]. split; [exact Hg|].
    split; [exact Hsame|]. split; [constructor|cbn; lia].
  - cbn [place_initial_levels].
    destruct (place_initial_level_spec addr i placed g0 g w Hg Hsame)
      as (w1 & g1 & l1 & Hrun1 & Hlog1 & Hg1 & Hsame1 & Hall1 & Hlen1).
    unfold bind. rewrite Hrun1.
    destruct (IH (placed + accepted l1)%Z g0 g1 w1 Hg1 Hsame1)
      as (w2 & g2 & l2 & Hrun2 & Hlog2 & Hg2 & Hsame2 & Hall2 & Hlen2).
    exists w2, g2, (l1 ++ l2). rewrite Hrun2, accepted_app, Z.add_assoc.
    split; [reflexivity|]. split; [by rewrite Hlog2, Hlog1, <- app_assoc|].
    split; [exact Hg2|]. split; [exact Hsame2|].
    split; [by apply Forall_app|].
    rewrite requested_app, length_app. cbn [length]. lia.
Qed.

(** [_place_initial_grid_orders] as a whole. *)
Lemma place_initial_grid_orders_spec
    addr g (w : world GridTradingManager) :
  objects (mgr w) !! addr = Some g ->
  exists w' g' l,
    _place_initial_grid_orders addr w = (Ok tt, w')
    /\ log w' = log w ++ l
    /\ Forall (initial_order g) l
    /\ (length (requested l) <= length (grid_levels g))%nat
    /\ objects (mgr w') !! addr = Some g'
    /\ placed_orders_count g' = Some (accepted l)
    /\ same_ladder g g'.
Proof.
  intros Hg.
  unfold _place_initial_grid_orders. unfold bind at 1, read, bind at 1, get.
  rewrite Hg. cbn [ret].
  destruct (place_initial_levels_spec addr (seq 0 (length (grid_levels g)))
              0%Z g g w Hg (same_ladder_refl g))
    as (w1 & g1 & l & Hrun & Hlog & Hg1 & Hsame & Hall & Hlen).
  unfold bind at 1. rewrite Hrun.
  unfold bind at 1. unfold bind at 1, get. rewrite Hg1. cbn [ret].
  unfold mutate, modify.
  eexists _, (set_status_count (status g1) (Some (accepted l)) g1), l.
  split; [reflexivity|]. cbn [log mgr set_objects objects].
  split; [exact Hlog|]. split; [exact Hall|].
  split; [by rewrite length_seq in Hlen|].
  split; [rewrite Z.add_0_l; by apply lookup_alter_same|].
  split; [reflexivity|exact Hsame].
Qed.

(** X24: The initial placement never raises.  Every order it sends is a limit
    order for the strategy's symbol and quantity at the price of a level
    of the ladder: a BUY strictly below the market price or a SELL strictly
    above it, so nothing is placed at a level at the market price; there are
    no more orders than levels.  [placed_orders_count] ends as the number
    of orders that the exchange accepted, and the ladder keeps its levels,
    prices and sides. *)
Theorem initial_orders_on_their_side_of_the_market
    addr g (w : world GridTradingManager) :
  objects (mgr w) !! addr = Some g ->
  exists w' g' l,
    _place_initial_grid_orders addr w = (Ok tt, w')
    /\ log w' = log w ++ l
    /\ Forall (initial_order g) l
    /\ (length (requested l) <= length (grid_levels g))%nat
    /\ objects (mgr w') !! addr = Some g'
    /\ placed_orders_count g' = Some (accepted l)
    /\ same_ladder g g'.
Proof.
  intros Hg.
  destruct (place_initial_grid_orders_spec addr g w Hg)
    as (w' & g' & l & Hrun & Hlog & Hall & Hlen & Hg' & Hcount & Hsame).
  exists w', g', l. split; [exact Hrun|]. split; [exact Hlog|].
  split; [exact Hall|]. split; [exact Hlen|]. split; [exact Hg'|].
  split; [exact Hcount|exact Hsame].
Qed.

Lemma initial_orders_on_their_side_of_the_market_witness :
  exists w' g' l,
    _place_initial_grid_orders 0
      (grid_started [RetOrder (new_order 4); Woke []; Raise]) = (Ok tt, w')
    /\ log w'
       = log (grid_started [RetOrder (new_order 4); Woke []; Raise]) ++ l
    /\ objects (mgr w') !! 0%nat = Some g'
    /\ placed_orders_count g' = Some (accepted l).
Proof.
  epose proof (initial_orders_on_their_side_of_the_market 0 _
                 (grid_started [RetOrder (new_order 4); Woke []; Raise]))
    as H0.
  edestruct H0 as (w' & g' & l & Hrun & Hlog & _ & _ & Hobj & Hcount & _).
  - vm_compute. reflexivity.
  - exists w', g', l. auto.
Defined.

(** *** Starting a strategy *)

Lemma validate_grid_count_kept cfg r v :
  validate_grid cfg r = inr v ->
  grid_grid_count v = grid_grid_count r
  /\ (2 <= grid_grid_count r <= 50)%Z.
Proof.
  unfold validate_grid.
  destruct (validate_symbol _); [|discriminate].
  destruct (validate_positive _); [|discriminate].
  destruct (validate_grid_count (grid_grid_count r)) as [gc|] eqn:Hgc;
    [|discriminate].
  destruct (validate_lower_price _ _); [|discriminate].
  destruct (validate_price_range _ _ _); [|discriminate].
  intros [= <-]. cbn. unfold validate_grid_count in Hgc.
  destruct ((1 <? grid_grid_count r) && (grid_grid_count r <=? 50))%Z eqn:Hc;
    [|discriminate].
  injection Hgc as <-. apply andb_true_iff in Hc as [H1 H2]. lia.
Qed.

Lemma seqZ_nonempty n : (0 < n)%Z -> seqZ 0 n <> [].
Proof.
  intros Hn H. apply (f_equal length) in H. rewrite length_seqZ in H.
  cbn in H. lia.
Qed.

Lemma eqb_true_of_zero q : q == 0 -> Py.eqb q 0 = true.
Proof. intros H. unfold Py.eqb. by apply Qeq_bool_iff. Qed.

Lemma eqb_false_of_not_zero q : ~ q == 0 -> Py.eqb q 0 = false.
Proof.
  intros H. unfold Py.eqb. destruct (Qeq_bool q 0) eqn:E; [|reflexivity].
  apply Qeq_bool_iff in E. contradiction.
Qed.

(** The start of a valid request up to the ladder: the price query and the
    tick size lookup. *)
Ltac grid_start_prefix Hv Hn :=
  unfold execute_grid_strategy; rewrite try_except_reraise, Hv;
  unfold bind at 1; cbn [construct ret];
  unfold bind at 1; unfold call_float at 1, bind at 1; rewrite interact_run;
  cbn [script hd tl mgr log ret];
  unfold bind at 1; rewrite calculate_grid_levels_run by lia;
  cbn [script hd tl mgr log]; cbv zeta;
  replace (0 <? _)%Z with true by (symmetry; apply Z.ltb_lt; lia);
  cbn [andb].

(** X25: When the exchange reports a tick size of zero, or a price of zero, a
    valid request fails with [ZeroDivisionError] after the price query and
    the tick size lookup: the user is not asked, no order is placed and
    nothing is stored. *)
Theorem grid_start_zero_tick_or_price_fails
    cfg symbol quantity_per_grid grid_count lower_price upper_price base_side
    (w : world GridTradingManager) v cur rinfo rest :
  validate_grid cfg
    {| grid_symbol := symbol; grid_quantity_per_grid := quantity_per_grid;
       grid_grid_count := grid_count; grid_lower_price := lower_price;
       grid_upper_price := upper_price |} = inr v ->
  script w = RetFloat cur :: rinfo :: rest ->
  tick_size_from rinfo == 0 \/ cur == 0 ->
  execute_grid_strategy cfg symbol quantity_per_grid grid_count lower_price
    upper_price base_side w
  = (Exn ZeroDivisionError,
     World (mgr w) rest
       (log w ++ [(get_current_price symbol, RetFloat cur);
                  (get_symbol_info "BTCUSDT", rinfo)])).
Proof.
  intros Hv Hscript Hzero.
  destruct (validate_grid_count_kept _ _ _ Hv) as [Hcount Hn].
  cbn in Hcount, Hn.
  destruct w as [m sc lg]. cbn [script mgr log] in *. subst sc.
  grid_start_prefix Hv Hn.
  destruct (Py.eqb (tick_size_from rinfo) 0) eqn:Htick.
  { rewrite <- app_assoc. reflexivity. }
  destruct Hzero as [Hz|Hz];
    [apply eqb_true_of_zero in Hz; congruence|].
  unfold bind at 1. unfold _display_grid_details.
  rewrite (eqb_true_of_zero _ Hz).
  case_bool_decide as Hnil.
  { apply map_eq_nil in Hnil. by apply seqZ_nonempty in Hnil; [|lia]. }
  cbn [negb andb raise]. rewrite <- app_assoc. reflexivity.
Qed.

Lemma grid_start_zero_tick_or_price_fails_witness :
  execute_grid_strategy Config.default "ETHUSDT" 1 3 100 110 "BOTH"
    (World (Grid.init true)
       [RetFloat 102;
        RetInfo {| filters := Some [ {| filterType := Some "PRICE_FILTER";
                                        tickSize := Num 0 |} ] |};
        RetFloat 1000] [])
  = (Exn ZeroDivisionError,
     World (Grid.init true) [RetFloat 1000]
       [(get_current_price "ETHUSDT", RetFloat 102);
        (get_symbol_info "BTCUSDT",
         RetInfo {| filters := Some [ {| filterType := Some "PRICE_FILTER";
                                         tickSize := Num 0 |} ] |})]).
Proof.
  eapply (grid_start_zero_tick_or_price_fails Config.default "ETHUSDT" 1 3
            100 110 "BOTH"
            (World (Grid.init true)
               [RetFloat 102;
                RetInfo {| filters := Some [ {| filterType :=
                                                  Some "PRICE_FILTER";
                                                tickSize := Num 0 |} ] |};
                RetFloat 1000] [])).
  - vm_compute. reflexivity.
  - reflexivity.
  - left. vm_compute. reflexivity.
Defined.

Lemma initial_order_same_ladder g0 g e :
  same_ladder g0 g -> initial_order g0 e -> initial_order g e.
Proof.
  intros (_ & Hsym & Hqty & Hcur & Hmap). unfold initial_order.
  destruct (fst e); try done.
  intros (-> & -> & lv0 & Hin & -> & -> & Hside).
  split; [by symmetry|]. split; [by symmetry|].
  assert (Hr : rung lv0 ∈ map rung (grid_levels g)).
  { rewrite Hmap. by apply list_elem_of_fmap_2. }
  apply list_elem_of_fmap in Hr as (lv & Hrung & Hlv).
  injection Hrung as _ Hprice Htype.
  exists lv. split; [exact Hlv|]. split; [exact Hprice|].
  split; [exact Htype|]. by rewrite Hcur.
Qed.

(** X26: A valid and confirmed request, with a price that is not zero and a
    positive tick size, starts a strategy: it is stored, with one level
    per unit of the grid count, the symbol and quantity as given and the
    price that the exchange reported, and then registered under the id
    made of the clock's whole seconds; its thread is started, and between
    the clock and the thread the only requests are the initial orders,
    each a BUY below or a SELL above the market price at a level of the
    stored ladder.  [placed_orders_count] is the number of them that the
    exchange accepted. *)
Theorem grid_start_places_ladder_and_registers
    cfg symbol quantity_per_grid grid_count lower_price upper_price base_side
    (w : world GridTradingManager) v cur rinfo now rest :
  validate_grid cfg
    {| grid_symbol := symbol; grid_quantity_per_grid := quantity_per_grid;
       grid_grid_count := grid_count; grid_lower_price := lower_price;
       grid_upper_price := upper_price |} = inr v ->
  ~ cur == 0 -> 0 < tick_size_from rinfo ->
  script w
  = RetFloat cur :: rinfo :: confirm_script (no_confirm (mgr w))
    ++ RetFloat now :: rest ->
  let addr := length (objects (mgr w)) in
  exists w' g' l,
    execute_grid_strategy cfg symbol quantity_per_grid grid_count lower_price
      upper_price base_side w = (Ok (Started addr), w')
    /\ objects (mgr w') !! addr = Some g'
    /\ grid_id g' = "GRID_" +:+ pretty (Py.int now)
    /\ Grid.symbol g' = symbol
    /\ Grid.quantity_per_grid g' = quantity_per_grid
    /\ current_price g' = cur
    /\ length (grid_levels g') = Z.to_nat grid_count
    /\ placed_orders_count g' = Some (accepted l)
    /\ active_grids (mgr w') !! grid_id g' = Some addr
    /\ Forall (initial_order g') l
    /\ (length (requested l) <= Z.to_nat grid_count)%nat
    /\ log w'
       = log w
         ++ [(get_current_price symbol, RetFloat cur);
             (get_symbol_info "BTCUSDT", rinfo)]
         ++ confirm_log (no_confirm (mgr w))
         ++ [(time_time, RetFloat now)]
         ++ l
         ++ [(thread_start "_monitor_grid_strategy" addr, RetNone)].
Proof.
  intros Hv Hcur Htick0 Hscript addr.
  assert (Htick : ~ tick_size_from rinfo == 0) by (intros H; lra).
  set (g0 :=
    {| grid_id := "GRID_" +:+ pretty (Py.int now); symbol := symbol;
       quantity_per_grid := quantity_per_grid; grid_count := grid_count;
       lower_price := lower_price; upper_price := upper_price;
       base_side := base_side; current_price := cur;
       grid_levels :=
         map (make_level lower_price
                ((upper_price - lower_price) / inject_Z (grid_count - 1))
                (tick_size_from rinfo) cur) (seqZ 0 grid_count);
       buy_orders := ∅; sell_orders := ∅; executed_trades := [];
       total_profit := 0; status := "ACTIVE";
       placed_orders_count := None |}).
  destruct (validate_grid_count_kept _ _ _ Hv) as [Hcount Hn].
  cbn in Hcount, Hn.
  destruct w as [m sc lg]. cbn [script mgr log] in *. subst sc.
  grid_start_prefix Hv Hn.
  rewrite (eqb_false_of_not_zero _ Htick).
  unfold bind at 1. unfold _display_grid_details.
  rewrite (eqb_false_of_not_zero _ Hcur), andb_false_r, Hcount.
  replace (grid_count - 1 =? 0)%Z with false by (symmetry; lia).
  cbn [ret].
  (* the prompt *)
  set (lg1 := (lg ++ [(get_current_price symbol, RetFloat cur)])
              ++ [(get_symbol_info "BTCUSDT", rinfo)]).
  assert (Hconfirm : forall sc',
    _confirm_grid_strategy
      (World m (confirm_script (no_confirm m) ++ sc') lg1)
    = (Ok true, World m sc' (lg1 ++ confirm_log (no_confirm m)))).
  { intros sc'. unfold _confirm_grid_strategy, bind at 1, get. cbn [mgr].
    unfold confirm_script, confirm_log. destruct (no_confirm m).
    - cbn. by rewrite app_nil_r.
    - unfold call_bool, bind. rewrite interact_run. reflexivity. }
  unfold bind at 1. rewrite Hconfirm. cbn [negb].
  unfold bind at 1. unfold call_float at 1, bind at 1. rewrite interact_run.
  cbn [script hd tl mgr log ret].
  unfold bind at 1, get. cbn [mgr]. fold addr.
  unfold bind at 1. unfold modify at 1. cbn [mgr script log].
  fold g0.
  set (w0 := World (set_objects (fun l => l ++ [g0]) m) rest
               ((lg1 ++ confirm_log (no_confirm m))
                ++ [(time_time, RetFloat now)])).
  assert (Hg0 : objects (mgr w0) !! addr = Some g0).
  { cbn [mgr w0 set_objects objects]. by apply list_lookup_middle. }
  destruct (place_initial_grid_orders_spec addr g0 w0 Hg0)
    as (w1 & g1 & l & Hrun & Hlog & Hall & Hlen & Hg1 & Hplaced & Hsame).
  unfold bind at 1. rewrite Hrun.
  unfold bind at 1. unfold _start_grid_monitoring.
  unfold bind at 1. unfold read, bind at 1, get. rewrite Hg1. cbn [ret].
  unfold bind, modify, emit, ret. cbn [mgr script log].
  exists (World (set_active (insert (grid_id g1) addr) (mgr w1)) (script w1)
            (log w1 ++ [(thread_start "_monitor_grid_strategy" addr,
                         RetNone)])),
         g1, l.
  split; [reflexivity|]. cbn [mgr log set_active objects active_grids].
  split; [exact Hg1|].
  assert (Hs := Hsame). destruct Hs as (Hid & Hsym & Hqty & Hcp & Hmap).
  split; [exact Hid|]. split; [exact Hsym|]. split; [exact Hqty|].
  split; [exact Hcp|].
  cbn [grid_levels g0] in Hlen. rewrite length_map, length_seqZ in Hlen.
  split.
  { apply (f_equal length) in Hmap. rewrite !length_map in Hmap.
    rewrite Hmap. cbn [grid_levels g0].
    by rewrite length_map, length_seqZ. }
  split; [exact Hplaced|].
  split; [apply lookup_insert_eq|].
  split.
  { eapply Forall_impl; [exact Hall|].
    intros e. by apply initial_order_same_ladder. }
  split; [exact Hlen|].
  rewrite Hlog. unfold w0, lg1. cbn [log].
  rewrite <- !app_assoc. reflexivity.
Qed.

Lemma grid_start_places_ladder_and_registers_witness :
  exists w' g' l,
    execute_grid_strategy Config.default "ETHUSDT" 1 3 100 110 "BOTH"
      (World (Grid.init true)
         [RetFloat 102; Raise; RetFloat 1000;
          RetOrder (new_order 1); Woke [];
          RetOrder (new_order 2); Woke [];
          RetOrder (new_order 3); Woke []] [])
    = (Ok (Started 0), w')
    /\ objects (mgr w') !! 0%nat = Some g'
    /\ placed_orders_count g' = Some (accepted l)
    /\ active_grids (mgr w') !! "GRID_1000"%string = Some 0%nat.
Proof.
  epose proof (grid_start_places_ladder_and_registers Config.default
                 "ETHUSDT" 1 3 100 110 "BOTH"
                 (World (Grid.init true)
                    [RetFloat 102; Raise; RetFloat 1000;
                     RetOrder (new_order 1); Woke [];
                     RetOrder (new_order 2); Woke [];
                     RetOrder (new_order 3); Woke []] [])
                 _ 102 Raise 1000
                 [RetOrder (new_order 1); Woke [];
                  RetOrder (new_order 2); Woke [];
                  RetOrder (new_order 3); Woke []]) as H0.
  edestruct H0
    as (w' & g' & l & Hrun & Hobj & Hid & _ & _ & _ & _ & Hcount & Hreg & _).
  - vm_compute. reflexivity.
  - vm_compute. discriminate.
  - vm_compute. reflexivity.
  - reflexivity.
  - exists w', g', l. split; [exact Hrun|]. split; [exact Hobj|].
    split; [exact Hcount|]. rewrite Hid in Hreg. exact Hreg.
Defined.

End GridStartFacts.
